(** * last30days-skill: web and Reddit result normalizers

    A shallow embedding of the three modules under [scripts/lib]:

    - [perplexity_search]: citations of a Perplexity Sonar answer turned into
      web items, with a relevance estimated from position and reference count;
    - [tavily_search]: Tavily results turned into web items;
    - [tavily_reddit]: Tavily results restricted to Reddit, with the dates
      that are missing fetched from Reddit's JSON endpoint.

    Conventions of the embedding.

    - A Python [str] is a [string]; each [ascii] stands for the code point of
      the same number, so the strings covered are those over code points
      below 256.
    - A Python [float] is the rational it denotes (every finite binary64 value
      is one), and each arithmetic operation rounds its exact result to the
      nearest binary64 value, ties to even ([PyFloat.fl]).
    - A decoded JSON document is a [value].
    - A Python call that may raise returns a [pyresult].
    - What the modules import from outside this directory (the standard
      library's [urlparse], [float] and [str]; the sibling modules [http] and
      [dates]) is a field of the classes [PyRuntime] and [RedditNet]. *)

From Stdlib Require Import ZArith QArith Qround Qabs Qpower Lia Lqa Bool List Sorted.
From Stdlib Require Import Ascii String DecimalString Floats.
From Stdlib Require DecimalNat DecimalFacts.
Import ListNotations.
Close Scope Q_scope.
Open Scope nat_scope.

Set Implicit Arguments.
Set Warnings "-register-all,-inexact-float".

(* ================================================================== *)
(** * Python strings *)

Module PyStr.
Open Scope string_scope.
Open Scope nat_scope.

(** [str.isspace] on one character (also the class [\s] of [re]). *)
Definition is_space (c : ascii) : bool :=
  let n := nat_of_ascii c in
  ((9 <=? n) && (n <=? 13)) || ((28 <=? n) && (n <=? 32))
  || (n =? 133) || (n =? 160).

(** The class [\d] of [re] (the only decimal digits below code point 256). *)
Definition is_digit (c : ascii) : bool :=
  let n := nat_of_ascii c in (48 <=? n) && (n <=? 57).

Definition lower_char (c : ascii) : ascii :=
  let n := nat_of_ascii c in
  if ((65 <=? n) && (n <=? 90))
     || ((192 <=? n) && (n <=? 222) && negb (n =? 215))
  then ascii_of_nat (n + 32) else c.

(** [s.lower()] *)
Fixpoint lower (s : string) : string :=
  match s with
  | EmptyString => EmptyString
  | String c s' => String (lower_char c) (lower s')
  end.

(** [s[:n]] *)
Fixpoint take (n : nat) (s : string) : string :=
  match n, s with
  | S n', String c s' => String c (take n' s')
  | _, _ => EmptyString
  end.

Arguments take : simpl never.

(** [s[n:]] *)
Fixpoint drop (n : nat) (s : string) : string :=
  match n, s with
  | S n', String _ s' => drop n' s'
  | _, _ => s
  end.

(** [s.startswith(p)] *)
Definition startswith (p s : string) : bool := String.prefix p s.

(** [sub in s] *)
Fixpoint contains (sub s : string) : bool :=
  startswith sub s
  || match s with
     | EmptyString => false
     | String _ s' => contains sub s'
     end.

Fixpoint lstrip_by (p : ascii -> bool) (s : string) : string :=
  match s with
  | EmptyString => EmptyString
  | String c s' => if p c then lstrip_by p s' else s
  end.

Fixpoint rstrip_by (p : ascii -> bool) (s : string) : string :=
  match s with
  | EmptyString => EmptyString
  | String c s' =>
      match rstrip_by p s' with
      | EmptyString => if p c then EmptyString else String c EmptyString
      | r => String c r
      end
  end.

(** [s.strip()] *)
Definition strip (s : string) : string :=
  rstrip_by is_space (lstrip_by is_space s).

(** [s.rstrip('.')] *)
Definition rstrip_dot (s : string) : string :=
  rstrip_by (fun c => Ascii.eqb c ".") s.

(** [re.sub(r'[*_`]', '', s)] *)
Definition is_emphasis (c : ascii) : bool :=
  Ascii.eqb c "*" || Ascii.eqb c "_" || Ascii.eqb c "`".

Fixpoint remove_chars (p : ascii -> bool) (s : string) : string :=
  match s with
  | EmptyString => EmptyString
  | String c s' =>
      if p c then remove_chars p s' else String c (remove_chars p s')
  end.

(** Length of the longest prefix of [s] made of characters in [p]. *)
Fixpoint span (p : ascii -> bool) (s : string) : nat :=
  match s with
  | EmptyString => 0
  | String c s' => if p c then S (span p s') else 0
  end.

(** Decimal numeral of a natural number, as [f"{n}"] prints it. *)
Definition dec (n : nat) : string :=
  NilZero.string_of_uint (Nat.to_uint n).

(** Decimal numeral of an integer, as [str(z)] prints it. *)
Definition dec_Z (z : Z) : string :=
  NilZero.string_of_int (Z.to_int z).

(** [re.match(r'^\d{4}-\d{2}-\d{2}$', s)]: ten characters of that shape;
    [$] also matches before one final newline. *)
Definition iso_date_shape (s : string) : bool :=
  match s with
  | String y1 (String y2 (String y3 (String y4 (String h1
      (String m1 (String m2 (String h2 (String d1 (String d2 rest))))))))) =>
      is_digit y1 && is_digit y2 && is_digit y3 && is_digit y4
      && Ascii.eqb h1 "-" && is_digit m1 && is_digit m2
      && Ascii.eqb h2 "-" && is_digit d1 && is_digit d2
      && (String.eqb rest "" || String.eqb rest (String (ascii_of_nat 10) ""))
  | _ => false
  end.
(** [s.split()]: the maximal runs of characters that are not whitespace;
    [word] is the run being read. *)
Fixpoint split_from (word s : string) : list string :=
  match s with
  | EmptyString => if String.eqb word "" then [] else [word]
  | String c s' =>
      if is_space c
      then (if String.eqb word "" then split_from "" s'
            else word :: split_from "" s')
      else split_from (word ++ String c "") s'
  end.

Definition split (s : string) : list string := split_from "" s.

(** [sep.join(words)] *)
Definition join (sep : string) (words : list string) : string :=
  String.concat sep words.
End PyStr.

(* ================================================================== *)
(** * Python floats *)

Module PyFloat.
Open Scope Q_scope.

(** Nearest integer, ties to even. *)
Definition rne (y : Q) : Z :=
  let f := Qfloor y in
  match Qcompare (2 * (y - inject_Z f)) 1 with
  | Lt => f
  | Gt => (f + 1)%Z
  | Eq => if Z.even f then f else (f + 1)%Z
  end.

Definition pow2 (k : Z) : Q :=
  match k with
  | Z0 => 1
  | Zpos p => inject_Z (2 ^ Zpos p)
  | Zneg p => 1 # (2 ^ p)
  end.

(** [floor (log2 x)] for a positive rational *)
Definition ilog2 (x : Q) : Z :=
  let e0 := (Z.log2 (Qnum x) - Z.log2 (Zpos (Qden x)))%Z in
  match Qcompare x (pow2 e0) with
  | Lt => (e0 - 1)%Z
  | _ => e0
  end.

(** Rounding to binary64: 53 significant bits, least exponent [-1074],
    nearest with ties to even.  The result is a reduced fraction. *)
Definition fl (x : Q) : Q :=
  if Qeq_bool x 0 then 0
  else
    let k := Z.min (52 - ilog2 (Qabs x)) 1074 in
    Qred (inject_Z (rne (x * pow2 k)) * pow2 (- k)).

(** A rounded value of this size or more is an overflow. *)
Definition overflows (x : Q) : bool := Qle_bool (pow2 1024) (Qabs (fl x)).

Definition fadd (x y : Q) : Q := fl (x + y).
Definition fsub (x y : Q) : Q := fl (x - y).
Definition fmul (x y : Q) : Q := fl (x * y).
(** [i / n] on two [int]s, and [x / y] on floats: correctly rounded *)
Definition fdiv (x y : Q) : Q := fl (x / y).
(** [float(z)] for an [int] that does not overflow *)
Definition of_int (z : Z) : Q := fl (inject_Z z).

(** [round(x, 2)]: the exact value of [x] rounded to two decimals, ties to
    even, and the decimal read back as a float. *)
Definition round2 (x : Q) : Q := fl (inject_Z (rne (x * 100)) / 100).

Definition ltb (x y : Q) : bool := negb (Qle_bool y x).

(** [max(a, b)] and [min(a, b)] of the builtins: the first argument unless
    the second is strictly greater (smaller). *)
Definition max (a b : Q) : Q := if ltb a b then b else a.
Definition min (a b : Q) : Q := if ltb b a then b else a.

(** One part in [2^53], the rounding unit below two. *)
Definition eps : Q := 1 # (2 ^ 53).

(** A float with the special values. *)
Inductive t : Type :=
| Finite (q : Q)
| PosInf
| NegInf
| NaN.

(** A float literal of the source, [lit 0.55] for [0.55]. *)
Definition lit (q : Q) : t := Finite (fl q).

(** [a < b] *)
Definition lt (a b : t) : bool :=
  match a, b with
  | NaN, _ | _, NaN => false
  | Finite x, Finite y => ltb x y
  | NegInf, NegInf => false
  | NegInf, _ => true
  | _, NegInf => false
  | PosInf, _ => false
  | Finite _, PosInf => true
  end.

(** [a <= b] *)
Definition le (a b : t) : bool :=
  match a, b with
  | NaN, _ | _, NaN => false
  | Finite x, Finite y => Qle_bool x y
  | NegInf, _ => true
  | _, NegInf => false
  | _, PosInf => true
  | PosInf, Finite _ => false
  end.

Definition max_t (a b : t) : t := if lt a b then b else a.
Definition min_t (a b : t) : t := if lt b a then b else a.

(** [bool(a)] *)
Definition truthy (a : t) : bool :=
  match a with
  | Finite x => negb (Qeq_bool x 0)
  | _ => true
  end.
End PyFloat.

(** The rational that a binary64 value of the kernel denotes, to compare
    [PyFloat] with the arithmetic of the machine. *)
Module Binary64.

Definition denotes (f : float) : option Q :=
  match Prim2SF f with
  | S754_zero _ => Some 0%Q
  | S754_finite sign m e =>
      Some (Qred ((if sign then -1 else 1) * inject_Z (Zpos m) * PyFloat.pow2 e))%Q
  | _ => None
  end.

End Binary64.

(* ================================================================== *)
(** * JSON values and exceptions *)

Inductive value : Type :=
| VNone
| VBool (b : bool)
| VInt (z : Z)
| VFloat (f : PyFloat.t)
| VStr (s : string)
| VList (l : list value)
| VDict (d : list (string * value)).

Inductive exn : Type :=
| TypeError
| ValueError
| KeyError
| IndexError
| AttributeError
| OverflowError.

Inductive pyresult (A : Type) : Type :=
| Ok (a : A)
| Raise (e : exn).
Arguments Ok {A} a.
Arguments Raise {A} e.

Definition bind {A B} (m : pyresult A) (k : A -> pyresult B) : pyresult B :=
  match m with
  | Ok a => k a
  | Raise e => Raise e
  end.

Notation "x <- m ;; k" := (bind m (fun x => k))
  (at level 61, m at next level, right associativity).

(** [try: m  except Exception: handler] *)
Definition try_except {A} (m : pyresult A) (handler : A) : A :=
  match m with
  | Ok a => a
  | Raise _ => handler
  end.

(** [try: m  except (kinds): handler] *)
Definition try_catching {A} (catch : exn -> bool) (m : pyresult A)
    (handler : A) : pyresult A :=
  match m with
  | Ok a => Ok a
  | Raise e => if catch e then Ok handler else Raise e
  end.

(** [for i, x in enumerate(l)], from index [i]: each iteration either appends
    one element, skips ([continue]) or raises, which ends the loop. *)
Fixpoint for_enumerate {A B} (body : nat -> A -> pyresult (option B))
    (i : nat) (l : list A) : pyresult (list B) :=
  match l with
  | [] => Ok []
  | x :: l' =>
      r <- body i x ;;
      rest <- for_enumerate body (S i) l' ;;
      Ok (match r with Some b => b :: rest | None => rest end)
  end.

Module Py.
Import PyStr.
Open Scope string_scope.

(** [bool(v)] *)
Definition truthy (v : value) : bool :=
  match v with
  | VNone => false
  | VBool b => b
  | VInt z => negb (Z.eqb z 0)
  | VFloat f => PyFloat.truthy f
  | VStr s => negb (String.eqb s "")
  | VList l => match l with [] => false | _ => true end
  | VDict d => match d with [] => false | _ => true end
  end.

Fixpoint lookup (d : list (string * value)) (k : string) : option value :=
  match d with
  | [] => None
  | (k', v) :: d' => if String.eqb k' k then Some v else lookup d' k
  end.

(** [d.get(k, default)] on a dict *)
Definition dict_get (d : list (string * value)) (k : string)
    (default : value) : value :=
  match lookup d k with
  | Some v => v
  | None => default
  end.

(** [v.get(k, default)]: only a dict has the method. *)
Definition get (v : value) (k : string) (default : value) : pyresult value :=
  match v with
  | VDict d => Ok (dict_get d k default)
  | _ => Raise AttributeError
  end.

(** [v[k]] for a string key *)
Definition getitem_key (v : value) (k : string) : pyresult value :=
  match v with
  | VDict d => match lookup d k with Some x => Ok x | None => Raise KeyError end
  | _ => Raise TypeError
  end.

(** [v[0]] *)
Definition getitem_0 (v : value) : pyresult value :=
  match v with
  | VList l => match l with x :: _ => Ok x | [] => Raise IndexError end
  | VStr s =>
      match s with
      | String c _ => Ok (VStr (String c ""))
      | EmptyString => Raise IndexError
      end
  | VDict _ => Raise KeyError
  | _ => Raise TypeError
  end.

(** [len(v)] *)
Definition len (v : value) : pyresult nat :=
  match v with
  | VStr s => Ok (String.length s)
  | VList l => Ok (List.length l)
  | VDict d => Ok (List.length d)
  | _ => Raise TypeError
  end.

(** [v[:10]]; a dict cannot be sliced ([TypeError] up to Python 3.11, where a
    slice is unhashable; [KeyError] from 3.12). *)
Definition slice_10 (v : value) : pyresult value :=
  match v with
  | VStr s => Ok (VStr (take 10 s))
  | VList l => Ok (VList (firstn 10 l))
  | _ => Raise TypeError
  end.

Definition is_str (needle : string) (v : value) : bool :=
  match v with
  | VStr s => String.eqb s needle
  | _ => false
  end.

(** [needle in v] for a string [needle]: substring of a string, element of
    a list, key of a dict; the other values are not iterable. *)
Definition contains (needle : string) (v : value) : pyresult bool :=
  match v with
  | VStr s => Ok (PyStr.contains needle s)
  | VList l => Ok (existsb (is_str needle) l)
  | VDict d => Ok (existsb (fun kv => String.eqb (fst kv) needle) d)
  | _ => Raise TypeError
  end.
End Py.

(* ================================================================== *)
(** * What the modules import *)

(** The standard library, as far as the modules use it. *)
Class PyRuntime : Type := {
  (** [urlparse(url)] on a string: its [netloc] and [path], or the
      exception raised ([ValueError] on a malformed authority) *)
  urlparse : string -> pyresult (string * string);
  (** [float(s)] on a string; [None] stands for [ValueError] *)
  float_of_str : string -> option PyFloat.t;
  (** [str(v)] on a float, a list or a dict *)
  repr_value : value -> string
}.

(** The sibling modules [http] and [dates], as [tavily_reddit] uses them. *)
Class RedditNet : Type := {
  (** [http.get_reddit_json(path, timeout=10, retries=1)] as called by the
      task of the item at index [idx]: the decoded JSON, or the exception
      raised (HTTP error, timeout, malformed body) *)
  get_reddit_json : nat -> string -> pyresult value;
  (** [dates.timestamp_to_date(created_utc)] *)
  timestamp_to_date : value -> pyresult value;
  (** [as_completed]: for [n] submitted futures, the positions (in order of
      submission) of the futures in the order in which they complete *)
  as_completed : nat -> list nat
}.

(** A call [http.post(endpoint, json_data=..., headers=..., timeout=...)]. *)
Record request : Type := {
  req_endpoint : string;
  req_json : value;
  req_headers : list (string * string);
  req_timeout : nat
}.

(** The sibling module [http], as the search functions use it: [post]
    returns the decoded JSON of the answer or raises what [transport_error]
    stands for ([http.HTTPError] on API errors). *)
Class Http : Type := {
  transport_error : Type;
  http_post : request -> transport_error + value
}.

Section Builtins.
Context {R : PyRuntime}.
Open Scope string_scope.

(** [urlparse(v)]: a value that is not a string has no [decode]. *)
Definition urlparse_value (v : value) : pyresult (string * string) :=
  match v with
  | VStr s => urlparse s
  | _ => Raise AttributeError
  end.

(** [str(v)] *)
Definition py_str (v : value) : string :=
  match v with
  | VStr s => s
  | VNone => "None"
  | VBool true => "True"
  | VBool false => "False"
  | VInt z => PyStr.dec_Z z
  | _ => repr_value v
  end.

(** [float(v)] *)
Definition py_float (v : value) : pyresult PyFloat.t :=
  match v with
  | VBool b => Ok (PyFloat.Finite (if b then 1 else 0)%Q)
  | VInt z =>
      if PyFloat.overflows (inject_Z z) then Raise OverflowError
      else Ok (PyFloat.Finite (PyFloat.of_int z))
  | VFloat f => Ok f
  | VStr s =>
      match float_of_str s with
      | Some f => Ok f
      | None => Raise ValueError
      end
  | _ => Raise TypeError
  end.
End Builtins.

(* ================================================================== *)
(** * The item schemas *)

(** The dict appended by both web normalizers. *)
Record WebItem : Type := {
  w_id : string;
  w_title : string;
  w_url : value;
  w_source_domain : string;
  w_snippet : string;
  w_date : value;
  w_date_confidence : string;
  w_relevance : PyFloat.t;
  w_why_relevant : string
}.

(** The dict appended by [parse_reddit_response]. *)
Record RedditItem : Type := {
  r_id : string;
  r_title : string;
  r_url : value;
  r_subreddit : string;
  r_date : value;
  r_why_relevant : string;
  r_relevance : PyFloat.t
}.

(* ================================================================== *)
(** * perplexity_search.py *)

Module perplexity_search.
Import PyStr.
Section WithRuntime.
Context {R : PyRuntime}.
Open Scope string_scope.

Definition EXCLUDED_DOMAINS : list string :=
  [ "reddit.com"; "www.reddit.com"; "old.reddit.com";
    "twitter.com"; "www.twitter.com"; "x.com"; "www.x.com" ].

(** [domain in EXCLUDED_DOMAINS] *)
Definition excluded (domain : string) : bool :=
  existsb (String.eqb domain) EXCLUDED_DOMAINS.

(** The [try] block of the loop: [None] is its [continue], [Some domain] the
    value of [domain] after it. *)
Definition domain_of (url : value) : option string :=
  match urlparse_value url with
  | Ok (netloc, _) =>
      let domain := lower netloc in
      if excluded domain then None
      else Some (if startswith "www." domain then drop 4 domain else domain)
  | Raise _ => Some ""
  end.

(** [response["choices"][0]["message"]["content"]], or [""] on
    [KeyError], [IndexError] or [TypeError]. *)
Definition _get_content (response : value) : pyresult value :=
  try_catching
    (fun e => match e with KeyError | IndexError | TypeError => true | _ => false end)
    (choices <- Py.getitem_key response "choices" ;;
     first <- Py.getitem_0 choices ;;
     message <- Py.getitem_key first "message" ;;
     Py.getitem_key message "content")
    (VStr "").

(** The text [\[{i}\]] of the patterns *)
Definition marker (i : nat) : string := "[" ++ dec i ++ "]".

Definition next_is_digit (s : string) : bool :=
  match s with
  | String c _ => is_digit c
  | EmptyString => false
  end.

(** [len(re.findall(rf'\[{i}\](?!\d)', s))] for the marker [m].  Two
    occurrences of a marker cannot overlap (it has one opening bracket, its
    first character), so the matches are the positions where it occurs. *)
Fixpoint count_marker (m s : string) : nat :=
  (if startswith m s && negb (next_is_digit (drop (String.length m) s))
   then 1 else 0)
  + match s with
    | EmptyString => 0
    | String _ s' => count_marker m s'
    end.

(** [re.findall], [re.search] and [re.sub] accept a string only. *)
Definition as_text (content : value) : pyresult string :=
  match content with
  | VStr s => Ok s
  | _ => Raise TypeError
  end.

Definition _count_citation_references (content : value) (num_citations : nat)
    : pyresult (list (nat * nat)) :=
  if negb (Py.truthy content) then Ok []
  else
    for_enumerate
      (fun _ i => s <- as_text content ;; Ok (Some (i, count_marker (marker i) s)))
      0 (seq 1 num_citations).

(** [counts.get(k, default)] *)
Fixpoint counts_get (counts : list (nat * nat)) (k default : nat) : nat :=
  match counts with
  | [] => default
  | (k', c) :: rest => if Nat.eqb k' k then c else counts_get rest k default
  end.

(** The class [[)\s]] *)
Definition is_gap (c : ascii) : bool := Ascii.eqb c ")" || is_space c.

(** The class [[^\[\n]] *)
Definition is_title_char (c : ascii) : bool :=
  negb (Ascii.eqb c "[" || Ascii.eqb c (ascii_of_nat 10)).

(** The group [([^\[\n]{5,80})] when [[)\s]*] has taken [t] characters of
    [rest]: greedy, at most 80 characters, at least 5. *)
Definition title_group (rest : string) (t : nat) : option string :=
  let r := drop t rest in
  let g := Nat.min 80 (span is_title_char r) in
  if Nat.leb 5 g then Some (take g r) else None.

(** [[)\s]*] is greedy and gives characters back one at a time. *)
Fixpoint title_backtrack (rest : string) (t : nat) : option string :=
  match title_group rest t with
  | Some g => Some g
  | None =>
      match t with
      | 0 => None
      | S t' => title_backtrack rest t'
      end
  end.

(** [re.search(rf'\[{index}\][)\s]*([^\[\n]{{5,80}})', s).group(1)]:
    the leftmost position where the pattern matches. *)
Fixpoint search_title (m s : string) : option string :=
  let here :=
    if startswith m s
    then let rest := drop (String.length m) s in
         title_backtrack rest (span is_gap rest)
    else None in
  match here with
  | Some g => Some g
  | None =>
      match s with
      | EmptyString => None
      | String _ s' => search_title m s'
      end
  end.

Definition _extract_title_for_citation (content : value) (index : nat)
    : pyresult (option string) :=
  if negb (Py.truthy content) then Ok None
  else
    s <- as_text content ;;
    match search_title (marker index) s with
    | Some g =>
        let title := rstrip_dot (strip g) in
        let title := remove_chars is_emphasis title in
        Ok (if Nat.ltb 3 (String.length title) then Some title else None)
    | None => Ok None
    end.

Definition not_dot (c : ascii) : bool := negb (Ascii.eqb c ".").

(** [re.search(rf'[^.]*\[{index}\][^.]*\.', s).group(0)]: a match cannot
    cross a period, so it is the first stretch between periods that holds
    the marker and is closed by a period, that period included. *)
Fixpoint search_snippet (fuel : nat) (m s : string) : option string :=
  match fuel with
  | 0 => None
  | S fuel' =>
      let d := span not_dot s in
      if Nat.leb (String.length s) d then None
      else if PyStr.contains m (take d s) then Some (take (S d) s)
      else search_snippet fuel' m (drop (S d) s)
  end.

(** [re.sub(r'\[\d+\]', '', s)] *)
Fixpoint strip_markers (fuel : nat) (s : string) : string :=
  match fuel with
  | 0 => s
  | S fuel' =>
      match s with
      | EmptyString => EmptyString
      | String c s' =>
          let n := span is_digit s' in
          if Ascii.eqb c "[" && Nat.leb 1 n && startswith "]" (drop n s')
          then strip_markers fuel' (drop (S n) s')
          else String c (strip_markers fuel' s')
      end
  end.

Definition _extract_snippet_for_citation (content : value) (index : nat)
    : pyresult (option string) :=
  if negb (Py.truthy content) then Ok None
  else
    s <- as_text content ;;
    match search_snippet (S (String.length s)) (marker index) s with
    | Some g =>
        let snippet := strip g in
        let snippet := strip (strip_markers (String.length snippet) snippet) in
        let snippet := remove_chars is_emphasis snippet in
        Ok (if Nat.ltb 10 (String.length snippet) then Some snippet else None)
    | None => Ok None
    end.

(** Lines 123 to 126: the relevance of the citation at position [i] of
    [len_citations], referenced [ref_count] times. *)
Definition relevance (i len_citations ref_count : nat) : Q :=
  let position_score :=
    PyFloat.max 0
      (PyFloat.fsub 1
         (PyFloat.fdiv (inject_Z (Z.of_nat i))
                       (inject_Z (Z.max (Z.of_nat len_citations) 1)))) in
  let ref_bonus :=
    PyFloat.min (PyFloat.fl 0.1)
      (PyFloat.fmul (PyFloat.of_int (Z.of_nat ref_count - 1)) (PyFloat.fl 0.05)) in
  PyFloat.round2
    (PyFloat.fadd
       (PyFloat.fadd (PyFloat.fl 0.55) (PyFloat.fmul (PyFloat.fl 0.35) position_score))
       ref_bonus).

(** The body of the loop over [enumerate(citations)]. *)
Definition citation_item (content : value) (citation_counts : list (nat * nat))
    (len_citations i : nat) (url : value) : pyresult (option WebItem) :=
  match url with
  | VStr u =>
      if String.eqb u "" then Ok None
      else
        match domain_of url with
        | None => Ok None
        | Some domain =>
            extracted <- _extract_title_for_citation content (i + 1) ;;
            let title := match extracted with Some t => t | None => domain end in
            snippet <- _extract_snippet_for_citation content (i + 1) ;;
            let ref_count := counts_get citation_counts (i + 1) 1 in
            Ok (Some {| w_id := "W" ++ dec (i + 1);
                        w_title := take 200 title;
                        w_url := url;
                        w_source_domain := domain;
                        w_snippet := match snippet with
                                     | Some s => take 500 s
                                     | None => ""
                                     end;
                        w_date := VNone;
                        w_date_confidence := "low";
                        w_relevance :=
                          PyFloat.Finite (relevance i len_citations ref_count);
                        w_why_relevant := "" |})
        end
  | _ => Ok None
  end.

Definition _normalize_results (response : value) : pyresult (list WebItem) :=
  citations <- Py.get response "citations" (VList []) ;;
  content <- _get_content response ;;
  match citations with
  | VList ((_ :: _) as citations) =>
      citation_counts <-
        _count_citation_references content (List.length citations) ;;
      for_enumerate
        (citation_item content citation_counts (List.length citations))
        0 citations
  | _ => Ok []
  end.

End WithRuntime.

Section Search.
Context {R : PyRuntime} {H : Http}.
Open Scope string_scope.

Definition ENDPOINT : string := "https://api.perplexity.ai/chat/completions".
Definition MODEL : string := "sonar".

(** [{...}.get(depth, default)] on a dict written out in the source *)
Fixpoint depth_get (table : list (string * nat)) (depth : string)
    (default : nat) : nat :=
  match table with
  | [] => default
  | (k, v) :: rest => if String.eqb k depth then v else depth_get rest depth default
  end.

Definition max_results_hint (depth : string) : nat :=
  depth_get [ ("quick", 8); ("default", 15); ("deep", 25) ] depth 15.

Definition max_tokens (depth : string) : nat :=
  depth_get [ ("quick", 1024); ("default", 2048); ("deep", 4096) ] depth 2048.

Definition http_timeout (depth : string) : nat :=
  depth_get [ ("quick", 30); ("default", 45); ("deep", 60) ] depth 45.

Definition prompt (topic from_date to_date depth : string) : string :=
  "Find up to " ++ dec (max_results_hint depth)
  ++ " recent blog posts, news articles, tutorials, "
  ++ "and discussions about " ++ topic ++ " published between " ++ from_date
  ++ " and " ++ to_date ++ ". "
  ++ "Exclude results from reddit.com, x.com, and twitter.com. "
  ++ "For each result, provide the title, URL, publication date, "
  ++ "and a brief summary of why it's relevant.".

(** The call of [http.post] on lines 70 to 77. *)
Definition search_request (topic from_date to_date api_key depth : string)
    : request :=
  {| req_endpoint := ENDPOINT;
     req_json :=
       VDict [ ("model", VStr MODEL);
               ("messages",
                VList [ VDict [ ("role", VStr "user");
                                ("content",
                                 VStr (prompt topic from_date to_date depth)) ] ]);
               ("max_tokens", VInt (Z.of_nat (max_tokens depth))) ];
     req_headers := [ ("Authorization", "Bearer " ++ api_key) ];
     req_timeout := http_timeout depth |}.

Definition search_web (topic from_date to_date api_key depth : string)
    : transport_error + pyresult (list WebItem) :=
  match http_post (search_request topic from_date to_date api_key depth) with
  | inl err => inl err
  | inr response => inr (_normalize_results response)
  end.

End Search.
End perplexity_search.

(* ================================================================== *)
(** * Lines shared by the two Tavily modules *)

Section TavilyFields.
Context {R : PyRuntime}.

(** The [score] field ([tavily_search.py] lines 108 to 112,
    [tavily_reddit.py] lines 219 to 223):
    [min(1.0, max(0.0, float(relevance)))], or [0.6] on [TypeError] or
    [ValueError]. *)
Definition clamp_score (relevance : value) : pyresult PyFloat.t :=
  try_catching
    (fun e => match e with TypeError | ValueError => true | _ => false end)
    (f <- py_float relevance ;;
     Ok (PyFloat.min_t (PyFloat.lit 1.0) (PyFloat.max_t (PyFloat.lit 0.0) f)))
    (PyFloat.lit 0.6).

(** The [published_date] field ([tavily_search.py] lines 116 and 117,
    [tavily_reddit.py] lines 213 and 214):
    [if date and len(date) >= 10: date = date[:10]]. *)
Definition trim_date (date : value) : pyresult value :=
  if Py.truthy date then
    n <- Py.len date ;;
    if 10 <=? n then Py.slice_10 date else Ok date
  else Ok date.

End TavilyFields.

(* ================================================================== *)
(** * tavily_search.py *)

Module tavily_search.
Import PyStr.
Section WithRuntime.
Context {R : PyRuntime}.
Open Scope string_scope.

Definition EXCLUDED_DOMAINS : list string :=
  [ "reddit.com"; "www.reddit.com"; "old.reddit.com";
    "twitter.com"; "www.twitter.com"; "x.com"; "www.x.com" ].

Definition excluded (domain : string) : bool :=
  existsb (String.eqb domain) EXCLUDED_DOMAINS.

(** The [try] block of the loop: [None] is its [continue], [Some domain] the
    value of [domain] after it. *)
Definition domain_of (url : value) : option string :=
  match urlparse_value url with
  | Ok (netloc, _) =>
      let domain := lower netloc in
      if excluded domain then None
      else Some (if startswith "www." domain then drop 4 domain else domain)
  | Raise _ => Some ""
  end.

(** The body of the loop over [enumerate(results)]. *)
Definition result_item (i : nat) (result : value) : pyresult (option WebItem) :=
  match result with
  | VDict result =>
      let url := Py.dict_get result "url" (VStr "") in
      if negb (Py.truthy url) then Ok None
      else
        match domain_of url with
        | None => Ok None
        | Some domain =>
            let title := strip (py_str (Py.dict_get result "title" (VStr ""))) in
            let snippet := strip (py_str (Py.dict_get result "content" (VStr ""))) in
            if String.eqb title "" && String.eqb snippet "" then Ok None
            else
              relevance <-
                clamp_score (Py.dict_get result "score" (VFloat (PyFloat.lit 0.6))) ;;
              date <- trim_date (Py.dict_get result "published_date" VNone) ;;
              let date_confidence := if Py.truthy date then "med" else "low" in
              Ok (Some {| w_id := "W" ++ dec (i + 1);
                          w_title := take 200 title;
                          w_url := url;
                          w_source_domain := domain;
                          w_snippet := take 500 snippet;
                          w_date := date;
                          w_date_confidence := date_confidence;
                          w_relevance := relevance;
                          w_why_relevant := "" |})
        end
  | _ => Ok None
  end.

Definition _normalize_results (response : value) : pyresult (list WebItem) :=
  results <- Py.get response "results" (VList []) ;;
  match results with
  | VList results => for_enumerate result_item 0 results
  | _ => Ok []
  end.

End WithRuntime.

Section Search.
Context {R : PyRuntime} {H : Http}.
Open Scope string_scope.

Definition ENDPOINT : string := "https://api.tavily.com/search".

Definition max_results (depth : string) : nat :=
  perplexity_search.depth_get
    [ ("quick", 8); ("default", 15); ("deep", 25) ] depth 15.

Definition search_depth (depth : string) : string :=
  if String.eqb depth "deep" then "advanced" else "basic".

(** The call of [http.post] on lines 62 to 67. *)
Definition search_request (topic from_date to_date api_key depth : string)
    : request :=
  {| req_endpoint := ENDPOINT;
     req_json :=
       VDict [ ("api_key", VStr api_key);
               ("query",
                VStr (topic ++ " (recent, " ++ from_date ++ " to " ++ to_date
                      ++ ")"));
               ("search_depth", VStr (search_depth depth));
               ("max_results", VInt (Z.of_nat (max_results depth)));
               ("exclude_domains",
                VList [ VStr "reddit.com"; VStr "x.com"; VStr "twitter.com" ]) ];
     req_headers := [];
     req_timeout := 20 |}.

Definition search_web (topic from_date to_date api_key depth : string)
    : transport_error + pyresult (list WebItem) :=
  match http_post (search_request topic from_date to_date api_key depth) with
  | inl err => inl err
  | inr response => inr (_normalize_results response)
  end.

End Search.
End tavily_search.

(* ================================================================== *)
(** * tavily_reddit.py *)

Module tavily_reddit.
Import PyStr.
Section WithRuntime.
Context {R : PyRuntime} {N : RedditNet}.
Open Scope string_scope.

Definition _extract_reddit_path (url : value) : option string :=
  try_except
    (p <- urlparse_value url ;;
     let path := snd p in
     Ok (if PyStr.contains "/r/" path && PyStr.contains "/comments/" path
         then Some path else None))
    None.

(** The body of the [try] of [_fetch_date_from_reddit]; [idx] names the task
    that makes the call. *)
Definition fetch_body (idx : nat) (path : string) : pyresult value :=
  data <- get_reddit_json idx path ;;
  match data with
  | VList (first :: _) =>
      listing <- Py.get first "data" (VDict []) ;;
      children <- Py.get listing "children" (VList []) ;;
      if Py.truthy children then
        child <- Py.getitem_0 children ;;
        post <- Py.get child "data" (VDict []) ;;
        created_utc <- Py.get post "created_utc" VNone ;;
        timestamp_to_date created_utc
      else Ok VNone
  | _ => Ok VNone
  end.

Definition _fetch_date_from_reddit (idx : nat) (url : value) : value :=
  match _extract_reddit_path url with
  | None => VNone
  | Some path =>
      if String.eqb path "" then VNone
      else try_except (fetch_body idx path) VNone
  end.

(** [enumerate(items)] *)
Fixpoint enumerate {A} (i : nat) (l : list A) : list (nat * A) :=
  match l with
  | [] => []
  | x :: l' => (i, x) :: enumerate (S i) l'
  end.

Definition items_needing_dates (items : list RedditItem)
    : list (nat * RedditItem) :=
  filter (fun p => negb (Py.truthy (r_date (snd p)))) (enumerate 0 items).

(** [item["date"] = date] *)
Definition set_date (date : value) (item : RedditItem) : RedditItem :=
  {| r_id := r_id item;
     r_title := r_title item;
     r_url := r_url item;
     r_subreddit := r_subreddit item;
     r_date := date;
     r_why_relevant := r_why_relevant item;
     r_relevance := r_relevance item |}.

(** [items[idx]["date"] = date] *)
Fixpoint set_date_at (idx : nat) (date : value) (items : list RedditItem)
    : list RedditItem :=
  match items, idx with
  | [], _ => []
  | item :: rest, 0 => set_date date item :: rest
  | item :: rest, S idx' => item :: set_date_at idx' date rest
  end.

(** One iteration of the loop over [as_completed(future_to_idx)], for the
    future submitted at position [pos]. *)
Definition complete (tasks : list (nat * RedditItem))
    (items : list RedditItem) (pos : nat) : list RedditItem :=
  match nth_error tasks pos with
  | Some (idx, item) =>
      let date := _fetch_date_from_reddit idx (r_url item) in
      if Py.truthy date then set_date_at idx date items else items
  | None => items
  end.

(** The calls of [http.get_reddit_json] made by the submitted tasks. *)
Definition fetches (tasks : list (nat * RedditItem)) : list (nat * string) :=
  flat_map
    (fun t =>
       match _extract_reddit_path (r_url (snd t)) with
       | Some path => if String.eqb path "" then [] else [(fst t, path)]
       | None => []
       end)
    tasks.

(** The list objects: an address holds the elements of the list there. *)
Definition loc : Type := nat.
Definition heap : Type := loc -> list RedditItem.

Definition store (h : heap) (l : loc) (elements : list RedditItem) : heap :=
  fun l' => if Nat.eqb l' l then elements else h l'.

(** What a call of [_enrich_dates] leaves and did. *)
Record enriched : Type := {
  final_heap : heap;
  returned : loc;
  fetched : list (nat * string);
  (** [max_workers] of the pool, when one is created *)
  pool : option nat
}.

Definition _enrich_dates (h : heap) (items : loc) : enriched :=
  let tasks := items_needing_dates (h items) in
  match tasks with
  | [] => {| final_heap := h; returned := items; fetched := []; pool := None |}
  | _ =>
      {| final_heap :=
           store h items
             (fold_left (complete tasks) (as_completed (List.length tasks))
                (h items));
         returned := items;
         fetched := fetches tasks;
         pool := Some (Nat.min 5 (List.length tasks)) |}
  end.

Definition not_slash (c : ascii) : bool := negb (Ascii.eqb c "/").

(** [re.search(r'/r/([^/]+)', path).group(1)] *)
Fixpoint search_subreddit (s : string) : option string :=
  let here :=
    if startswith "/r/" s
    then let rest := drop 3 s in
         let n := span not_slash rest in
         if Nat.leb 1 n then Some (take n rest) else None
    else None in
  match here with
  | Some g => Some g
  | None =>
      match s with
      | EmptyString => None
      | String _ s' => search_subreddit s'
      end
  end.

Definition subreddit_of (url : value) : string :=
  try_except
    (p <- urlparse_value url ;;
     Ok (match search_subreddit (snd p) with Some g => g | None => "" end))
    "".

(** Lines 195 to 197: the title, or else the start of the body text. *)
Definition title_of (result : list (string * value)) : string :=
  let title := strip (py_str (Py.dict_get result "title" (VStr ""))) in
  if String.eqb title ""
  then take 100 (strip (py_str (Py.dict_get result "content" (VStr ""))))
  else title.

(** Lines 212 to 216. *)
Definition parse_date (published_date : value) : pyresult value :=
  date <- trim_date published_date ;;
  Ok (if Py.truthy date && negb (iso_date_shape (py_str date))
      then VNone else date).

(** The body of the loop over [enumerate(results)]. *)
Definition result_item (i : nat) (result : value)
    : pyresult (option RedditItem) :=
  match result with
  | VDict result =>
      let url := Py.dict_get result "url" (VStr "") in
      if negb (Py.truthy url) then Ok None
      else
        is_reddit <- Py.contains "reddit.com" url ;;
        if negb is_reddit then Ok None
        else
          let title := title_of result in
          if String.eqb title "" then Ok None
          else
            let subreddit := subreddit_of url in
            date <- parse_date (Py.dict_get result "published_date" VNone) ;;
            relevance <-
              clamp_score (Py.dict_get result "score" (VFloat (PyFloat.lit 0.6))) ;;
            Ok (Some {| r_id := "R" ++ dec (i + 1);
                        r_title := take 200 title;
                        r_url := url;
                        r_subreddit := subreddit;
                        r_date := date;
                        r_why_relevant := "";
                        r_relevance := relevance |})
  | _ => Ok None
  end.

(** The list built by the loop is a new object, at address [0] of a heap
    that holds nothing else. *)
Definition parse_reddit_response (response : value)
    : pyresult (list RedditItem) :=
  results <- Py.get response "results" (VList []) ;;
  match results with
  | VList results =>
      items <- for_enumerate result_item 0 results ;;
      match items with
      | [] => Ok items
      | _ =>
          let e := _enrich_dates (store (fun _ => []) 0 items) 0 in
          Ok (final_heap e (returned e))
      end
  | _ => Ok []
  end.

End WithRuntime.

Section Search.
Context {R : PyRuntime} {H : Http}.
Open Scope string_scope.

Definition ENDPOINT : string := "https://api.tavily.com/search".

Definition DEPTH_CONFIG : list (string * nat) :=
  [ ("quick", 10); ("default", 20); ("deep", 40) ].

Definition noise : list string :=
  [ "best"; "top"; "how to"; "tips for"; "practices"; "features";
    "killer"; "guide"; "tutorial"; "recommendations"; "advice";
    "prompting"; "using"; "for"; "with"; "the"; "of"; "in"; "on" ].

(** [w not in noise] *)
Definition not_noise (w : string) : bool :=
  negb (existsb (String.eqb w) noise).

Definition _extract_core_subject (topic : string) : string :=
  let words := split (lower topic) in
  let result := filter not_noise words in
  let joined := join " " (firstn 3 result) in
  if String.eqb joined "" then topic else joined.

(** [DEPTH_CONFIG.get(depth, DEPTH_CONFIG["default"])] *)
Definition max_results (depth : string) : nat :=
  perplexity_search.depth_get DEPTH_CONFIG depth
    (perplexity_search.depth_get DEPTH_CONFIG "default" 0).

Definition search_depth (depth : string) : string :=
  if String.eqb depth "deep" then "advanced" else "basic".

(** [30 if depth == "quick" else 45 if depth == "default" else 60] *)
Definition timeout (depth : string) : nat :=
  if String.eqb depth "quick" then 30
  else if String.eqb depth "default" then 45 else 60.

(** The call of [http.post] on lines 157 to 162. *)
Definition search_request (api_key topic from_date to_date depth : string)
    : request :=
  {| req_endpoint := ENDPOINT;
     req_json :=
       VDict [ ("api_key", VStr api_key);
               ("query",
                VStr (topic ++ " (recent, " ++ from_date ++ " to " ++ to_date
                      ++ ")"));
               ("search_depth", VStr (search_depth depth));
               ("max_results", VInt (Z.of_nat (max_results depth)));
               ("include_domains", VList [ VStr "reddit.com" ]) ];
     req_headers := [];
     req_timeout := timeout depth |}.

Definition search_reddit (api_key topic from_date to_date depth : string)
    : transport_error + value :=
  http_post (search_request api_key topic from_date to_date depth).

End Search.
End tavily_reddit.

(* ================================================================== *)
(** * A reference runtime and sample responses *)

Module Reference.
Import PyStr.
Open Scope string_scope.

Definition is_alpha (c : ascii) : bool :=
  let n := nat_of_ascii c in
  (((65 <=? n) && (n <=? 90)) || ((97 <=? n) && (n <=? 122)))%nat.

Definition is_scheme_char (c : ascii) : bool :=
  is_alpha c || is_digit c || Ascii.eqb c "+" || Ascii.eqb c "-" || Ascii.eqb c ".".

Definition not_colon (c : ascii) : bool := negb (Ascii.eqb c ":").

(** The URL after its scheme, when it has one. *)
Definition after_scheme (url : string) : string :=
  let i := span not_colon url in
  if ((i <? String.length url) && (0 <? i) && (span is_scheme_char url =? i)
      && (0 <? span is_alpha url))%nat
  then drop (S i) url else url.

Definition ends_netloc (c : ascii) : bool :=
  Ascii.eqb c "/" || Ascii.eqb c "?" || Ascii.eqb c "#".

Definition ends_path (c : ascii) : bool :=
  Ascii.eqb c "?" || Ascii.eqb c "#".

(** [urlsplit] on [scheme://netloc/path?query#fragment]: the authority runs
    to the first of [/?#], the path to the first of [?#], and an authority
    with one square bracket but not the other is refused. *)
Definition urlsplit (url : string) : pyresult (string * string) :=
  let rest := after_scheme url in
  let netloc :=
    if startswith "//" rest
    then take (span (fun c => negb (ends_netloc c)) (drop 2 rest)) (drop 2 rest)
    else "" in
  let rest :=
    if startswith "//" rest then drop (2 + String.length netloc) rest else rest in
  if xorb (PyStr.contains "[" netloc) (PyStr.contains "]" netloc)
  then Raise ValueError
  else Ok (netloc, take (span (fun c => negb (ends_path c)) rest) rest).

Fixpoint digits_value (acc : Z) (s : string) : Z :=
  match s with
  | EmptyString => acc
  | String c s' => digits_value (10 * acc + Z.of_nat (nat_of_ascii c - 48)) s'
  end.

(** [float] on an unsigned decimal [digits] or [digits.digits]. *)
Definition parse_decimal (s : string) : option PyFloat.t :=
  let n := span is_digit s in
  let int_part := take n s in
  let rest := drop n s in
  match rest with
  | EmptyString =>
      if (0 <? n)%nat then Some (PyFloat.lit (inject_Z (digits_value 0 int_part)))
      else None
  | String c frac =>
      if Ascii.eqb c "." && (span is_digit frac =? String.length frac)%nat
         && (0 <? n + String.length frac)%nat
      then Some (PyFloat.lit
                   (Qmake (digits_value 0 (int_part ++ frac))
                          (Pos.pow 10 (Pos.of_nat (String.length frac)))))
      else None
  end.

(** The texts of floats, lists and dicts are used by no sample below. *)
#[export] Instance runtime : PyRuntime := {
  urlparse := urlsplit;
  float_of_str s :=
    let s := strip s in
    if String.eqb (lower s) "nan" then Some PyFloat.NaN
    else if String.eqb (lower s) "inf" then Some PyFloat.PosInf
    else if String.eqb (lower s) "-inf" then Some PyFloat.NegInf
    else parse_decimal s;
  repr_value _ := "<object>"
}.

(** A network on which every request fails. *)
Definition offline : RedditNet := {|
  get_reddit_json _ _ := Raise ValueError;
  timestamp_to_date _ := Ok VNone;
  as_completed n := seq 0 n
|}.

(** A network that answers every request with one post created at
    1700000000, which is 2023-11-14, and whose futures complete in the
    reverse of the order of submission. *)
Definition one_post : value :=
  VList [ VDict [ ("data", VDict [ ("children",
            VList [ VDict [ ("data", VDict [ ("created_utc", VInt 1700000000) ]) ] ]) ]) ];
          VDict [] ].

Definition online : RedditNet := {|
  get_reddit_json _ _ := Ok one_post;
  timestamp_to_date ts :=
    match ts with
    | VInt 1700000000 => Ok (VStr "2023-11-14")
    | _ => Ok VNone
    end;
  as_completed n := rev (seq 0 n)
|}.

(** The response of section 8 of the specification. *)
Definition sonar (citations : list value) (content : value) : value :=
  VDict [ ("citations", VList citations);
          ("choices", VList [ VDict [ ("message", VDict [ ("content", content) ]) ] ]) ].

Definition two_citations : value :=
  sonar [ VStr "https://a.example/p1"; VStr "https://b.example/p2" ]
        (VStr "... [1] First Article is great. More on [2] Second Article. Also [1] again.").

Definition tavily (results : list value) : value :=
  VDict [ ("results", VList results) ].

Definition a_result (fields : list (string * value)) : value :=
  VDict (("url", VStr "https://www.example.com/a") :: fields).

(** A well-formed result. *)
Definition web_results : value :=
  tavily [ a_result [ ("title", VStr " Title "); ("content", VStr "Body.");
                      ("score", VStr "0.5");
                      ("published_date", VStr "2024-01-02T00:00:00") ] ].

(** [published_date] is a number. *)
Definition int_date_results : value :=
  tavily [ a_result [ ("title", VStr "T"); ("published_date", VInt 20240101) ] ].

(** [score] is an integer of 401 digits. *)
Definition huge_score_results : value :=
  tavily [ a_result [ ("title", VStr "T"); ("score", VInt (10 ^ 400)) ] ].


(** No [title]. *)
Definition untitled_results : value :=
  tavily [ a_result [ ("content", VStr "Body.") ] ].

Definition post_url : string := "https://www.reddit.com/r/rust/comments/1/t".

Definition reddit_results : value :=
  tavily [ VDict [ ("url", VStr post_url); ("title", VStr "T") ] ].

(** [published_date] of a Reddit result is a number. *)
Definition int_date_reddit_results : value :=
  tavily [ VDict [ ("url", VStr post_url); ("title", VStr "T");
                   ("published_date", VInt 20240101) ] ].

(** [url] is a number. *)
Definition int_url_results : value :=
  tavily [ VDict [ ("url", VInt 5); ("title", VStr "T") ] ].

(** [url] is a list. *)
Definition list_url_results : value :=
  tavily [ VDict [ ("url", VList [ VStr "reddit.com" ]); ("title", VStr "T") ] ].

(** A citation without a scheme, and no text. *)
Definition bare_citation : value :=
  sonar [ VStr "example.com/page" ] (VStr "").

(** A citation that the text does not refer to. *)
Definition unreferenced : value :=
  sonar [ VStr "https://a.example/p1" ] (VStr "No markers here.").

(** A citation that the text refers to three times. *)
Definition thrice : value :=
  sonar [ VStr "https://a.example/p1" ] (VStr "[1] once, [1] twice, [1] thrice.").

(** The text is a number. *)
Definition non_text_content : value :=
  sonar [ VStr "https://a.example/p1" ] (VInt 5).

(** A citation of a Reddit post among others. *)
Definition mixed_citations : value :=
  sonar [ VStr post_url; VStr "https://a.example/p1" ] (VStr "").

(** The [relevance] of each item returned. *)
Definition relevances (r : pyresult (list WebItem)) : pyresult (list PyFloat.t) :=
  items <- r ;; Ok (map w_relevance items).

Definition reddit_item (url : string) (date : value) : RedditItem :=
  {| r_id := "R1"; r_title := "T"; r_url := VStr url; r_subreddit := "rust";
     r_date := date; r_why_relevant := ""; r_relevance := PyFloat.lit 0.6 |}.

(** A heap whose list at address [0] has one dated and one undated item,
    and one whose items all have a date. *)
Definition undated_heap : tavily_reddit.heap :=
  tavily_reddit.store (fun _ => []) 0
    [ reddit_item post_url (VStr "2024-05-01"); reddit_item post_url VNone ].

Definition dated_heap : tavily_reddit.heap :=
  tavily_reddit.store (fun _ => []) 0
    [ reddit_item post_url (VStr "2024-05-01") ].

End Reference.

(* ================================================================== *)
(** * Properties of items *)

Section Properties.
Context {R : PyRuntime} {N : RedditNet}.

(** [0.0 <= relevance <= 1.0] *)
Definition relevance_in_unit (relevance : PyFloat.t) : Prop :=
  PyFloat.le (PyFloat.lit 0.0) relevance = true
  /\ PyFloat.le relevance (PyFloat.lit 1.0) = true.

Definition web_item_bounded (item : WebItem) : Prop :=
  relevance_in_unit (w_relevance item)
  /\ String.length (w_title item) <= 200
  /\ String.length (w_snippet item) <= 500.

Definition reddit_item_bounded (item : RedditItem) : Prop :=
  relevance_in_unit (r_relevance item)
  /\ String.length (r_title item) <= 200.

(** What [_enrich_dates] may do to one item: nothing if the item has a date,
    and at most a new date otherwise. *)
Definition only_date_filled (before after : RedditItem) : Prop :=
  after = tavily_reddit.set_date (r_date after) before
  /\ (Py.truthy (r_date before) = true -> after = before).

(** A text, or a falsy value: what the citation analyzer accepts. *)
Definition text_or_falsy (content : value) : Prop :=
  Py.truthy content = false \/ exists s, content = VStr s.

(** A [published_date] that has a length and a slice, or is falsy; and a
    [score] that is not an integer beyond the floats. *)
Definition sized_or_falsy (date : value) : Prop :=
  Py.truthy date = false
  \/ (exists s, date = VStr s) \/ (exists l, date = VList l).

Definition convertible_score (score : value) : Prop :=
  forall z, score = VInt z -> PyFloat.overflows (inject_Z z) = false.

(** A result of Tavily whose fields the web normalizer can read. *)
Definition readable_result (result : value) : Prop :=
  forall d, result = VDict d ->
    sized_or_falsy (Py.dict_get d "published_date" VNone)
    /\ convertible_score (Py.dict_get d "score" (VFloat (PyFloat.lit 0.6))).

(** The same, with the new date named: it is what the task of some index
    fetched for the URL of the item, and it is truthy. *)
Definition enriched_from (before after : RedditItem) : Prop :=
  after = before
  \/ (Py.truthy (r_date before) = false
      /\ exists idx,
           let date :=
             tavily_reddit._fetch_date_from_reddit idx (r_url before) in
           Py.truthy date = true
           /\ after = tavily_reddit.set_date date before).

End Properties.

(* ================================================================== *)
(** * Further properties of the normalizers, and samples *)

Section Kept.
Context {R : PyRuntime}.
Open Scope string_scope.

Definition is_some {A} (o : option A) : bool :=
  match o with Some _ => true | None => false end.

(** One of the seven names of the denylist, written out. *)
Definition denylisted_name (name : string) : bool :=
  existsb (String.eqb name)
    [ "reddit.com"; "www.reddit.com"; "old.reddit.com";
      "twitter.com"; "www.twitter.com"; "x.com"; "www.x.com" ].

(** The authority of the URL ([netloc], with user info and port when the
    URL has them), in lower case, is one of these names.  A value that
    [urlparse] refuses has no authority. *)
Definition netloc_denylisted (url : value) : bool :=
  match urlparse_value url with
  | Ok (netloc, _) => denylisted_name (PyStr.lower netloc)
  | Raise _ => false
  end.

(** The citations that the Perplexity normalizer is to keep: the strings
    that are not empty and whose authority is not in the denylist. *)
Definition citation_kept (url : value) : bool :=
  match url with
  | VStr u => negb (String.eqb u "") && negb (netloc_denylisted url)
  | _ => false
  end.

(** [result.get("url", "")] of a result that is a dict *)
Definition url_of (result : value) : value :=
  match result with
  | VDict d => Py.dict_get d "url" (VStr "")
  | _ => VNone
  end.

(** The results that the Tavily web normalizer is to keep: the dicts with a
    truthy [url] whose authority is not in the denylist, and with a title
    or a content that is not blank. *)
Definition web_result_kept (result : value) : bool :=
  match result with
  | VDict d =>
      Py.truthy (url_of result)
      && negb (netloc_denylisted (url_of result))
      && negb (String.eqb (PyStr.strip (py_str (Py.dict_get d "title" (VStr "")))) ""
               && String.eqb
                    (PyStr.strip (py_str (Py.dict_get d "content" (VStr "")))) "")
  | _ => false
  end.

(** The results that the loop of the Reddit normalizer keeps. *)
Definition reddit_result_kept (result : value) : bool :=
  match result with
  | VDict d =>
      Py.truthy (url_of result)
      && match Py.contains "reddit.com" (url_of result) with
         | Ok b => b
         | Raise _ => false
         end
      && negb (String.eqb (tavily_reddit.title_of d) "")
  | _ => false
  end.

End Kept.

Section Readable.
Context {R : PyRuntime}.
Open Scope string_scope.

(** A [url] of which ["reddit.com" in url] can be asked, or a falsy one. *)
Definition searchable_or_falsy (url : value) : Prop :=
  Py.truthy url = false
  \/ (exists s, url = VStr s) \/ (exists l, url = VList l)
  \/ (exists d, url = VDict d).

(** A result of Tavily whose fields the Reddit normalizer can read. *)
Definition readable_reddit_result (result : value) : Prop :=
  forall d, result = VDict d ->
    searchable_or_falsy (Py.dict_get d "url" (VStr ""))
    /\ sized_or_falsy (Py.dict_get d "published_date" VNone)
    /\ convertible_score (Py.dict_get d "score" (VFloat (PyFloat.lit 0.6))).

End Readable.

(** Every character of [s] is in the class [p]. *)
Fixpoint all_chars (p : ascii -> bool) (s : string) : bool :=
  match s with
  | EmptyString => true
  | String c s' => p c && all_chars p s'
  end.

(** A character that an extracted title can hold: none of the left bracket,
    the newline and the emphasis characters. *)
Definition title_char (c : ascii) : bool :=
  perplexity_search.is_title_char c && negb (PyStr.is_emphasis c).

(** One sentence: no period but the last character. *)
Definition one_sentence (s : string) : Prop :=
  exists body, s = (body ++ ".")%string
               /\ all_chars perplexity_search.not_dot body = true.

Section Enrichment.
Context {R : PyRuntime} {N : RedditNet}.

(** What the loop of [_enrich_dates] does to the item at index [idx] when
    the future of that item completes. *)
Definition enrich_item (idx : nat) (item : RedditItem) : RedditItem :=
  if Py.truthy (r_date item) then item
  else
    let date := tavily_reddit._fetch_date_from_reddit idx (r_url item) in
    if Py.truthy date then tavily_reddit.set_date date item else item.

(** [as_completed] yields every future that was submitted. *)
Definition every_future_completes (n : nat) : Prop :=
  forall pos, pos < n -> In pos (as_completed n).

(** The futures in [done] include the one of the item at index [idx]. *)
Definition completed (tasks : list (nat * RedditItem)) (done : list nat)
    (idx : nat) : bool :=
  existsb
    (fun pos =>
       match nth_error tasks pos with
       | Some (idx', _) => Nat.eqb idx' idx
       | None => false
       end)
    done.

End Enrichment.

Section Agreement.
Context {R : PyRuntime}.

(** Two networks give the same answer to the request of every item without
    a date whose URL has a path with [/r/] and [/comments/]. *)
Definition agree_on_comment_urls (N1 N2 : RedditNet)
    (items : list RedditItem) : Prop :=
  forall idx item netloc path,
    nth_error items idx = Some item ->
    Py.truthy (r_date item) = false ->
    urlparse_value (r_url item) = Ok (netloc, path) ->
    PyStr.contains "/r/" path = true ->
    PyStr.contains "/comments/" path = true ->
    @get_reddit_json N1 idx path = @get_reddit_json N2 idx path.

End Agreement.

Definition not_space (c : ascii) : bool := negb (PyStr.is_space c).

(** A character that [lower] leaves as it is. *)
Definition lowered (c : ascii) : bool := Ascii.eqb (PyStr.lower_char c) c.

(** A word of [split]: not empty, and without whitespace. *)
Definition is_word (w : string) : Prop :=
  w <> EmptyString /\ all_chars not_space w = true.

Section Fields.
Context {R : PyRuntime}.
Open Scope string_scope.

(** The subreddit of an item is a segment of the path of its URL that
    follows [/r/], or is empty. *)
Definition subreddit_of_path (item : RedditItem) : Prop :=
  all_chars tavily_reddit.not_slash (r_subreddit item) = true
  /\ (r_subreddit item <> "" ->
      exists netloc path,
        urlparse_value (r_url item) = Ok (netloc, path)
        /\ PyStr.contains ("/r/" ++ r_subreddit item) path = true).

(** The date and its confidence as the Tavily normalizer sets them. *)
Definition confidence_follows_date (item : WebItem) : Prop :=
  w_date_confidence item = (if Py.truthy (w_date item) then "med" else "low").

End Fields.

Section Hosts.
Open Scope string_scope.

(** [s.partition(c)[0]]: what is before the first [c]. *)
Fixpoint before_first (c : ascii) (s : string) : string :=
  match s with
  | EmptyString => EmptyString
  | String a s' => if Ascii.eqb a c then EmptyString
                   else String a (before_first c s')
  end.

(** [s.partition(c)[2]]: what is after the first [c]. *)
Fixpoint after_first (c : ascii) (s : string) : string :=
  match s with
  | EmptyString => EmptyString
  | String a s' => if Ascii.eqb a c then s' else after_first c s'
  end.

(** [s.rpartition(c)[2]]: what is after the last [c]. *)
Fixpoint after_last (c : ascii) (s : string) : string :=
  match s with
  | EmptyString => EmptyString
  | String a s' =>
      if PyStr.contains (String c "") s' then after_last c s'
      else if Ascii.eqb a c then s' else s
  end.

(** The host of an authority, as the [hostname] of [urllib.parse] reads it
    from the [netloc] (the standard library, not code of the repository):
    what follows the user info, up to the port, or the part in brackets; in
    lower case, a zone after [%] apart.  The empty string stands for
    [None]. *)
Definition hostname (netloc : string) : string :=
  let hostinfo := after_last "@" netloc in
  let name :=
    if PyStr.contains "[" hostinfo
    then before_first "]" (after_first "[" hostinfo)
    else before_first ":" hostinfo in
  PyStr.lower (before_first "%" name)
  ++ (if PyStr.contains "%" name then "%" ++ after_first "%" name else "").

(** The authority is the host alone: no user info, port or brackets. *)
Definition authority_is_host (netloc : string) : Prop :=
  hostname netloc = PyStr.lower netloc.

End Hosts.

Section Eligibility.
Context {R : PyRuntime}.
Open Scope string_scope.




End Eligibility.


Module Samples.
Open Scope string_scope.

(** The entries of a response that is a dict. *)
Definition fields_of (response : value) : list (string * value) :=
  match response with
  | VDict d => d
  | _ => []
  end.

(** A response that has the keys of both services. *)
Definition combined : value :=
  VDict (fields_of Reference.two_citations
         ++ [ ("results",
               VList [ VDict [ ("url", VStr Reference.post_url);
                               ("title", VStr "T") ];
                       VInt 7;
                       VDict [ ("url", VStr "https://www.example.com/a");
                               ("title", VStr "A"); ("content", VStr "Body.") ] ]) ]).

(** The text of [Reference.two_citations]. *)
Definition text : value :=
  VStr "... [1] First Article is great. More on [2] Second Article. Also [1] again.".

(** A result whose URL is in upper case. *)
Definition upper_case_url : value :=
  Reference.tavily
    [ VDict [ ("url", VStr "HTTPS://WWW.Example.COM/a"); ("title", VStr "T") ] ].

(** A Reddit post addressed with its port. *)
Definition port_url : string := "https://reddit.com:443/r/rust/comments/1/t".

Definition port_citation : value := Reference.sonar [ VStr port_url ] (VStr "").

Definition port_result : value :=
  Reference.tavily [ VDict [ ("url", VStr port_url); ("title", VStr "T") ] ].



(** A network that answers the request for the sample post as
    [Reference.online] does, and fails on every other request. *)
Definition selective : RedditNet := {|
  get_reddit_json _ path :=
    if String.eqb path "/r/rust/comments/1/t" then Ok Reference.one_post
    else Raise ValueError;
  timestamp_to_date := @timestamp_to_date Reference.online;
  as_completed := @as_completed Reference.online
|}.


(** A service that answers every request with the same results. *)
Definition canned : Http := {|
  transport_error := unit;
  http_post := fun _ => inr Reference.web_results
|}.

End Samples.

(* ================================================================== *)
(** * Rounding *)

Module PyFloatFacts.
Import PyFloat.
Open Scope Q_scope.

(** The nearest integer is within one half. *)
Lemma rne_err (y : Q) : y - (1#2) <= inject_Z (rne y) <= y + (1#2).
Proof.
  unfold rne.
  pose proof (Qfloor_le y) as Hlo.
  pose proof (Qlt_floor y) as Hhi.
  rewrite inject_Z_plus in Hhi. change (inject_Z 1) with 1 in Hhi.
  destruct (Qcompare (2 * (y - inject_Z (Qfloor y))) 1) eqn:C.
  - apply Qeq_alt in C.
    destruct (Z.even (Qfloor y));
      [|rewrite inject_Z_plus; change (inject_Z 1) with 1]; lra.
  - apply Qlt_alt in C. lra.
  - apply Qgt_alt in C. rewrite inject_Z_plus; change (inject_Z 1) with 1. lra.
Qed.

Lemma rne_nonneg (y : Q) : 0 <= y -> (0 <= rne y)%Z.
Proof.
  intros Hy. pose proof (rne_err y) as [Hlo _].
  assert (H : inject_Z (-1) < inject_Z (rne y)) by (change (inject_Z (-1)) with (-1); lra).
  rewrite <- Zlt_Qlt in H. lia.
Qed.

Lemma rne_nonpos (y : Q) : y <= 0 -> (rne y <= 0)%Z.
Proof.
  intros Hy. pose proof (rne_err y) as [_ Hhi].
  assert (H : inject_Z (rne y) < inject_Z 1) by (change (inject_Z 1) with 1; lra).
  rewrite <- Zlt_Qlt in H. lia.
Qed.

Lemma pow2_pos (k : Z) : 0 < pow2 k.
Proof.
  destruct k as [|p|p]; unfold pow2; try reflexivity.
  change 0 with (inject_Z 0). rewrite <- Zlt_Qlt. apply Z.pow_pos_nonneg; lia.
Qed.

(** Sign: rounding never crosses zero. *)
Lemma fl_nonneg (x : Q) : 0 <= x -> 0 <= fl x.
Proof.
  intros Hx. unfold fl. destruct (Qeq_bool x 0); [lra|].
  rewrite Qred_correct.
  set (k := Z.min _ _).
  pose proof (pow2_pos k). pose proof (pow2_pos (- k)).
  assert (0 <= x * pow2 k) by (apply Qmult_le_0_compat; lra).
  pose proof (@rne_nonneg _ H1) as Hr.
  apply Qmult_le_0_compat; [|lra].
  change 0 with (inject_Z 0). now rewrite <- Zle_Qle.
Qed.

Lemma fl_nonpos (x : Q) : x <= 0 -> fl x <= 0.
Proof.
  intros Hx. unfold fl. destruct (Qeq_bool x 0); [lra|].
  rewrite Qred_correct.
  set (k := Z.min _ _).
  pose proof (pow2_pos k). pose proof (pow2_pos (- k)).
  assert (x * pow2 k <= 0).
  { rewrite <- (Qmult_0_l (pow2 k)). apply Qmult_le_compat_r; lra. }
  pose proof (@rne_nonpos _ H1) as Hr.
  rewrite Zle_Qle in Hr. change (inject_Z 0) with 0 in Hr.
  rewrite <- (Qmult_0_l (pow2 (- k))). apply Qmult_le_compat_r; lra.
Qed.

(** The exponent of a value below two is at most zero. *)
Lemma ilog2_lt_2 (a : positive) (b : positive) :
  Zpos a # b < 2 -> (ilog2 (Zpos a # b) <= 0)%Z.
Proof.
  intros Hx. unfold ilog2. cbn [Qnum Qden].
  assert (He0 : (Z.log2 (Zpos a) - Z.log2 (Zpos b) <= 1)%Z).
  { unfold Qlt in Hx. cbn [Qnum Qden] in Hx.
    destruct (Z.log2_spec (Zpos a)) as [La _]; [lia|].
    destruct (Z.log2_spec (Zpos b)) as [_ Ub]; [lia|].
    pose proof (Z.log2_nonneg (Zpos b)) as Hb.
    assert (Hlt : (2 ^ Z.log2 (Z.pos a) < 2 ^ (Z.succ (Z.log2 (Z.pos b)) + 1))%Z).
    { rewrite Z.pow_add_r; [|lia|lia]. change (2 ^ 1)%Z with 2%Z. lia. }
    apply Z.pow_lt_mono_r_iff in Hlt; lia. }
  set (e0 := (Z.log2 (Zpos a) - Z.log2 (Zpos b))%Z) in *.
  destruct (Qcompare _ _) eqn:C; [ | lia | ];
    (destruct (Z.eq_dec e0 1) as [E|E]; [rewrite E in C | lia]).
  - apply Qeq_alt in C. change (pow2 1) with 2 in C. lra.
  - apply Qgt_alt in C. change (pow2 1) with 2 in C. lra.
Qed.

(** Below two, rounding moves a value by at most one part in [2^53]. *)
Lemma fl_err (x : Q) : 0 <= x -> x < 2 -> x - eps <= fl x <= x + eps.
Proof.
  intros H0 H2. unfold fl.
  destruct (Qeq_bool x 0) eqn:Ez.
  { apply Qeq_bool_eq in Ez. unfold eps. split.
    - rewrite Ez. discriminate.
    - rewrite Ez. discriminate. }
  apply Qeq_bool_neq in Ez.
  rewrite Qred_correct.
  destruct x as [a b]. destruct a as [|a|a].
  - exfalso. apply Ez. reflexivity.
  - pose proof (@ilog2_lt_2 a b H2) as Hl.
    change (Qabs (Zpos a # b)) with (Zpos a # b).
    set (x := Zpos a # b) in *.
    set (k := Z.min (52 - ilog2 x) 1074).
    assert (Hk : (52 <= k)%Z) by (subst k; lia).
    destruct k as [|p|p] eqn:Ek; try lia.
    change (- Z.pos p)%Z with (Z.neg p). unfold pow2.
    pose proof (rne_err (x * inject_Z (2 ^ Z.pos p))) as [Rl Rh].
    set (r := inject_Z (rne (x * inject_Z (2 ^ Z.pos p)))) in *.
    set (P := inject_Z (2 ^ Z.pos p)) in *.
    set (ip := 1 # 2 ^ p).
    assert (HPip : P * ip == 1).
    { subst P ip. rewrite <- Pos2Z.inj_pow. unfold Qeq, inject_Z. cbn. lia. }
    assert (Hip : 0 < ip) by reflexivity.
    assert (HP : ip <= 2 * eps).
    { subst ip. unfold eps, Qle. cbn [Qnum Qden Qmult].
      change (2 * 1 * Z.pos (2 ^ p))%Z with (2 * Z.pos (2 ^ p))%Z.
      rewrite Pos2Z.inj_pow.
      change (Z.pos (2 ^ 53)) with (2 * 2 ^ 52)%Z.
      assert (2 ^ 52 <= 2 ^ Z.pos p)%Z by (apply Z.pow_le_mono_r; lia).
      lia. }
    assert (E : r * ip == x + (r - x * P) * ip).
    { setoid_replace (x + (r - x * P) * ip) with (x - x * (P * ip) + r * ip) by ring.
      rewrite HPip. ring. }
    rewrite E. unfold eps in *.
    set (d := r - x * P) in *.
    assert (Hd : - (1#2) <= d <= 1#2) by (subst d; split; lra).
    clearbody d ip. clear - Hd Hip HP.
    split; nra.
  - exfalso. unfold Qle in H0. cbn in H0. lia.
Qed.

(** The rounding of [PyFloat] is that of binary64: the steps of the
    relevance formula give the same values in both. *)
Example agrees_with_binary64 :
  Binary64.denotes 0.55%float = Some (fl 0.55)
  /\ Binary64.denotes (0.35 * 0.5)%float = Some (fmul (fl 0.35) (fl 0.5))
  /\ Binary64.denotes (0.55 + 0.35 * 0.5 + 0)%float
     = Some (fadd (fadd (fl 0.55) (fmul (fl 0.35) (fl 0.5))) 0)
  /\ Binary64.denotes (0.55 + 0.35 * 1 + 0.05)%float
     = Some (fadd (fadd (fl 0.55) (fmul (fl 0.35) 1)) (fl 0.05))
  /\ Binary64.denotes (1 - 7 / 8)%float = Some (fsub 1 (fdiv 7 8))
  /\ Binary64.denotes (1 - 2 / 3)%float = Some (fsub 1 (fdiv 2 3))
  /\ Binary64.denotes (-1 * 0.05)%float = Some (fmul (of_int (-1)) (fl 0.05))
  /\ Binary64.denotes (73 / 100)%float = Some (fl 0.73)
  /\ Binary64.denotes 0x1p-1074%float = Some (fl (pow2 (-1074)))
  /\ Binary64.denotes (0x1p-1074 / 2)%float = Some (fl (pow2 (-1075)))
  /\ Binary64.denotes (0x3p-1074 / 2)%float = Some (fl (3 * pow2 (-1075))).
Proof. repeat split; vm_compute; reflexivity. Qed.

Lemma eps_small : 0 < eps <= 1 # 100000.
Proof. split; [reflexivity | apply Qle_bool_iff; vm_compute; reflexivity]. Qed.

Lemma max0_bounds (d u : Q) : 0 <= u -> d <= u -> 0 <= max 0 d <= u.
Proof.
  intros Hu Hd. unfold max, ltb.
  destruct (Qle_bool d 0) eqn:E; cbn.
  - lra.
  - assert (~ d <= 0) by (rewrite <- Qle_bool_iff, E; discriminate). lra.
Qed.

Lemma min_bounds (c t : Q) : 0 <= c -> 0 <= t -> 0 <= min c t <= c.
Proof.
  intros Hc Ht. unfold min, ltb.
  destruct (Qle_bool c t) eqn:E; cbn.
  - lra.
  - assert (~ c <= t) by (rewrite <- Qle_bool_iff, E; discriminate). lra.
Qed.

Ltac by_computation := apply Qle_bool_iff; vm_compute; reflexivity.

(** The literals of the formula, within one rounding of their decimals. *)
Lemma lit_bounds :
  (55#100) - eps <= fl 0.55 <= (55#100) + eps /\
  0 <= fl 0.35 <= (35#100) + eps /\
  0 <= fl 0.05 /\
  0 <= fl 0.1 <= (10#100) + eps.
Proof. repeat split; by_computation. Qed.

Lemma ref_bonus_bounds (ref_count : nat) :
  let ref_bonus :=
    min (fl 0.1) (fmul (of_int (Z.of_nat ref_count - 1)) (fl 0.05)) in
  - (5#100) - eps <= ref_bonus <= (10#100) + eps.
Proof.
  destruct lit_bounds as (_ & _ & H05 & H01l & H01u).
  destruct ref_count as [|k].
  - cbv zeta. split; by_computation.
  - cbv zeta. unfold fmul, of_int.
    assert (Hk : 0 <= inject_Z (Z.of_nat (S k) - 1)).
    { change 0 with (inject_Z 0). rewrite <- Zle_Qle. lia. }
    apply fl_nonneg in Hk.
    assert (Ht : 0 <= fl (fl (inject_Z (Z.of_nat (S k) - 1)) * fl 0.05)).
    { apply fl_nonneg. apply Qmult_le_0_compat; assumption. }
    pose proof (@min_bounds _ _ H01l Ht). pose proof eps_small. lra.
Qed.

Lemma position_score_bounds (i len_citations : nat) :
  let position_score :=
    max 0 (fsub 1 (fdiv (inject_Z (Z.of_nat i))
                        (inject_Z (Z.max (Z.of_nat len_citations) 1)))) in
  0 <= position_score <= 1 + eps.
Proof.
  cbv zeta. unfold fsub, fdiv.
  set (q := fl (_ / _)).
  assert (Hq : 0 <= q).
  { subst q. apply fl_nonneg. apply Qle_shift_div_l.
    - change 0 with (inject_Z 0). rewrite <- Zlt_Qlt. lia.
    - rewrite Qmult_0_l. change 0 with (inject_Z 0). rewrite <- Zle_Qle. lia. }
  pose proof eps_small.
  apply max0_bounds; [lra|].
  destruct (Qlt_le_dec (1 - q) 0) as [Hn|Hp].
  - assert (fl (1 - q) <= 0) by (apply fl_nonpos; lra). lra.
  - assert (H2 : 1 - q < 2) by lra.
    pose proof (@fl_err _ Hp H2). lra.
Qed.

(** The relevance of a citation is between 0 and 1, whatever its position
    and its number of references. *)
Lemma relevance_bounds (i len_citations ref_count : nat) :
  0 <= perplexity_search.relevance i len_citations ref_count <= 1.
Proof.
  unfold perplexity_search.relevance.
  pose proof (position_score_bounds i len_citations) as Hp.
  pose proof (ref_bonus_bounds ref_count) as Hb.
  cbv zeta in Hp, Hb.
  set (position_score := max 0 _) in *.
  set (ref_bonus := min _ _) in *.
  destruct lit_bounds as ((H55l & H55u) & (H35l & H35u) & _).
  unfold round2, fadd, fmul.
  pose proof eps_small as Heps.
  assert (Hm : 0 <= fl 0.35 * position_score <= (35#100) + 2 * eps).
  { split; [apply Qmult_le_0_compat; lra|]. nra. }
  destruct Hm as [Hm0 Hm1].
  assert (H2 : fl 0.35 * position_score < 2) by lra.
  pose proof (@fl_err _ Hm0 H2) as Ha.
  pose proof (@fl_nonneg _ Hm0) as Ha0.
  set (a := fl (fl 0.35 * position_score)) in *.
  assert (Hs0 : 0 <= fl 0.55 + a) by lra.
  assert (Hs2 : fl 0.55 + a < 2) by lra.
  pose proof (@fl_err _ Hs0 Hs2) as Hb1.
  set (b := fl (fl 0.55 + a)) in *.
  assert (Ht0 : 0 <= b + ref_bonus) by lra.
  assert (Ht2 : b + ref_bonus < 2) by lra.
  pose proof (@fl_err _ Ht0 Ht2) as Hs.
  set (s := fl (b + ref_bonus)) in *.
  pose proof (rne_err (s * 100)) as [Kl Kh].
  set (K := rne (s * 100)) in *.
  assert (HK0 : (0 <= K)%Z).
  { assert (H : inject_Z (-1) < inject_Z K)
      by (change (inject_Z (-1)) with (-1); lra).
    rewrite <- Zlt_Qlt in H. lia. }
  assert (HK1 : (K <= 100)%Z).
  { assert (H : inject_Z K < inject_Z 101)
      by (change (inject_Z 101) with 101; lra).
    rewrite <- Zlt_Qlt in H. lia. }
  assert (Hq0 : 0 <= inject_Z K / 100).
  { apply Qle_shift_div_l; [reflexivity|]. rewrite Qmult_0_l.
    change 0 with (inject_Z 0). now rewrite <- Zle_Qle. }
  split; [now apply fl_nonneg|].
  destruct (Z.eq_dec K 100) as [E|E].
  - rewrite E. by_computation.
  - assert (HK99 : inject_Z K <= 99).
    { change 99 with (inject_Z 99). rewrite <- Zle_Qle. lia. }
    assert (Hq1 : inject_Z K / 100 <= 99#100).
    { apply Qle_shift_div_r; [reflexivity|]. lra. }
    assert (Hq2 : inject_Z K / 100 < 2) by lra.
    pose proof (@fl_err _ Hq0 Hq2). lra.
Qed.

End PyFloatFacts.

(* ================================================================== *)
(** * Strings and loops *)

Lemma take_cons (n : nat) (c : ascii) (s : string) :
  PyStr.take (S n) (String c s) = String c (PyStr.take n s).
Proof. reflexivity. Qed.

Lemma take_length (n : nat) (s : string) : String.length (PyStr.take n s) <= n.
Proof.
  revert s. induction n as [|n IH]; intros [|c s];
    try (change (0 <= 0); lia); try (change (0 <= S n); lia).
  rewrite take_cons. specialize (IH s). cbn [String.length]. lia.
Qed.

Lemma take_nonempty (n : nat) (s : string) :
  s <> EmptyString -> PyStr.take (S n) s <> EmptyString.
Proof. destruct s; [congruence | rewrite take_cons; discriminate]. Qed.

Lemma eqb_empty_false (s : string) :
  String.eqb s "" = false -> s <> EmptyString.
Proof. intros H E. subst s. discriminate. Qed.

(** Every element appended by a loop comes from an iteration that appended
    it. *)
Lemma for_enumerate_inv {A B} (body : nat -> A -> pyresult (option B))
    (l : list A) :
  forall i out, for_enumerate body i l = Ok out ->
  Forall (fun b => exists k x, nth_error l k = Some x
                               /\ body (i + k) x = Ok (Some b)) out.
Proof.
  induction l as [|x l IH]; intros i out H; simpl in H.
  - inversion H. constructor.
  - destruct (body i x) as [r|e] eqn:Hb; simpl in H; [|discriminate].
    destruct (for_enumerate body (S i) l) as [rest|e] eqn:Hr; simpl in H;
      [|discriminate].
    inversion H; subst out; clear H.
    assert (Hrest : Forall (fun b => exists k x0,
               nth_error (x :: l) k = Some x0
               /\ body (i + k) x0 = Ok (Some b)) rest).
    { eapply Forall_impl; [|exact (IH _ _ Hr)].
      intros b (k & x0 & Hk & Hx). exists (S k), x0. split; [exact Hk|].
      now replace (i + S k) with (S i + k) by lia. }
    destruct r as [b|]; [constructor|]; try exact Hrest.
    exists 0, x. split; [reflexivity|]. now rewrite Nat.add_0_r.
Qed.

Lemma for_enumerate_Forall {A B} (P : B -> Prop)
    (body : nat -> A -> pyresult (option B)) (l : list A) (i : nat)
    (out : list B) :
  (forall k x b, body k x = Ok (Some b) -> P b) ->
  for_enumerate body i l = Ok out -> Forall P out.
Proof.
  intros HP H. eapply Forall_impl; [|exact (for_enumerate_inv _ _ _ H)].
  intros b (k & x & _ & Hb). eauto.
Qed.

(* ================================================================== *)
(** * Date enrichment *)

Section EnrichFacts.
Context {R : PyRuntime} {N : RedditNet}.
Import tavily_reddit.

Lemma enriched_only_date (a b : RedditItem) :
  enriched_from a b -> only_date_filled a b.
Proof.
  intros [->|(Hf & idx & _ & ->)].
  - split; [now destruct a | reflexivity].
  - split; [reflexivity|]. rewrite Hf. discriminate.
Qed.

Lemma enriched_again (idx : nat) (a b : RedditItem) :
  enriched_from a b -> Py.truthy (r_date a) = false ->
  Py.truthy (_fetch_date_from_reddit idx (r_url a)) = true ->
  enriched_from a (set_date (_fetch_date_from_reddit idx (r_url a)) b).
Proof.
  intros H Hf Ht. right. split; [exact Hf|]. exists idx. split; [exact Ht|].
  destruct H as [->|(_ & idx' & _ & ->)]; reflexivity.
Qed.

Lemma enumerate_nth {A} (l : list A) :
  forall k i x, In (i, x) (enumerate k l) ->
  k <= i /\ nth_error l (i - k) = Some x.
Proof.
  induction l as [|y l IH]; intros k i x H; simpl in H; [contradiction|].
  destruct H as [H|H].
  - inversion H; subst. rewrite Nat.sub_diag. auto.
  - destruct (IH _ _ _ H) as [Hk Hn]. split; [lia|].
    replace (i - k) with (S (i - S k)) by lia. exact Hn.
Qed.

Lemma needing_nth (items : list RedditItem) (idx : nat) (item : RedditItem) :
  In (idx, item) (items_needing_dates items) ->
  nth_error items idx = Some item /\ Py.truthy (r_date item) = false.
Proof.
  unfold items_needing_dates. rewrite filter_In. intros [Hin Hd].
  apply enumerate_nth in Hin. rewrite Nat.sub_0_r in Hin.
  split; [tauto|]. simpl in Hd. now apply negb_true_iff in Hd.
Qed.

Lemma set_date_at_frame (items0 items : list RedditItem) :
  Forall2 enriched_from items0 items ->
  forall pos idx a, nth_error items0 pos = Some a ->
  Py.truthy (r_date a) = false ->
  Py.truthy (_fetch_date_from_reddit idx (r_url a)) = true ->
  Forall2 enriched_from items0
    (set_date_at pos (_fetch_date_from_reddit idx (r_url a)) items).
Proof.
  induction 1 as [|a0 b0 l0 l Hab Hl IH]; intros pos idx a Hn Hf Ht.
  - destruct pos; discriminate.
  - destruct pos as [|pos]; simpl in Hn; cbn [set_date_at].
    + injection Hn as ->. constructor; [|exact Hl].
      now apply enriched_again.
    + constructor; [exact Hab|]. now apply IH.
Qed.

Lemma complete_frame (items0 items : list RedditItem) (pos : nat) :
  Forall2 enriched_from items0 items ->
  Forall2 enriched_from items0
    (complete (items_needing_dates items0) items pos).
Proof.
  intros H. unfold complete.
  destruct (nth_error (items_needing_dates items0) pos) as [[idx item]|] eqn:E;
    [|exact H].
  destruct (Py.truthy _) eqn:Ht; [|exact H].
  apply nth_error_In, needing_nth in E. destruct E as [Hn Hf].
  now apply set_date_at_frame.
Qed.

Lemma fold_complete_frame (items0 : list RedditItem) (order : list nat) :
  forall items, Forall2 enriched_from items0 items ->
  Forall2 enriched_from items0
    (fold_left (complete (items_needing_dates items0)) order items).
Proof.
  induction order as [|pos order IH]; intros items H; simpl; [exact H|].
  apply IH. now apply complete_frame.
Qed.

Lemma Forall2_refl_on {A} (P : A -> A -> Prop) (l : list A) :
  (forall a, P a a) -> Forall2 P l l.
Proof. intros HP. induction l; constructor; auto. Qed.

Lemma store_same (h : heap) (l : loc) (v : list RedditItem) : store h l v l = v.
Proof. unfold store. now rewrite Nat.eqb_refl. Qed.

Lemma store_other (h : heap) (l l' : loc) (v : list RedditItem) :
  l' <> l -> store h l v l' = h l'.
Proof. intros H. unfold store. apply Nat.eqb_neq in H. now rewrite H. Qed.

Lemma enriched_from_refl (a : RedditItem) : enriched_from a a.
Proof. now left. Qed.

Lemma enrich_dates_frame (h : heap) (items : loc) :
  Forall2 enriched_from (h items)
    (final_heap (_enrich_dates h items) (returned (_enrich_dates h items))).
Proof.
  unfold _enrich_dates.
  destruct (items_needing_dates (h items)) eqn:E; cbn [final_heap returned].
  - apply Forall2_refl_on, enriched_from_refl.
  - rewrite store_same, <- E.
    apply fold_complete_frame, Forall2_refl_on, enriched_from_refl.
Qed.

(** C3: [_enrich_dates] returns the list object it was given; no other list
    is touched; the list keeps its length and order; an item that had a date
    is unchanged and an item that lacked one differs at most in [date]; and
    when no item lacks a date the list is left as it is and no request is
    made.  This holds for every network, so for every outcome of each fetch,
    and for every order of completion. *)
Theorem enrich_dates_same_list_dates_only (h : heap) (items : loc) :
  let e := _enrich_dates h items in
  returned e = items
  /\ (forall l, l <> items -> final_heap e l = h l)
  /\ Forall2 only_date_filled (h items) (final_heap e items)
  /\ List.length (final_heap e items) = List.length (h items)
  /\ (items_needing_dates (h items) = [] ->
      final_heap e items = h items /\ fetched e = [] /\ pool e = None).
Proof.
  cbv zeta.
  assert (Hret : returned (_enrich_dates h items) = items).
  { unfold _enrich_dates. now destruct (items_needing_dates (h items)). }
  pose proof (enrich_dates_frame h items) as Hf. rewrite Hret in Hf.
  split; [exact Hret|]. split; [|split; [|split]].
  - intros l Hl. unfold _enrich_dates.
    destruct (items_needing_dates (h items)); cbn [final_heap]; [reflexivity|].
    now apply store_other.
  - eapply Forall2_impl; [|exact Hf]. apply enriched_only_date.
  - symmetry. eapply Forall2_length; eauto.
  - intros E. unfold _enrich_dates. rewrite E. auto.
Qed.

End EnrichFacts.

(** The hypothesis of the last part of C3 holds on a list whose items all
    have a date: the list is left as it is and nothing is fetched. *)
Lemma enrich_dates_witness :
  let e := @tavily_reddit._enrich_dates Reference.runtime Reference.online
             Reference.dated_heap 0 in
  tavily_reddit.final_heap e 0 = Reference.dated_heap 0
  /\ tavily_reddit.fetched e = []
  /\ tavily_reddit.pool e = None.
Proof.
  destruct (@enrich_dates_same_list_dates_only Reference.runtime
              Reference.online Reference.dated_heap 0) as (_ & _ & _ & _ & H).
  apply H. reflexivity.
Defined.

(** On the list with an undated item, the fetch fills the date in. *)
Example enrich_dates_fills :
  let e := @tavily_reddit._enrich_dates Reference.runtime Reference.online
             Reference.undated_heap 0 in
  map r_date (tavily_reddit.final_heap e 0)
    = [ VStr "2024-05-01"; VStr "2023-11-14" ]
  /\ tavily_reddit.fetched e = [ (1, "/r/rust/comments/1/t"%string) ]
  /\ tavily_reddit.pool e = Some 1.
Proof. vm_compute. auto. Qed.

(* ================================================================== *)
(** * Bounds on the fields of emitted items *)

Section Bounds.
Context {R : PyRuntime} {N : RedditNet}.
Import PyFloat.

Lemma lit_zero : lit 0.0 = Finite 0.
Proof. reflexivity. Qed.

Lemma lit_one : lit 1.0 = Finite 1.
Proof. vm_compute. reflexivity. Qed.

Lemma clamp_in_unit (f : PyFloat.t) :
  relevance_in_unit (min_t (lit 1.0) (max_t (lit 0.0) f)).
Proof.
  unfold relevance_in_unit. rewrite lit_zero, lit_one.
  destruct f as [x| | |]; try (vm_compute; auto; fail).
  unfold max_t, min_t, lt, le, ltb.
  destruct (Qle_bool x 0) eqn:E0; cbn [negb].
  - vm_compute. auto.
  - destruct (Qle_bool 1 x) eqn:E1; cbn [negb].
    + vm_compute. auto.
    + assert (H0 : ~ (x <= 0)%Q) by (rewrite <- Qle_bool_iff, E0; discriminate).
      assert (H1 : ~ (1 <= x)%Q) by (rewrite <- Qle_bool_iff, E1; discriminate).
      split; apply Qle_bool_iff; lra.
Qed.

Lemma clamp_score_in_unit (score : value) (f : PyFloat.t) :
  clamp_score score = Ok f -> relevance_in_unit f.
Proof.
  unfold clamp_score, try_catching.
  destruct (py_float score) as [g|e]; cbn [bind].
  - intros H. inversion H. apply clamp_in_unit.
  - destruct e; intros H; inversion H; vm_compute; auto.
Qed.

Lemma relevance_in_unit_finite (q : Q) :
  (0 <= q <= 1)%Q -> relevance_in_unit (Finite q).
Proof.
  intros [H0 H1]. unfold relevance_in_unit. rewrite lit_zero, lit_one.
  split; apply Qle_bool_iff; assumption.
Qed.

End Bounds.

(* ================================================================== *)
(** * What each iteration appends *)

Section Shapes.
Context {R : PyRuntime} {N : RedditNet}.
Open Scope string_scope.

(** The fields of a record that is written out. *)
Ltac fields :=
  cbn [w_id w_title w_url w_source_domain w_snippet w_date w_date_confidence
       w_relevance w_why_relevant
       r_id r_title r_url r_subreddit r_date r_why_relevant r_relevance].

(** Case analysis on a monadic computation known to return. *)
Ltac returns H :=
  repeat match type of H with
    | bind ?m _ = Ok _ =>
        let E := fresh "E" in
        destruct m eqn:E; cbn [bind] in H; [|discriminate H]
    | (if ?c then _ else _) = Ok _ =>
        let E := fresh "E" in destruct c eqn:E
    | Raise _ = Ok _ => discriminate H
    | Ok None = Ok (Some _) => discriminate H
    end.

Lemma extracted_title_long (content : value) (index : nat) (t : string) :
  perplexity_search._extract_title_for_citation content index = Ok (Some t) ->
  3 < String.length t.
Proof.
  unfold perplexity_search._extract_title_for_citation. intros H.
  destruct (negb (Py.truthy content)); [discriminate|].
  destruct (perplexity_search.as_text content); cbn [bind] in H; [|discriminate].
  destruct (perplexity_search.search_title _ _); [|discriminate].
  match type of H with
  | Ok (if ?c then _ else _) = _ => destruct c eqn:E
  end; inversion H; subst. now apply Nat.ltb_lt in E.
Qed.

Lemma citation_item_shape (content : value) (counts : list (nat * nat))
    (n i : nat) (url : value) (item : WebItem) :
  perplexity_search.citation_item content counts n i url = Ok (Some item) ->
  exists u title,
    url = VStr u /\ u <> "" /\ w_url item = url
    /\ perplexity_search.domain_of url = Some (w_source_domain item)
    /\ w_title item = PyStr.take 200 title
    /\ (title = w_source_domain item \/ 3 < String.length title)
    /\ String.length (w_snippet item) <= 500
    /\ w_date item = VNone
    /\ w_relevance item
       = PyFloat.Finite
           (perplexity_search.relevance i n
              (perplexity_search.counts_get counts (i + 1) 1)).
Proof.
  unfold perplexity_search.citation_item. intros H.
  destruct url as [| | | |u| |]; try discriminate H.
  destruct (String.eqb u "") eqn:Eu; [discriminate H|].
  destruct (perplexity_search.domain_of (VStr u)) as [domain|] eqn:Ed;
    [|discriminate H].
  returns H. injection H as <-. fields.
  exists u. eexists. repeat split; try reflexivity.
  - now apply eqb_empty_false.
  - destruct a as [t|]; [right|left; reflexivity].
    eapply extracted_title_long; eauto.
  - destruct a0; [apply take_length | cbn; lia].
Qed.

Lemma tavily_item_shape (i : nat) (result : value) (item : WebItem) :
  tavily_search.result_item i result = Ok (Some item) ->
  exists d title snippet,
    result = VDict d
    /\ w_url item = Py.dict_get d "url" (VStr "")
    /\ Py.truthy (w_url item) = true
    /\ tavily_search.domain_of (w_url item) = Some (w_source_domain item)
    /\ w_title item = PyStr.take 200 title
    /\ w_snippet item = PyStr.take 500 snippet
    /\ (title <> "" \/ snippet <> "")
    /\ clamp_score (Py.dict_get d "score" (VFloat (PyFloat.lit 0.6)))
       = Ok (w_relevance item)
    /\ trim_date (Py.dict_get d "published_date" VNone) = Ok (w_date item).
Proof.
  unfold tavily_search.result_item. intros H.
  destruct result as [| | | | | |d]; try discriminate H.
  destruct (negb (Py.truthy (Py.dict_get d "url" (VStr "")))) eqn:Eu;
    [discriminate H|].
  destruct (tavily_search.domain_of _) as [domain|] eqn:Ed; [|discriminate H].
  match type of H with
  | (if ?c then _ else _) = _ => destruct c eqn:Et; [discriminate H|]
  end.
  returns H. injection H as <-. fields.
  exists d. do 2 eexists. repeat split; try reflexivity; try assumption.
  - now apply negb_false_iff in Eu.
  - apply andb_false_iff in Et.
    destruct Et as [Et|Et]; [left|right]; now apply eqb_empty_false.
Qed.

Lemma reddit_item_shape (i : nat) (result : value) (item : RedditItem) :
  tavily_reddit.result_item i result = Ok (Some item) ->
  exists d title,
    result = VDict d
    /\ r_url item = Py.dict_get d "url" (VStr "")
    /\ Py.truthy (r_url item) = true
    /\ Py.contains "reddit.com" (r_url item) = Ok true
    /\ title <> "" /\ r_title item = PyStr.take 200 title
    /\ title = tavily_reddit.title_of d
    /\ tavily_reddit.parse_date (Py.dict_get d "published_date" VNone)
       = Ok (r_date item)
    /\ clamp_score (Py.dict_get d "score" (VFloat (PyFloat.lit 0.6)))
       = Ok (r_relevance item).
Proof.
  unfold tavily_reddit.result_item. intros H.
  destruct result as [| | | | | |d]; try discriminate H.
  destruct (negb (Py.truthy (Py.dict_get d "url" (VStr "")))) eqn:Eu;
    [discriminate H|].
  destruct (Py.contains "reddit.com" _) as [is_reddit|] eqn:Ec;
    cbn [bind] in H; [|discriminate H].
  destruct is_reddit; cbn [negb] in H; [|discriminate H].
  destruct (String.eqb (tavily_reddit.title_of d) "") eqn:Et;
    [discriminate H|].
  returns H. injection H as <-. fields.
  exists d, (tavily_reddit.title_of d).
  repeat split; try reflexivity; try assumption.
  - now apply negb_false_iff in Eu.
  - now apply eqb_empty_false.
Qed.

End Shapes.

Section Emitted.
Context {R : PyRuntime} {N : RedditNet}.
Open Scope string_scope.

(** The loop of [parse_reddit_response], then the enrichment of its list. *)
Lemma parse_reddit_response_inv (response : value) (items : list RedditItem) :
  tavily_reddit.parse_reddit_response response = Ok items ->
  exists results items0,
    for_enumerate tavily_reddit.result_item 0 results = Ok items0
    /\ Forall2 enriched_from items0 items.
Proof.
  unfold tavily_reddit.parse_reddit_response. intros H.
  destruct (Py.get response "results" (VList [])) as [results|]; cbn [bind] in H;
    [|discriminate].
  destruct results as [| | | | |results|];
    try (injection H as <-; exists [], []; split; [reflexivity|constructor]).
  destruct (for_enumerate tavily_reddit.result_item 0 results) as [items0|] eqn:E;
    cbn [bind] in H; [|discriminate].
  exists results, items0. split; [exact E|]. clear E.
  destruct items0 as [|a items0]; injection H as <-; [constructor|].
  pose proof (enrich_dates_frame
                (tavily_reddit.store (fun _ => []) 0 (a :: items0)) 0) as Hf.
  assert (Hret : tavily_reddit.returned
            (tavily_reddit._enrich_dates
               (tavily_reddit.store (fun _ => []) 0 (a :: items0)) 0) = 0).
  { unfold tavily_reddit._enrich_dates.
    now destruct (tavily_reddit.items_needing_dates _). }
  rewrite Hret in *. exact Hf.
Qed.

Lemma Forall2_transfer {A} (Rel : A -> A -> Prop) (P Q : A -> Prop)
    (l l' : list A) :
  (forall a b, Rel a b -> P a -> Q b) ->
  Forall2 Rel l l' -> Forall P l -> Forall Q l'.
Proof.
  intros HPQ H. induction H; intros HP; constructor; inversion HP; subst; eauto.
Qed.

(** A property of the items of the Reddit loop that does not look at the
    date holds of the items returned. *)
Lemma parse_reddit_response_Forall (P : RedditItem -> Prop)
    (response : value) (items : list RedditItem) :
  (forall d a, P a -> P (tavily_reddit.set_date d a)) ->
  (forall i result a,
      tavily_reddit.result_item i result = Ok (Some a) -> P a) ->
  tavily_reddit.parse_reddit_response response = Ok items ->
  Forall P items.
Proof.
  intros Hset Hbody H.
  destruct (parse_reddit_response_inv _ H) as (results & items0 & Hl & Hf).
  apply Forall2_transfer with (Rel := enriched_from) (P := P) (l := items0);
    [|exact Hf|].
  - intros a b Hab Ha. apply enriched_only_date in Hab.
    destruct Hab as [Hb _]. rewrite Hb. now apply Hset.
  - eapply for_enumerate_Forall; eauto.
Qed.

Lemma perplexity_Forall (P : WebItem -> Prop) (response : value)
    (items : list WebItem) :
  (forall content counts n i url a,
      perplexity_search.citation_item content counts n i url = Ok (Some a) ->
      P a) ->
  perplexity_search._normalize_results response = Ok items ->
  Forall P items.
Proof.
  intros Hbody. unfold perplexity_search._normalize_results. intros H.
  destruct (Py.get response "citations" (VList [])) as [citations|];
    cbn [bind] in H; [|discriminate].
  destruct (perplexity_search._get_content response) as [content|];
    cbn [bind] in H; [|discriminate].
  destruct citations as [| | | | |[|c citations]|];
    try (injection H as <-; constructor).
  destruct (perplexity_search._count_citation_references _ _) as [counts|];
    cbn [bind] in H; [|discriminate].
  eapply for_enumerate_Forall; eauto.
Qed.

Lemma tavily_Forall (P : WebItem -> Prop) (response : value)
    (items : list WebItem) :
  (forall i result a, tavily_search.result_item i result = Ok (Some a) -> P a) ->
  tavily_search._normalize_results response = Ok items ->
  Forall P items.
Proof.
  intros Hbody. unfold tavily_search._normalize_results. intros H.
  destruct (Py.get response "results" (VList [])) as [results|];
    cbn [bind] in H; [|discriminate].
  destruct results as [| | | | |results|]; try (injection H as <-; constructor).
  eapply for_enumerate_Forall; eauto.
Qed.

(** C2: every item that a normalizer returns has a relevance between 0.0 and
    1.0 and a title of at most 200 characters, and the web items a snippet of
    at most 500 characters. *)
Theorem emitted_items_bounded (response : value) :
  (forall items, perplexity_search._normalize_results response = Ok items ->
                 Forall web_item_bounded items)
  /\ (forall items, tavily_search._normalize_results response = Ok items ->
                    Forall web_item_bounded items)
  /\ (forall items, tavily_reddit.parse_reddit_response response = Ok items ->
                    Forall reddit_item_bounded items).
Proof.
  split; [|split]; intros items H.
  - eapply perplexity_Forall; [|exact H].
    intros content counts n i url a Ha.
    destruct (citation_item_shape _ _ _ _ _ Ha)
      as (u & title & _ & _ & _ & _ & Ht & _ & Hs & _ & Hr).
    repeat split.
    + rewrite Hr. apply relevance_in_unit_finite, PyFloatFacts.relevance_bounds.
    + rewrite Hr. apply relevance_in_unit_finite, PyFloatFacts.relevance_bounds.
    + rewrite Ht. apply take_length.
    + exact Hs.
  - eapply tavily_Forall; [|exact H].
    intros i result a Ha.
    destruct (tavily_item_shape _ _ Ha)
      as (d & title & snippet & _ & _ & _ & _ & Ht & Hs & _ & Hr & _).
    split; [|split].
    + eapply clamp_score_in_unit; eauto.
    + rewrite Ht. apply take_length.
    + rewrite Hs. apply take_length.
  - eapply parse_reddit_response_Forall; [| |exact H].
    + intros d a Ha. exact Ha.
    + intros i result a Ha.
      destruct (reddit_item_shape _ _ Ha)
        as (d & title & _ & _ & _ & _ & _ & Ht & _ & _ & Hr).
      split.
      * eapply clamp_score_in_unit; eauto.
      * rewrite Ht. apply take_length.
Qed.

End Emitted.

(* ================================================================== *)
(** * The domain filter *)

Section DomainFilter.
Context {R : PyRuntime} {N : RedditNet}.
Open Scope string_scope.

Lemma same_denylist :
  tavily_search.EXCLUDED_DOMAINS = perplexity_search.EXCLUDED_DOMAINS.
Proof. reflexivity. Qed.

Lemma excluded_In (domain : string) :
  In domain perplexity_search.EXCLUDED_DOMAINS ->
  perplexity_search.excluded domain = true.
Proof.
  intros H. unfold perplexity_search.excluded. apply existsb_exists.
  exists domain. split; [exact H | apply String.eqb_refl].
Qed.

Lemma perplexity_domain_excluded (url netloc path : string) :
  urlparse url = Ok (netloc, path) ->
  In (PyStr.lower netloc) perplexity_search.EXCLUDED_DOMAINS ->
  perplexity_search.domain_of (VStr url) = None.
Proof.
  intros Hu Hin. unfold perplexity_search.domain_of, urlparse_value.
  rewrite Hu. now rewrite (excluded_In Hin).
Qed.

Lemma tavily_domain_excluded (url netloc path : string) :
  urlparse url = Ok (netloc, path) ->
  In (PyStr.lower netloc) perplexity_search.EXCLUDED_DOMAINS ->
  tavily_search.domain_of (VStr url) = None.
Proof. exact (@perplexity_domain_excluded url netloc path). Qed.


End DomainFilter.


(** C2 on a response of each normalizer that yields items. *)
Lemma emitted_items_bounded_witness :
  (exists items,
      @perplexity_search._normalize_results Reference.runtime
        Reference.two_citations = Ok items
      /\ List.length items = 2 /\ Forall web_item_bounded items)
  /\ (exists items,
        @tavily_search._normalize_results Reference.runtime
          Reference.web_results = Ok items
        /\ List.length items = 1 /\ Forall web_item_bounded items)
  /\ (exists items,
        @tavily_reddit.parse_reddit_response Reference.runtime Reference.online
          Reference.reddit_results = Ok items
        /\ List.length items = 1 /\ Forall reddit_item_bounded items).
Proof.
  split; [|split]; eexists; (split; [vm_compute; reflexivity|]);
    (split; [reflexivity|]).
  - refine (proj1 (@emitted_items_bounded Reference.runtime Reference.online
                     Reference.two_citations) _ _).
    vm_compute. reflexivity.
  - refine (proj1 (proj2 (@emitted_items_bounded Reference.runtime
                            Reference.online Reference.web_results)) _ _).
    vm_compute. reflexivity.
  - refine (proj2 (proj2 (@emitted_items_bounded Reference.runtime
                            Reference.online Reference.reddit_results)) _ _).
    vm_compute. reflexivity.
Defined.

(* ================================================================== *)
(** * URLs and titles *)

Section UrlsAndTitles.
Context {R : PyRuntime} {N : RedditNet}.
Open Scope string_scope.

Lemma truthy_nonempty (s : string) : s <> "" -> Py.truthy (VStr s) = true.
Proof.
  intros H. cbn. destruct (String.eqb s "") eqn:E; [|reflexivity].
  apply String.eqb_eq in E. contradiction.
Qed.

Lemma nonempty_truthy (s : string) : Py.truthy (VStr s) = true -> s <> "".
Proof. intros H ->. discriminate. Qed.

Lemma long_nonempty (s : string) : 3 < String.length s -> s <> "".
Proof. intros H ->. cbn in H. lia. Qed.

(** C10, as amended: every item that the Reddit normalizer returns has a
    truthy URL of which ["reddit.com" in url] holds; when the URL is a
    string, it is not empty and has that substring; and a result whose URL
    is a string without it yields no item. *)
Theorem reddit_items_contain_reddit_com (response : value) :
  (forall items, tavily_reddit.parse_reddit_response response = Ok items ->
     Forall (fun item =>
               Py.truthy (r_url item) = true
               /\ Py.contains "reddit.com" (r_url item) = Ok true
               /\ forall s, r_url item = VStr s ->
                            s <> "" /\ PyStr.contains "reddit.com" s = true)
            items)
  /\ (forall i d s,
        Py.dict_get d "url" (VStr "") = VStr s ->
        PyStr.contains "reddit.com" s = false ->
        tavily_reddit.result_item i (VDict d) = Ok None).
Proof.
  split.
  - intros items H.
    eapply parse_reddit_response_Forall; [| |exact H].
    + intros d a Ha. exact Ha.
    + intros i result a Ha.
      destruct (reddit_item_shape _ _ Ha)
        as (d & title & _ & _ & Hu & Hc & _).
      split; [exact Hu|]. split; [exact Hc|].
      intros s Hs. rewrite Hs in Hu, Hc. split.
      * now apply nonempty_truthy.
      * cbn in Hc. now injection Hc.
  - intros i d s Hs Hc. unfold tavily_reddit.result_item.
    rewrite Hs. destruct (negb (Py.truthy (VStr s))); [reflexivity|].
    cbn [Py.contains bind]. now rewrite Hc.
Qed.

End UrlsAndTitles.

(** C7 as stated fails: a citation without a host and without text yields
    a Perplexity item with an empty title, and a Tavily result without a
    title yields an item with an empty title. *)
Lemma empty_title_emitted :
  (exists item,
      @perplexity_search._normalize_results Reference.runtime
        Reference.bare_citation = Ok [item]
      /\ w_title item = ""%string)
  /\ (exists item,
        @tavily_search._normalize_results Reference.runtime
          Reference.untitled_results = Ok [item]
        /\ w_title item = ""%string).
Proof.
  split; eexists; (split; [vm_compute; reflexivity | reflexivity]).
Qed.

(** C10 on a Reddit result: the item has the post's URL, and a result
    whose URL lacks the substring yields nothing. *)
Lemma reddit_items_contain_reddit_com_witness :
  (exists items,
      @tavily_reddit.parse_reddit_response Reference.runtime Reference.online
        Reference.reddit_results = Ok items
      /\ Forall (fun item =>
                   Py.truthy (r_url item) = true
                   /\ Py.contains "reddit.com" (r_url item) = Ok true
                   /\ forall s, r_url item = VStr s ->
                                s <> ""%string
                                /\ PyStr.contains "reddit.com" s = true)
                items)
  /\ @tavily_reddit.result_item Reference.runtime 0
       (VDict [ ("url", VStr "https://www.example.com/a");
                ("title", VStr "T") ]%string) = Ok None.
Proof.
  split.
  - eexists. split; [vm_compute; reflexivity|].
    refine (proj1 (@reddit_items_contain_reddit_com Reference.runtime
                     Reference.online Reference.reddit_results) _ _).
    vm_compute. reflexivity.
  - refine (proj2 (@reddit_items_contain_reddit_com Reference.runtime
                     Reference.online Reference.reddit_results)
              0 _ "https://www.example.com/a"%string _ _); reflexivity.
Defined.

(** C10 as stated fails: a result whose [url] is a list with the element
    ["reddit.com"] yields an item whose URL is that list, not a string. *)
Lemma list_url_emitted :
  exists item,
    @tavily_reddit.parse_reddit_response Reference.runtime Reference.offline
      Reference.list_url_results = Ok [item]
    /\ r_url item = VList [ VStr "reddit.com" ]
    /\ forall s, r_url item <> VStr s.
Proof.
  eexists. split; [vm_compute; reflexivity|]. split; [reflexivity|].
  intros s. discriminate.
Qed.

(* ================================================================== *)
(** * Dates *)

Section Dates.
Context {R : PyRuntime} {N : RedditNet}.
Open Scope string_scope.



Lemma parse_date_truthy (published_date date : value) :
  tavily_reddit.parse_date published_date = Ok date ->
  Py.truthy date = true -> PyStr.iso_date_shape (py_str date) = true.
Proof.
  unfold tavily_reddit.parse_date. intros H Ht.
  destruct (trim_date published_date) as [d|]; cbn [bind] in H; [|discriminate].
  destruct (Py.truthy d) eqn:Ed; cbn [andb] in H.
  - destruct (PyStr.iso_date_shape (py_str d)) eqn:Es; cbn [negb] in H;
      injection H as <-; [exact Es | discriminate].
  - injection H as <-. congruence.
Qed.


End Dates.

(* ================================================================== *)
(** * Malformed responses *)

Section Malformed.
Context {R : PyRuntime}.
Open Scope string_scope.

(** The path to the text is read defensively: [_get_content] returns for
    every response. *)
Lemma get_content_returns (response : value) :
  exists content, perplexity_search._get_content response = Ok content.
Proof.
  unfold perplexity_search._get_content, try_catching.
  match goal with
  | |- exists c, match ?m with _ => _ end = _ => destruct m as [c|e] eqn:E
  end; [eauto|].
  assert (He : e = KeyError \/ e = IndexError \/ e = TypeError).
  { destruct (Py.getitem_key response "choices") as [choices|e1] eqn:E1;
      cbn [bind] in E;
      [|destruct response; cbn in E1; try destruct (Py.lookup _ _);
        inversion E1; subst; inversion E; subst; tauto].
    destruct (Py.getitem_0 choices) as [first|e2] eqn:E2; cbn [bind] in E;
      [|destruct choices as [| | | |[|? ?]|[|? ?]|]; cbn in E2;
        inversion E2; subst; inversion E; subst; tauto].
    destruct (Py.getitem_key first "message") as [message|e3] eqn:E3;
      cbn [bind] in E;
      [|destruct first; cbn in E3; try destruct (Py.lookup _ _);
        inversion E3; subst; inversion E; subst; tauto].
    destruct message; cbn in E; try destruct (Py.lookup _ _);
      inversion E; subst; tauto. }
  destruct He as [->|[->| ->]]; eauto.
Qed.

Lemma for_enumerate_returns {A B} (body : nat -> A -> pyresult (option B))
    (l : list A) :
  (forall i x, In x l -> exists r, body i x = Ok r) ->
  forall i, exists out, for_enumerate body i l = Ok out.
Proof.
  induction l as [|x l IH]; intros H i; cbn [for_enumerate]; [eauto|].
  destruct (H i x (or_introl eq_refl)) as [r ->].
  destruct (IH (fun k y Hy => H k y (or_intror Hy)) (S i)) as [rest ->].
  cbn [bind]. eauto.
Qed.

Lemma count_returns (content : value) (n : nat) :
  text_or_falsy content ->
  exists counts,
    perplexity_search._count_citation_references content n = Ok counts.
Proof.
  unfold perplexity_search._count_citation_references.
  intros [Hf|[s ->]]; [rewrite Hf; cbn [negb]; eauto|].
  destruct (negb (Py.truthy (VStr s))); [eauto|].
  apply for_enumerate_returns. intros i x _. cbn [perplexity_search.as_text bind].
  eauto.
Qed.

Lemma citation_item_returns (content : value) (counts : list (nat * nat))
    (n i : nat) (url : value) :
  text_or_falsy content ->
  exists r, perplexity_search.citation_item content counts n i url = Ok r.
Proof.
  intros Hc. unfold perplexity_search.citation_item.
  destruct url as [| | | |u| |]; eauto.
  destruct (String.eqb u ""); [eauto|].
  destruct (perplexity_search.domain_of (VStr u)) as [domain|]; [|eauto].
  unfold perplexity_search._extract_title_for_citation,
    perplexity_search._extract_snippet_for_citation.
  destruct Hc as [Hf|[text ->]].
  - rewrite Hf. cbn [negb bind]. eauto.
  - destruct (negb (Py.truthy (VStr text)));
      cbn [perplexity_search.as_text bind].
    + eauto.
    + destruct (perplexity_search.search_title _ _);
        destruct (perplexity_search.search_snippet _ _ _); cbn [bind]; eauto.
Qed.

(** X6: the Perplexity normalizer returns a list for every response that is
    a dict and whose text, however the path to it is broken, is a string or
    falsy. *)
Lemma perplexity_returns (d : list (string * value)) (content : value) :
  perplexity_search._get_content (VDict d) = Ok content ->
  text_or_falsy content ->
  exists items, perplexity_search._normalize_results (VDict d) = Ok items.
Proof.
  intros Hg Hc. unfold perplexity_search._normalize_results.
  cbn [Py.get bind]. rewrite Hg. cbn [bind].
  destruct (Py.dict_get d "citations" (VList [])) as [| | | | |[|c l]|]; eauto.
  destruct (count_returns (List.length (c :: l)) Hc) as [counts ->].
  cbn [bind]. apply for_enumerate_returns.
  intros i x _. now apply citation_item_returns.
Qed.

Lemma trim_date_returns (date : value) :
  sized_or_falsy date -> exists d, trim_date date = Ok d.
Proof.
  unfold trim_date. intros [Hf|[[s ->]|[l ->]]].
  - rewrite Hf. eauto.
  - destruct (Py.truthy (VStr s)); [|eauto]. cbn [Py.len bind].
    destruct (10 <=? String.length s)%nat; cbn [Py.slice_10]; eauto.
  - destruct (Py.truthy (VList l)); [|eauto]. cbn [Py.len bind].
    destruct (10 <=? List.length l)%nat; cbn [Py.slice_10]; eauto.
Qed.

Lemma clamp_score_returns (score : value) :
  convertible_score score -> exists f, clamp_score score = Ok f.
Proof.
  intros Hs. unfold clamp_score, try_catching, py_float.
  destruct score as [| |z| | | |]; cbn [bind]; eauto.
  - rewrite (Hs z eq_refl). cbn [bind]. eauto.
  - destruct (float_of_str s); cbn [bind]; eauto.
Qed.

(** X7: the Tavily web normalizer returns a list for every response that is
    a dict and whose results have readable dates and scores. *)
Lemma tavily_returns (d : list (string * value)) :
  (forall results, Py.dict_get d "results" (VList []) = VList results ->
                   Forall readable_result results) ->
  exists items, tavily_search._normalize_results (VDict d) = Ok items.
Proof.
  intros H. unfold tavily_search._normalize_results. cbn [Py.get bind].
  destruct (Py.dict_get d "results" (VList [])) as [| | | | |results|]; eauto.
  specialize (H results eq_refl). rewrite Forall_forall in H.
  apply for_enumerate_returns. intros i x Hx.
  unfold tavily_search.result_item.
  destruct x as [| | | | | |r]; eauto.
  destruct (H _ Hx r eq_refl) as [Hd Hs].
  destruct (negb (Py.truthy _)); [eauto|].
  destruct (tavily_search.domain_of _); [|eauto].
  match goal with
  | |- exists r, (if ?c then _ else _) = _ => destruct c; [eauto|]
  end.
  destruct (clamp_score_returns Hs) as [f ->].
  destruct (trim_date_returns Hd) as [date ->]. cbn [bind]. eauto.
Qed.

End Malformed.

(** C1: the code raises on malformed fields.  A [published_date] that is a
    number makes both Tavily normalizers raise [TypeError] at [len(date)];
    a [url] that is a number makes the Reddit normalizer raise [TypeError]
    at ["reddit.com" not in url]; a text that is a number makes the
    Perplexity normalizer raise [TypeError] at [re.findall]; and a [score]
    that is an integer too large for a float raises [OverflowError], which
    [except (TypeError, ValueError)] does not catch. *)
Theorem malformed_fields_raise :
  @tavily_search._normalize_results Reference.runtime
    Reference.int_date_results = Raise TypeError
  /\ @tavily_reddit.parse_reddit_response Reference.runtime Reference.offline
       Reference.int_date_reddit_results = Raise TypeError
  /\ @tavily_reddit.parse_reddit_response Reference.runtime Reference.offline
       Reference.int_url_results = Raise TypeError
  /\ @perplexity_search._normalize_results Reference.runtime
       Reference.non_text_content = Raise TypeError
  /\ @tavily_search._normalize_results Reference.runtime
       Reference.huge_score_results = Raise OverflowError.
Proof. repeat split; vm_compute; reflexivity. Qed.

(* ================================================================== *)
(** * The relevance of citations *)

(** C4: on the two citations of the specification the relevances are 0.95
    and 0.73, as the formula gives; but a citation that a text which is not
    empty does not refer to has a reference count of 0, not 1, and a
    relevance of 0.85 where the count of 1 would give 0.9. *)
Theorem citation_relevance_examples :
  Reference.relevances
    (@perplexity_search._normalize_results Reference.runtime
       Reference.two_citations)
  = Ok [ PyFloat.lit 0.95; PyFloat.lit 0.73 ]
  /\ perplexity_search._count_citation_references
       (VStr "No markers here.") 1 = Ok [ (1, 0) ]
  /\ Reference.relevances
       (@perplexity_search._normalize_results Reference.runtime
          Reference.unreferenced)
     = Ok [ PyFloat.lit 0.85 ]
  /\ PyFloat.Finite (perplexity_search.relevance 0 1 1) = PyFloat.lit 0.9
  /\ PyFloat.lit 0.85 <> PyFloat.lit 0.9.
Proof.
  repeat split; try (vm_compute; reflexivity).
  intros H. vm_compute in H. discriminate H.
Qed.

(** C8: the relevance leaves the range from 0.55 to 0.90 on both sides.  The
    first of the two citations of the specification has 0.95, a citation
    referred to three times has 1.0, and the last of eight citations, not
    referred to, has 0.54. *)
Theorem citation_relevance_outside_range :
  Reference.relevances
    (@perplexity_search._normalize_results Reference.runtime
       Reference.two_citations)
  = Ok [ PyFloat.lit 0.95; PyFloat.lit 0.73 ]
  /\ PyFloat.le (PyFloat.lit 0.95) (PyFloat.lit 0.90) = false
  /\ Reference.relevances
       (@perplexity_search._normalize_results Reference.runtime
          Reference.thrice)
     = Ok [ PyFloat.lit 1.0 ]
  /\ PyFloat.le (PyFloat.lit 1.0) (PyFloat.lit 0.90) = false
  /\ PyFloat.Finite (perplexity_search.relevance 7 8 0) = PyFloat.lit 0.54
  /\ PyFloat.le (PyFloat.lit 0.55) (PyFloat.lit 0.54) = false.
Proof. repeat split; vm_compute; reflexivity. Qed.

(* ================================================================== *)
(** * The pool of the enrichment *)

Section Pool.
Context {R : PyRuntime} {N : RedditNet}.
Import tavily_reddit.

(** The pool is created with [min(5, len(items_needing_dates))] workers,
    and each item that lacks a date is fetched at most once. *)
Lemma pool_size (h : heap) (items : loc) (workers : nat) :
  pool (_enrich_dates h items) = Some workers ->
  workers = Nat.min 5 (List.length (items_needing_dates (h items)))
  /\ workers <= 5
  /\ workers <= List.length (items_needing_dates (h items))
  /\ List.length (fetched (_enrich_dates h items))
     <= List.length (items_needing_dates (h items)).
Proof.
  unfold _enrich_dates.
  destruct (items_needing_dates (h items)) as [|t tasks] eqn:E;
    cbv beta iota delta [pool fetched]; [discriminate|].
  intros Hw.
  assert (Hw' : Nat.min 5 (List.length (t :: tasks)) = workers) by congruence.
  clear Hw. subst workers.
  split; [reflexivity|]. split; [apply Nat.le_min_l|].
  split; [apply Nat.le_min_r|].
  unfold fetches. generalize (t :: tasks). intros l.
  induction l as [|x l IH]; [apply Nat.le_refl|].
  change (flat_map ?f (x :: l)) with (f x ++ flat_map f l).
  rewrite length_app.
  destruct (_extract_reddit_path (r_url (snd x))) as [path|];
    [destruct (String.eqb path "")|]; cbn [List.length]; lia.
Qed.

End Pool.

(* ================================================================== *)
(** * The citation analyzer on sample texts *)

Section AnalyzerExamples.
Import perplexity_search.
Open Scope string_scope.

Let newline : string := String (ascii_of_nat 10) "".

(** [[1]] inside [[10]] or before a digit is not counted. *)
Example count_exact_index :
  _count_citation_references (VStr "x [1]5 [1][1] [10] [1]") 2
  = Ok [ (1, 3); (2, 0) ].
Proof. reflexivity. Qed.

(** No text, no counts: the default of [counts.get] applies. *)
Example count_no_text :
  _count_citation_references (VStr "") 2 = Ok []
  /\ counts_get [] 1 1 = 1
  /\ counts_get [ (1, 3); (2, 0) ] 2 1 = 0.
Proof. repeat split. Qed.

(** The gap gives characters back until five are left for the title. *)
Example title_backtracks :
  _extract_title_for_citation (VStr "no dot [1] here") 1 = Ok (Some "here")
  /\ _extract_title_for_citation (VStr "[1]   abc") 1 = Ok None.
Proof. split; reflexivity. Qed.

Example title_strips_emphasis :
  _extract_title_for_citation
    (VStr ("[1])) " ++ newline ++ "  **Bold title here**. [2] x")) 1
  = Ok (Some "Bold title here").
Proof. reflexivity. Qed.

(** The snippet is the first sentence with the marker; a text without a
    period has none. *)
Example snippet_first_sentence :
  _extract_snippet_for_citation
    (VStr "... [1] First Article is great. More on [2] Second Article.") 2
  = Ok (Some "More on  Second Article.")
  /\ _extract_snippet_for_citation (VStr "no dot [1] here") 1 = Ok None
  /\ _extract_snippet_for_citation
       (VStr "a.b [1].c [1] long enough text here.") 1 = Ok None.
Proof. repeat split; reflexivity. Qed.

End AnalyzerExamples.

(* ================================================================== *)
(** * Which entries of a response become items *)

Section Order.
Context {R : PyRuntime} {N : RedditNet}.
Open Scope string_scope.

Lemma for_enumerate_filter {A B C} (body : nat -> A -> pyresult (option B))
    (f : B -> C) (g : A -> C) (keep : A -> bool) (l : list A) :
  (forall i x b, body i x = Ok (Some b) -> f b = g x /\ keep x = true) ->
  (forall i x, body i x = Ok None -> keep x = false) ->
  forall i out, for_enumerate body i l = Ok out ->
  map f out = map g (filter keep l).
Proof.
  intros Hs Hn. induction l as [|x l IH]; intros i out H; cbn [for_enumerate] in H.
  - injection H as <-. reflexivity.
  - destruct (body i x) as [r|e] eqn:Hb; cbn [bind] in H; [|discriminate].
    destruct (for_enumerate body (S i) l) as [rest|e] eqn:Hr; cbn [bind] in H;
      [|discriminate].
    injection H as <-. cbn [filter]. destruct r as [b|].
    + destruct (Hs _ _ _ Hb) as [Hf ->]. cbn [map]. rewrite Hf.
      f_equal. eauto.
    + rewrite (Hn _ _ Hb). eauto.
Qed.

(** The filter of both web loops drops a URL exactly when its authority is
    in the denylist. *)
Lemma perplexity_filter_is_denylist (url : value) :
  is_some (perplexity_search.domain_of url) = negb (netloc_denylisted url).
Proof.
  unfold perplexity_search.domain_of, netloc_denylisted.
  destruct (urlparse_value url) as [[netloc path]|e]; [|reflexivity].
  change (perplexity_search.excluded (PyStr.lower netloc))
    with (denylisted_name (PyStr.lower netloc)).
  now destruct (denylisted_name (PyStr.lower netloc)).
Qed.

Lemma tavily_filter_is_denylist (url : value) :
  is_some (tavily_search.domain_of url) = negb (netloc_denylisted url).
Proof.
  unfold tavily_search.domain_of, netloc_denylisted.
  destruct (urlparse_value url) as [[netloc path]|e]; [|reflexivity].
  change (tavily_search.excluded (PyStr.lower netloc))
    with (denylisted_name (PyStr.lower netloc)).
  now destruct (denylisted_name (PyStr.lower netloc)).
Qed.

Lemma citation_item_kept (content : value) (counts : list (nat * nat))
    (n i : nat) (url : value) (r : option WebItem) :
  perplexity_search.citation_item content counts n i url = Ok r ->
  match r with
  | Some item => w_url item = url /\ citation_kept url = true
  | None => citation_kept url = false
  end.
Proof.
  destruct r as [item|]; intros H.
  - destruct (citation_item_shape _ _ _ _ _ H)
      as (u & title & -> & Hu & Hurl & Hd & _).
    split; [exact Hurl|]. unfold citation_kept.
    rewrite <- perplexity_filter_is_denylist, Hd.
    destruct (String.eqb u "") eqn:E; [|reflexivity].
    apply String.eqb_eq in E. contradiction.
  - unfold perplexity_search.citation_item in H. unfold citation_kept.
    destruct url as [| | | |u| |]; try reflexivity.
    rewrite <- perplexity_filter_is_denylist.
    destruct (String.eqb u ""); [reflexivity|].
    destruct (perplexity_search.domain_of (VStr u)); [|reflexivity].
    destruct (perplexity_search._extract_title_for_citation _ _);
      cbn [bind] in H; [|discriminate].
    destruct (perplexity_search._extract_snippet_for_citation _ _);
      cbn [bind] in H; discriminate.
Qed.

(** X1: the Perplexity normalizer keeps the order of the citations: the URLs
    of the items it returns are, in order, the citations that are non-empty
    strings and whose authority (the [netloc] of [urlparse]), in lower case,
    is none of the seven names of the denylist; so it returns no more items
    than there are citations. *)
Theorem perplexity_urls_are_kept_citations (d : list (string * value))
    (citations : list value) (items : list WebItem) :
  Py.dict_get d "citations" (VList []) = VList citations ->
  perplexity_search._normalize_results (VDict d) = Ok items ->
  map w_url items = filter citation_kept citations
  /\ List.length items <= List.length citations.
Proof.
  intros Hc H.
  assert (Hm : map w_url items = filter citation_kept citations).
  { unfold perplexity_search._normalize_results in H.
    cbn [Py.get bind] in H. rewrite Hc in H.
    destruct (perplexity_search._get_content (VDict d)) as [content|];
      cbn [bind] in H; [|discriminate].
    destruct citations as [|c l]; [injection H as <-; reflexivity|].
    destruct (perplexity_search._count_citation_references _ _) as [counts|];
      cbn [bind] in H; [|discriminate].
    rewrite <- (map_id (filter citation_kept (c :: l))).
    eapply for_enumerate_filter; [| |exact H].
    - intros i x b Hb. exact (citation_item_kept _ _ _ _ _ Hb).
    - intros i x Hb. exact (citation_item_kept _ _ _ _ _ Hb). }
  split; [exact Hm|].
  rewrite <- (length_map w_url), Hm. apply filter_length_le.
Qed.

Lemma web_result_item_kept (i : nat) (result : value) (r : option WebItem) :
  tavily_search.result_item i result = Ok r ->
  match r with
  | Some item => w_url item = url_of result /\ web_result_kept result = true
  | None => web_result_kept result = false
  end.
Proof.
  unfold tavily_search.result_item, web_result_kept.
  destruct result as [| | | | | |d]; try (intros [= <-]; reflexivity).
  rewrite <- tavily_filter_is_denylist. cbn [url_of].
  destruct (Py.truthy (Py.dict_get d "url" (VStr ""))); cbn [negb andb];
    [|intros [= <-]; reflexivity].
  destruct (tavily_search.domain_of _) as [domain|]; cbn [is_some];
    [|intros [= <-]; reflexivity].
  match goal with
  | |- (if ?c then _ else _) = _ -> _ => destruct c
  end; cbn [negb]; [intros [= <-]; reflexivity|].
  destruct (clamp_score _) as [f|]; cbn [bind]; [|discriminate].
  destruct (trim_date _) as [date|]; cbn [bind]; [|discriminate].
  intros [= <-]. split; reflexivity.
Qed.

(** X2: the Tavily web normalizer keeps the order of the results: the URLs
    of its items are, in order, those of the results that are dicts with a
    truthy [url], an authority (the [netloc] of [urlparse]) that in lower
    case is none of the seven names of the denylist, and a title or a
    content left after stripping. *)
Theorem tavily_urls_are_kept_results (d : list (string * value))
    (results : list value) (items : list WebItem) :
  Py.dict_get d "results" (VList []) = VList results ->
  tavily_search._normalize_results (VDict d) = Ok items ->
  map w_url items = map url_of (filter web_result_kept results)
  /\ List.length items <= List.length results.
Proof.
  intros Hc H.
  assert (Hm : map w_url items = map url_of (filter web_result_kept results)).
  { unfold tavily_search._normalize_results in H.
    cbn [Py.get bind] in H. rewrite Hc in H.
    eapply for_enumerate_filter; [| |exact H].
    - intros i x b Hb. exact (web_result_item_kept _ _ Hb).
    - intros i x Hb. exact (web_result_item_kept _ _ Hb). }
  split; [exact Hm|].
  rewrite <- (length_map w_url), Hm, length_map. apply filter_length_le.
Qed.

Lemma reddit_result_item_kept (i : nat) (result : value)
    (r : option RedditItem) :
  tavily_reddit.result_item i result = Ok r ->
  match r with
  | Some item => r_url item = url_of result /\ reddit_result_kept result = true
  | None => reddit_result_kept result = false
  end.
Proof.
  unfold tavily_reddit.result_item, reddit_result_kept.
  destruct result as [| | | | | |d]; try (intros [= <-]; reflexivity).
  cbn [url_of].
  destruct (Py.truthy (Py.dict_get d "url" (VStr ""))); cbn [negb andb];
    [|intros [= <-]; reflexivity].
  destruct (Py.contains "reddit.com" _) as [[|]|]; cbn [bind negb andb];
    [|intros [= <-]; reflexivity|discriminate].
  destruct (String.eqb (tavily_reddit.title_of d) ""); cbn [negb];
    [intros [= <-]; reflexivity|].
  destruct (tavily_reddit.parse_date _) as [date|]; cbn [bind]; [|discriminate].
  destruct (clamp_score _) as [f|]; cbn [bind]; [|discriminate].
  intros [= <-]. split; reflexivity.
Qed.



End Order.

(* ================================================================== *)
(** * Identifiers *)

Section Ids.
Context {R : PyRuntime} {N : RedditNet}.
Open Scope string_scope.

Lemma to_uint_nonnil (n : nat) : Nat.to_uint n <> Decimal.Nil.
Proof.
  pose proof (DecimalNat.Unsigned.to_of (Nat.to_uint n)) as H.
  rewrite DecimalNat.Unsigned.of_to in H. rewrite H. apply DecimalFacts.unorm_nonnil.
Qed.

(** Two numbers with the same decimal numeral are equal. *)
Lemma dec_inj (n n' : nat) : PyStr.dec n = PyStr.dec n' -> n = n'.
Proof.
  unfold PyStr.dec. intros H.
  apply (f_equal NilZero.uint_of_string) in H.
  rewrite !NilZero.usu in H by apply to_uint_nonnil.
  injection H as H. now apply DecimalNat.Unsigned.to_uint_inj.
Qed.

Lemma Forall2_impl_left {A B} (Q : A -> Prop) (P P' : A -> B -> Prop)
    (l : list A) (l' : list B) :
  (forall a b, Q a -> P a b -> P' a b) ->
  Forall Q l -> Forall2 P l l' -> Forall2 P' l l'.
Proof.
  intros HP HQ H. induction H; constructor; inversion HQ; subst; auto.
Qed.

(** The iterations that appended the elements, in increasing order. *)
Lemma for_enumerate_positions {A B} (body : nat -> A -> pyresult (option B))
    (l : list A) :
  forall i out, for_enumerate body i l = Ok out ->
  exists ks,
    StronglySorted lt ks
    /\ Forall (fun k => i <= k) ks
    /\ Forall2 (fun k b => exists x, nth_error l (k - i) = Some x
                                     /\ body k x = Ok (Some b)) ks out.
Proof.
  induction l as [|x l IH]; intros i out H; cbn [for_enumerate] in H.
  - injection H as <-. exists []. repeat constructor.
  - destruct (body i x) as [r|e] eqn:Hb; cbn [bind] in H; [|discriminate].
    destruct (for_enumerate body (S i) l) as [rest|e] eqn:Hr; cbn [bind] in H;
      [|discriminate].
    injection H as <-.
    destruct (IH _ _ Hr) as (ks & Hs & Hge & Hf).
    assert (Hf' : Forall2 (fun k b => exists x0,
                     nth_error (x :: l) (k - i) = Some x0
                     /\ body k x0 = Ok (Some b)) ks rest).
    { eapply Forall2_impl_left; [|exact Hge|exact Hf].
      cbn beta. intros k b Hk (x0 & Hn & Hx). exists x0. split; [|exact Hx].
      replace (k - i) with (S (k - S i)) by lia. exact Hn. }
    destruct r as [b|].
    + exists (i :: ks). split; [|split].
      * constructor; [exact Hs|]. eapply Forall_impl; [|exact Hge].
        cbn. intros; lia.
      * constructor; [lia|]. eapply Forall_impl; [|exact Hge]. cbn. intros; lia.
      * constructor; [|exact Hf']. exists x. rewrite Nat.sub_diag. auto.
    + exists ks. split; [exact Hs|]. split; [|exact Hf'].
      eapply Forall_impl; [|exact Hge]. cbn. intros; lia.
Qed.

Lemma sorted_NoDup (ks : list nat) : StronglySorted lt ks -> NoDup ks.
Proof.
  induction 1 as [|k ks _ IH Hk]; constructor; [|exact IH].
  intros Hin. rewrite Forall_forall in Hk. specialize (Hk _ Hin). lia.
Qed.

Lemma NoDup_map_inj {A B} (f : A -> B) (l : list A) :
  (forall a a', f a = f a' -> a = a') -> NoDup l -> NoDup (map f l).
Proof.
  intros Hinj. induction 1 as [|a l Hn _ IH]; cbn [map]; constructor;
    [|exact IH].
  rewrite in_map_iff. intros (a' & Ha & Hin). apply Hinj in Ha. now subst.
Qed.

Lemma append_cancel (p a b : string) : (p ++ a = p ++ b)%string -> a = b.
Proof.
  induction p as [|c p IH]; cbn [append]; [auto|].
  intros H. injection H as H. auto.
Qed.

(** The identifiers made in a loop: one per iteration that appended, so
    pairwise distinct, and each names the position of its element. *)
Lemma loop_ids {A B} (body : nat -> A -> pyresult (option B))
    (id_of : B -> string) (prefix : string) (l : list A) (out : list B) :
  (forall k x b, body k x = Ok (Some b) ->
                 id_of b = prefix ++ PyStr.dec (k + 1)) ->
  for_enumerate body 0 l = Ok out ->
  NoDup (map id_of out)
  /\ Forall (fun b => exists k x,
               nth_error l k = Some x /\ body k x = Ok (Some b)
               /\ id_of b = prefix ++ PyStr.dec (k + 1)) out.
Proof.
  intros Hid H.
  destruct (for_enumerate_positions _ _ _ H) as (ks & Hs & _ & Hf).
  split.
  - assert (E : map id_of out
                = map (fun k => prefix ++ PyStr.dec (k + 1)) ks).
    { clear Hs H. induction Hf as [|k b ks out (x & _ & Hk) _ IH];
        [reflexivity|].
      cbn [map]. rewrite IH. f_equal. exact (Hid _ _ _ Hk). }
    rewrite E. apply NoDup_map_inj; [|now apply sorted_NoDup].
    intros a a' Ha. apply append_cancel, dec_inj in Ha. lia.
  - clear Hs H. induction Hf as [|k b ks out (x & Hn & Hk) _ IH]; constructor;
      [|exact IH].
    exists k, x. rewrite Nat.sub_0_r in Hn.
    split; [exact Hn|]. split; [exact Hk|]. exact (Hid _ _ _ Hk).
Qed.

(** X4: the identifier of an item names the position of its citation or
    result in the response, counted from one (["W"] or ["R"] and the decimal
    numeral), not its rank among the items returned; so the identifiers of
    the items of one call are pairwise distinct. *)
Theorem item_ids_name_positions (d : list (string * value))
    (citations results : list value) :
  Py.dict_get d "citations" (VList []) = VList citations ->
  Py.dict_get d "results" (VList []) = VList results ->
  (forall items, perplexity_search._normalize_results (VDict d) = Ok items ->
     NoDup (map w_id items)
     /\ Forall (fun item => exists k,
                  nth_error citations k = Some (w_url item)
                  /\ w_id item = "W" ++ PyStr.dec (k + 1)) items)
  /\ (forall items, tavily_search._normalize_results (VDict d) = Ok items ->
        NoDup (map w_id items)
        /\ Forall (fun item => exists k result,
                     nth_error results k = Some result
                     /\ url_of result = w_url item
                     /\ w_id item = "W" ++ PyStr.dec (k + 1)) items)
  /\ (forall items, tavily_reddit.parse_reddit_response (VDict d) = Ok items ->
        NoDup (map r_id items)
        /\ Forall (fun item => exists k result,
                     nth_error results k = Some result
                     /\ url_of result = r_url item
                     /\ r_id item = "R" ++ PyStr.dec (k + 1)) items).
Proof.
  intros Hc Hr. split; [|split]; intros items H.
  - unfold perplexity_search._normalize_results in H.
    cbn [Py.get bind] in H. rewrite Hc in H.
    destruct (perplexity_search._get_content (VDict d)) as [content|];
      cbn [bind] in H; [|discriminate].
    destruct citations as [|c l];
      [injection H as <-; split; constructor|].
    destruct (perplexity_search._count_citation_references _ _) as [counts|];
      cbn [bind] in H; [|discriminate].
    assert (Hid : forall k x b,
               perplexity_search.citation_item content counts
                 (List.length (c :: l)) k x = Ok (Some b) ->
               w_id b = "W" ++ PyStr.dec (k + 1)).
    { intros k x b Hb. unfold perplexity_search.citation_item in Hb.
      destruct x as [| | | |u| |]; try discriminate.
      destruct (String.eqb u ""); [discriminate|].
      destruct (perplexity_search.domain_of (VStr u)); [|discriminate].
      destruct (perplexity_search._extract_title_for_citation _ _);
        cbn [bind] in Hb; [|discriminate].
      destruct (perplexity_search._extract_snippet_for_citation _ _);
        cbn [bind] in Hb; [|discriminate].
      now injection Hb as <-. }
    destruct (loop_ids _ w_id "W" _ Hid H) as [Hnd Hall].
    split; [exact Hnd|]. eapply Forall_impl; [|exact Hall].
    cbn beta. intros item (k & x & Hn & Hb & Hi). exists k.
    split; [|exact Hi].
    destruct (citation_item_kept _ _ _ _ _ Hb) as [-> _]. exact Hn.
  - unfold tavily_search._normalize_results in H.
    cbn [Py.get bind] in H. rewrite Hr in H.
    assert (Hid : forall k x b,
               tavily_search.result_item k x = Ok (Some b) ->
               w_id b = "W" ++ PyStr.dec (k + 1)).
    { intros k x b Hb. unfold tavily_search.result_item in Hb.
      destruct x as [| | | | | |r]; try discriminate.
      destruct (negb _); [discriminate|].
      destruct (tavily_search.domain_of _); [|discriminate].
      match type of Hb with
      | (if ?c then _ else _) = _ => destruct c; [discriminate|]
      end.
      destruct (clamp_score _); cbn [bind] in Hb; [|discriminate].
      destruct (trim_date _); cbn [bind] in Hb; [|discriminate].
      now injection Hb as <-. }
    destruct (loop_ids _ w_id "W" _ Hid H) as [Hnd Hall].
    split; [exact Hnd|]. eapply Forall_impl; [|exact Hall].
    cbn beta. intros item (k & x & Hn & Hb & Hi). exists k, x.
    destruct (web_result_item_kept _ _ Hb) as [-> _]. auto.
  - unfold tavily_reddit.parse_reddit_response in H.
    cbn [Py.get bind] in H. rewrite Hr in H.
    destruct (for_enumerate tavily_reddit.result_item 0 results)
      as [items0|] eqn:E; cbn [bind] in H; [|discriminate].
    assert (Hid : forall k x b,
               tavily_reddit.result_item k x = Ok (Some b) ->
               r_id b = "R" ++ PyStr.dec (k + 1)).
    { intros k x b Hb. unfold tavily_reddit.result_item in Hb.
      destruct x as [| | | | | |r]; try discriminate.
      destruct (negb _); [discriminate|].
      destruct (Py.contains _ _) as [[|]|]; cbn [bind negb] in Hb;
        try discriminate.
      destruct (String.eqb _ ""); [discriminate|].
      destruct (tavily_reddit.parse_date _); cbn [bind] in Hb; [|discriminate].
      destruct (clamp_score _); cbn [bind] in Hb; [|discriminate].
      now injection Hb as <-. }
    destruct (loop_ids _ r_id "R" _ Hid E) as [Hnd Hall].
    assert (Hf : Forall2 enriched_from items0 items).
    { destruct items0 as [|a items0]; injection H as <-; [constructor|].
      pose proof (enrich_dates_frame
                    (tavily_reddit.store (fun _ => []) 0 (a :: items0)) 0)
        as Hf.
      now rewrite store_same in Hf. }
    assert (Hids : map r_id items = map r_id items0).
    { clear - Hf. induction Hf as [|a b l l' Hab _ IH]; [reflexivity|].
      cbn [map]. rewrite IH. f_equal.
      destruct Hab as [->|(_ & idx & _ & ->)]; reflexivity. }
    split; [now rewrite Hids|].
    apply Forall2_transfer
      with (Rel := enriched_from)
           (P := fun b => exists k x,
                   nth_error results k = Some x
                   /\ tavily_reddit.result_item k x = Ok (Some b)
                   /\ r_id b = "R" ++ PyStr.dec (k + 1))
           (l := items0); [|exact Hf|exact Hall].
    intros a b Hab (k & x & Hn & Hb & Hi). exists k, x.
    destruct (reddit_result_item_kept _ _ Hb) as [Hu _].
    destruct Hab as [->|(_ & idx & _ & ->)]; cbn [r_url r_id tavily_reddit.set_date];
      rewrite Hu; auto.
Qed.

End Ids.

(* ================================================================== *)
(** * Reading a response *)

Section Reading.
Context {R : PyRuntime} {N : RedditNet}.
Open Scope string_scope.

(** X5: [_get_content] returns for every response; on a dict it returns
    [choices[0].message.content] when the path is there, and the empty
    string when [choices] is missing or is an empty list. *)
Theorem get_content_reads_path :
  (forall response,
      exists content, perplexity_search._get_content response = Ok content)
  /\ (forall d first rest message content,
        Py.lookup d "choices" = Some (VList (VDict first :: rest)) ->
        Py.lookup first "message" = Some (VDict message) ->
        Py.lookup message "content" = Some content ->
        perplexity_search._get_content (VDict d) = Ok content)
  /\ (forall d,
        Py.lookup d "choices" = None ->
        perplexity_search._get_content (VDict d) = Ok (VStr ""))
  /\ (forall d,
        Py.lookup d "choices" = Some (VList []) ->
        perplexity_search._get_content (VDict d) = Ok (VStr "")).
Proof.
  split; [exact get_content_returns|].
  unfold perplexity_search._get_content, try_catching.
  split; [|split].
  - intros d first rest message content H1 H2 H3.
    cbn [Py.getitem_key bind]. rewrite H1. cbn [bind Py.getitem_0 Py.getitem_key].
    rewrite H2. cbn [bind Py.getitem_key]. now rewrite H3.
  - intros d H1. cbn [Py.getitem_key bind]. now rewrite H1.
  - intros d H1. cbn [Py.getitem_key bind]. rewrite H1. reflexivity.
Qed.

Lemma parse_date_returns (date : value) :
  sized_or_falsy date -> exists d, tavily_reddit.parse_date date = Ok d.
Proof.
  intros H. unfold tavily_reddit.parse_date.
  destruct (trim_date_returns H) as [d ->]. cbn [bind]. eauto.
Qed.

(** X8: the Reddit normalizer returns a list for every response that is a
    dict and whose results have a [url] that can be searched, a date with a
    length or a falsy one, and a score that is no integer beyond the
    floats. *)
Theorem reddit_returns (d : list (string * value)) :
  (forall results, Py.dict_get d "results" (VList []) = VList results ->
                   Forall readable_reddit_result results) ->
  exists items, tavily_reddit.parse_reddit_response (VDict d) = Ok items.
Proof.
  intros H. unfold tavily_reddit.parse_reddit_response. cbn [Py.get bind].
  destruct (Py.dict_get d "results" (VList [])) as [| | | | |results|]; eauto.
  specialize (H results eq_refl). rewrite Forall_forall in H.
  assert (Hl : exists items0,
             for_enumerate tavily_reddit.result_item 0 results = Ok items0).
  { apply for_enumerate_returns. intros i x Hx.
    unfold tavily_reddit.result_item.
    destruct x as [| | | | | |r]; eauto.
    destruct (H _ Hx r eq_refl) as (Hu & Hd & Hs).
    destruct (Py.truthy (Py.dict_get r "url" (VStr ""))) eqn:Et; cbn [negb];
      [|eauto].
    assert (Hc : exists b,
               Py.contains "reddit.com" (Py.dict_get r "url" (VStr "")) = Ok b).
    { destruct Hu as [Hu|[[s ->]|[[l ->]|[d' ->]]]]; cbn [Py.contains]; eauto.
      congruence. }
    destruct Hc as [b ->]. cbn [bind].
    destruct b; cbn [negb]; [|eauto].
    destruct (String.eqb (tavily_reddit.title_of r) ""); [eauto|].
    destruct (parse_date_returns Hd) as [date ->].
    destruct (clamp_score_returns Hs) as [f ->]. cbn [bind]. eauto. }
  destruct Hl as [items0 ->]. cbn [bind]. destruct items0; eauto.
Qed.




End Reading.

(* ================================================================== *)
(** * Titles and snippets *)

Section Extraction.
Import PyStr.
Open Scope string_scope.

Lemma all_chars_take_span (p : ascii -> bool) (s : string) :
  forall n, n <= span p s -> all_chars p (take n s) = true.
Proof.
  induction s as [|c s IH]; intros [|n] H; try reflexivity.
  cbn [span] in H. destruct (p c) eqn:E; [|lia].
  rewrite take_cons. cbn [all_chars]. rewrite E. apply IH. lia.
Qed.

Lemma take_length_min (n : nat) (s : string) :
  String.length (take n s) = Nat.min n (String.length s).
Proof.
  revert s. induction n as [|n IH]; intros [|c s]; try reflexivity.
  rewrite take_cons. cbn [String.length]. rewrite IH. reflexivity.
Qed.

Lemma span_le_length (p : ascii -> bool) (s : string) :
  span p s <= String.length s.
Proof.
  induction s as [|c s IH]; cbn [span String.length]; [lia|].
  destruct (p c); lia.
Qed.

Lemma all_chars_lstrip (p q : ascii -> bool) (s : string) :
  all_chars p s = true ->
  all_chars p (lstrip_by q s) = true
  /\ String.length (lstrip_by q s) <= String.length s.
Proof.
  induction s as [|c s IH]; cbn [lstrip_by all_chars]; [auto|].
  intros H. apply andb_true_iff in H. destruct H as [Hc Hs].
  destruct (q c).
  - destruct (IH Hs). split; [assumption|cbn [String.length]; lia].
  - cbn [all_chars]. rewrite Hc, Hs. auto.
Qed.

Lemma all_chars_rstrip (p q : ascii -> bool) (s : string) :
  all_chars p s = true ->
  all_chars p (rstrip_by q s) = true
  /\ String.length (rstrip_by q s) <= String.length s.
Proof.
  induction s as [|c s IH]; cbn [rstrip_by all_chars]; [auto|].
  intros H. apply andb_true_iff in H. destruct H as [Hc Hs].
  destruct (IH Hs) as [IH1 IH2].
  destruct (rstrip_by q s) as [|c' r].
  - destruct (q c); cbn [all_chars String.length] in *; rewrite ?Hc; split;
      auto; lia.
  - cbn [all_chars String.length] in *. rewrite Hc. split; [exact IH1|lia].
Qed.

Lemma all_chars_remove (p q : ascii -> bool) (s : string) :
  all_chars p s = true ->
  all_chars (fun c => p c && negb (q c)) (remove_chars q s) = true
  /\ String.length (remove_chars q s) <= String.length s.
Proof.
  induction s as [|c s IH]; cbn [remove_chars all_chars]; [auto|].
  intros H. apply andb_true_iff in H. destruct H as [Hc Hs].
  destruct (IH Hs) as [IH1 IH2].
  destruct (q c) eqn:E.
  - split; [exact IH1|cbn [String.length]; lia].
  - cbn [all_chars String.length]. rewrite Hc, E, IH1. split; [reflexivity|lia].
Qed.

Lemma title_group_shape (rest : string) (t : nat) (g : string) :
  perplexity_search.title_group rest t = Some g ->
  all_chars perplexity_search.is_title_char g = true
  /\ String.length g <= 80.
Proof.
  unfold perplexity_search.title_group.
  set (r := drop t rest).
  set (n := Nat.min 80 (span perplexity_search.is_title_char r)).
  assert (Hn1 : n <= span perplexity_search.is_title_char r)
    by apply Nat.le_min_r.
  assert (Hn2 : n <= 80) by apply Nat.le_min_l.
  clearbody n. destruct (Nat.leb 5 n); [|discriminate].
  intros H. assert (E : take n r = g) by congruence. subst g. split.
  - now apply all_chars_take_span.
  - rewrite take_length_min. lia.
Qed.

Lemma title_backtrack_shape (rest : string) (t : nat) (g : string) :
  perplexity_search.title_backtrack rest t = Some g ->
  all_chars perplexity_search.is_title_char g = true
  /\ String.length g <= 80.
Proof.
  induction t as [|t IH]; cbn [perplexity_search.title_backtrack];
    destruct (perplexity_search.title_group rest _) eqn:E;
    intros H; try discriminate; try (injection H as <-);
    eauto using title_group_shape.
Qed.

Lemma search_title_shape (m s g : string) :
  perplexity_search.search_title m s = Some g ->
  all_chars perplexity_search.is_title_char g = true
  /\ String.length g <= 80.
Proof.
  induction s as [|c s IH]; cbn [perplexity_search.search_title];
    destruct (startswith m _);
    try destruct (perplexity_search.title_backtrack _ _) eqn:E;
    intros H; try discriminate; try (injection H as <-);
    eauto using title_backtrack_shape.
Qed.

(** X10: a title that [_extract_title_for_citation] returns has more than 3
    and at most 80 characters, and holds no left bracket, no newline and
    none of the emphasis characters. *)
Theorem extracted_title_shape (content : value) (index : nat) (title : string) :
  perplexity_search._extract_title_for_citation content index
    = Ok (Some title) ->
  3 < String.length title <= 80 /\ all_chars title_char title = true.
Proof.
  intros H. pose proof (extracted_title_long _ _ H) as Hlong.
  unfold perplexity_search._extract_title_for_citation in H.
  destruct (negb (Py.truthy content)); [discriminate|].
  destruct (perplexity_search.as_text content) as [s|]; cbn [bind] in H;
    [|discriminate].
  destruct (perplexity_search.search_title _ s) as [g|] eqn:E; [|discriminate].
  destruct (search_title_shape _ _ E) as [Hc Hl].
  unfold strip, rstrip_dot in H.
  destruct (@all_chars_lstrip _ is_space _ Hc) as [H1 L1].
  destruct (@all_chars_rstrip _ is_space _ H1) as [H2 L2].
  destruct (@all_chars_rstrip _ (fun c => Ascii.eqb c ".") _ H2) as [H3 L3].
  destruct (@all_chars_remove _ is_emphasis _ H3) as [H4 L4].
  match type of H with
  | Ok (if ?c then _ else _) = _ => destruct c
  end; [|discriminate].
  assert (Et : remove_chars is_emphasis
                 (rstrip_by (fun c => Ascii.eqb c ".")
                    (rstrip_by is_space (lstrip_by is_space g))) = title)
    by congruence.
  rewrite <- Et in *. split; [lia|exact H4].
Qed.

Lemma all_chars_impl (p q : ascii -> bool) (s : string) :
  (forall c, p c = true -> q c = true) ->
  all_chars p s = true -> all_chars q s = true.
Proof.
  intros Hpq. induction s as [|c s IH]; cbn [all_chars]; [auto|].
  intros H. apply andb_true_iff in H. destruct H as [Hc Hs].
  now rewrite (Hpq _ Hc), IH.
Qed.

Lemma not_dot_false (c : ascii) :
  perplexity_search.not_dot c = false -> c = "."%char.
Proof.
  unfold perplexity_search.not_dot. intros H. apply negb_false_iff in H.
  now apply Ascii.eqb_eq.
Qed.

(** The characters up to the first one outside the class, that one
    included. *)
Lemma take_past_span (p : ascii -> bool) (s : string) :
  span p s < String.length s ->
  exists c, p c = false
            /\ take (S (span p s)) s = take (span p s) s ++ String c EmptyString.
Proof.
  induction s as [|c s IH]; cbn [span String.length]; [lia|].
  destruct (p c) eqn:E; intros H.
  - destruct IH as (c' & Hc' & Ht); [lia|]. exists c'. split; [exact Hc'|].
    rewrite (take_cons (S (span p s))), Ht, take_cons. reflexivity.
  - exists c. split; [exact E|]. rewrite take_cons. reflexivity.
Qed.

Lemma search_snippet_sentence (fuel : nat) (m : string) :
  forall s g, perplexity_search.search_snippet fuel m s = Some g ->
              one_sentence g.
Proof.
  induction fuel as [|fuel IH]; intros s g; cbn [perplexity_search.search_snippet];
    [discriminate|].
  destruct (Nat.leb (String.length s) _) eqn:El; [discriminate|].
  destruct (PyStr.contains m _); [|apply IH].
  intros H. assert (E : take (S (span perplexity_search.not_dot s)) s = g)
    by congruence.
  clear H. apply Nat.leb_gt in El.
  destruct (take_past_span perplexity_search.not_dot s El) as (c & Hc & Ht).
  apply not_dot_false in Hc. subst c g. rewrite Ht.
  eexists. split; [reflexivity|]. now apply all_chars_take_span.
Qed.

Lemma sentence_tail (c : ascii) (s : string) :
  one_sentence (String c s) -> c <> "."%char -> one_sentence s.
Proof.
  intros (body & E & Hb) Hc. destruct body as [|c' body]; cbn [append] in E.
  - injection E as -> _. contradiction.
  - injection E as -> ->. cbn [all_chars] in Hb.
    apply andb_true_iff in Hb. exists body. tauto.
Qed.

Lemma sentence_cons (c : ascii) (s : string) :
  one_sentence s -> perplexity_search.not_dot c = true ->
  one_sentence (String c s).
Proof.
  intros (body & -> & Hb) Hc. exists (String c body). split; [reflexivity|].
  cbn [all_chars]. now rewrite Hc, Hb.
Qed.

Lemma sentence_lstrip (s : string) :
  one_sentence s -> one_sentence (lstrip_by is_space s).
Proof.
  intros (body & -> & Hb). induction body as [|c body IH]; cbn [append lstrip_by].
  - exists EmptyString. auto.
  - cbn [all_chars] in Hb. apply andb_true_iff in Hb. destruct Hb as [Hc Hb].
    destruct (is_space c); [auto|].
    exists (String c body). split; [reflexivity|].
    cbn [all_chars]. now rewrite Hc, Hb.
Qed.

Lemma rstrip_keeps_last (q : ascii -> bool) (c : ascii) (x : string) :
  q c = false -> rstrip_by q (x ++ String c EmptyString) = x ++ String c EmptyString.
Proof.
  intros Hq. induction x as [|a x IH]; cbn [append rstrip_by].
  - now rewrite Hq.
  - rewrite IH. destruct x; reflexivity.
Qed.

Lemma sentence_rstrip (s : string) :
  one_sentence s -> one_sentence (rstrip_by is_space s).
Proof.
  intros (body & -> & Hb). rewrite rstrip_keeps_last by reflexivity.
  now exists body.
Qed.

Lemma sentence_strip (s : string) : one_sentence s -> one_sentence (strip s).
Proof. intros H. unfold strip. now apply sentence_rstrip, sentence_lstrip. Qed.

Lemma is_digit_not_dot (c : ascii) : is_digit c = true -> c <> "."%char.
Proof. intros H ->. discriminate. Qed.

(** Dropping digits and one right bracket leaves a sentence a sentence. *)
Lemma sentence_drop_marker (s : string) :
  forall n, n = span is_digit s ->
  startswith "]" (drop n s) = true ->
  one_sentence s -> one_sentence (drop (S n) s).
Proof.
  induction s as [|c s IH]; intros n Hn Hs H.
  - destruct n; discriminate.
  - cbn [span] in Hn. destruct (is_digit c) eqn:Ed.
    + subst n. cbn [drop] in *. apply IH; [reflexivity|exact Hs|].
      eapply sentence_tail; [exact H|]. now apply is_digit_not_dot.
    + subst n. cbn [drop] in *.
      unfold startswith in Hs. cbn [prefix] in Hs.
      destruct (Ascii.ascii_dec "]" c) as [<-|]; [|discriminate].
      eapply sentence_tail; [exact H|]. discriminate.
Qed.

Lemma sentence_strip_markers (fuel : nat) :
  forall s, one_sentence s ->
            one_sentence (perplexity_search.strip_markers fuel s).
Proof.
  induction fuel as [|fuel IH]; intros s H;
    cbn [perplexity_search.strip_markers]; [exact H|].
  destruct s as [|c s]; [exact H|].
  destruct (Ascii.eqb c "[" && Nat.leb 1 (span is_digit s)
            && startswith "]" (drop (span is_digit s) s)) eqn:E.
  - apply andb_true_iff in E. destruct E as [E Es].
    apply andb_true_iff in E. destruct E as [Ec _].
    apply Ascii.eqb_eq in Ec. subst c.
    apply IH. apply sentence_drop_marker; [reflexivity|exact Es|].
    eapply sentence_tail; [exact H|]. discriminate.
  - destruct (Ascii.ascii_dec c ".") as [->|Hc].
    + destruct H as (body & Eb & Hb). destruct body as [|c' body];
        cbn [append] in Eb.
      * injection Eb as ->. destruct fuel; exists EmptyString; auto.
      * injection Eb as <- _. discriminate.
    + apply sentence_cons.
      * apply IH. eapply sentence_tail; eauto.
      * unfold perplexity_search.not_dot. apply negb_true_iff.
        now apply Ascii.eqb_neq.
Qed.

Lemma remove_chars_app (q : ascii -> bool) (a b : string) :
  remove_chars q (a ++ b) = remove_chars q a ++ remove_chars q b.
Proof.
  induction a as [|c a IH]; cbn [append remove_chars]; [reflexivity|].
  destruct (q c); cbn [append]; now rewrite IH.
Qed.

Lemma sentence_remove_emphasis (s : string) :
  one_sentence s -> one_sentence (remove_chars is_emphasis s).
Proof.
  intros (body & -> & Hb). rewrite remove_chars_app.
  exists (remove_chars is_emphasis body). split; [reflexivity|].
  destruct (@all_chars_remove _ is_emphasis _ Hb) as [H _].
  eapply all_chars_impl; [|exact H].
  cbn beta. intros c Hc. now apply andb_true_iff in Hc.
Qed.

Lemma remove_chars_none (q : ascii -> bool) (s : string) :
  all_chars (fun c => negb (q c)) (remove_chars q s) = true.
Proof.
  induction s as [|c s IH]; cbn [remove_chars]; [reflexivity|].
  destruct (q c) eqn:E; [exact IH|]. cbn [all_chars]. now rewrite E, IH.
Qed.

(** X11: a snippet that [_extract_snippet_for_citation] returns has more
    than 10 characters, ends with a period and holds no other period, and
    holds none of the emphasis characters. *)
Theorem extracted_snippet_shape (content : value) (index : nat)
    (snippet : string) :
  perplexity_search._extract_snippet_for_citation content index
    = Ok (Some snippet) ->
  10 < String.length snippet
  /\ one_sentence snippet
  /\ all_chars (fun c => negb (is_emphasis c)) snippet = true.
Proof.
  unfold perplexity_search._extract_snippet_for_citation. intros H.
  destruct (negb (Py.truthy content)); [discriminate|].
  destruct (perplexity_search.as_text content) as [s|]; cbn [bind] in H;
    [|discriminate].
  destruct (perplexity_search.search_snippet _ _ s) as [g|] eqn:E;
    [|discriminate].
  apply search_snippet_sentence in E.
  match type of H with
  | Ok (if Nat.ltb 10 (String.length ?t) then _ else _) = _ =>
      destruct (Nat.ltb 10 (String.length t)) eqn:El; [|discriminate];
      assert (Et : t = snippet) by congruence
  end.
  apply Nat.ltb_lt in El. rewrite <- Et. split; [exact El|]. split.
  - apply sentence_remove_emphasis, sentence_strip, sentence_strip_markers,
      sentence_strip, E.
  - apply remove_chars_none.
Qed.

End Extraction.

(* ================================================================== *)
(** * Completion of the fetches *)

Section Completion.
Context {R : PyRuntime} {N : RedditNet}.
Import tavily_reddit.

Lemma enumerate_In {A} (l : list A) :
  forall k i x, nth_error l i = Some x -> In (k + i, x) (enumerate k l).
Proof.
  induction l as [|y l IH]; intros k i x H; [destruct i; discriminate|].
  destruct i as [|i]; cbn [nth_error] in H; cbn [enumerate].
  - injection H as ->. left. f_equal. lia.
  - right. replace (k + S i) with (S k + i) by lia. now apply IH.
Qed.

Lemma nth_error_enumerate {A} (l : list A) :
  forall k i, nth_error (enumerate k l) i
              = option_map (pair (k + i)) (nth_error l i).
Proof.
  induction l as [|y l IH]; intros k i; [destruct i; reflexivity|].
  destruct i as [|i]; cbn [enumerate nth_error option_map].
  - f_equal. f_equal. lia.
  - rewrite IH. replace (S k + i) with (k + S i) by lia. reflexivity.
Qed.

Lemma set_date_at_map (f : nat -> RedditItem -> RedditItem) (date : value)
    (l : list RedditItem) :
  forall k idx,
  set_date_at idx date (map (fun p => f (fst p) (snd p)) (enumerate k l))
  = map (fun p => if Nat.eqb (fst p) (k + idx)
                  then set_date date (f (fst p) (snd p))
                  else f (fst p) (snd p))
      (enumerate k l).
Proof.
  induction l as [|x l IH]; intros k idx; [destruct idx; reflexivity|].
  cbn [enumerate map fst snd]. destruct idx as [|idx]; cbn [set_date_at].
  - rewrite Nat.add_0_r, Nat.eqb_refl. f_equal.
    apply map_ext_in. intros [i y] Hin. apply enumerate_nth in Hin.
    cbn [fst snd]. destruct (Nat.eqb_spec i k); [lia|reflexivity].
  - destruct (Nat.eqb_spec k (k + S idx)); [lia|]. f_equal.
    rewrite IH. replace (S k + idx) with (k + S idx) by lia. reflexivity.
Qed.

Lemma completed_app (tasks : list (nat * RedditItem)) (done : list nat)
    (pos idx : nat) :
  completed tasks (done ++ [pos]) idx
  = completed tasks done idx
    || match nth_error tasks pos with
       | Some (idx', _) => Nat.eqb idx' idx
       | None => false
       end.
Proof.
  unfold completed. rewrite existsb_app. cbn [existsb].
  now rewrite orb_false_r.
Qed.

(** After the futures in [done], in any order and with any repetition, the
    items whose future is among them are enriched and the others are as they
    were. *)
Lemma fold_complete_spec (items0 : list RedditItem) (done : list nat) :
  let tasks := items_needing_dates items0 in
  fold_left (complete tasks) done items0
  = map (fun p => if completed tasks done (fst p)
                  then enrich_item (fst p) (snd p) else snd p)
      (enumerate 0 items0).
Proof.
  cbv zeta. induction done as [|pos done IH] using rev_ind.
  - cbn [fold_left completed existsb].
    generalize 0. induction items0 as [|x l IHl]; intros k; [reflexivity|].
    cbn [enumerate map snd]. now rewrite <- IHl.
  - rewrite fold_left_app. cbn [fold_left]. rewrite IH. clear IH.
    unfold complete at 1.
    destruct (nth_error (items_needing_dates items0) pos) as [[idx item]|] eqn:E.
    + pose proof (nth_error_In _ _ E) as Hin. apply needing_nth in Hin.
      destruct Hin as [Hn Hf].
      destruct (Py.truthy (_fetch_date_from_reddit idx (r_url item))) eqn:Ht.
      * rewrite (set_date_at_map
                   (fun i x => if completed (items_needing_dates items0) done i
                               then enrich_item i x else x)).
        apply map_ext_in. intros [i x] Hi. cbn [fst snd Nat.add].
        apply enumerate_nth in Hi. rewrite Nat.sub_0_r in Hi.
        destruct Hi as [_ Hi]. rewrite completed_app, E.
        destruct (Nat.eqb_spec i idx) as [->|Hne].
        -- rewrite Nat.eqb_refl, orb_true_r.
           assert (x = item) by congruence. subst x.
           unfold enrich_item. rewrite Hf, Ht.
           destruct (completed _ done idx); reflexivity.
        -- destruct (Nat.eqb_spec idx i); [congruence|].
           now rewrite orb_false_r.
      * apply map_ext_in. intros [i x] Hi. cbn [fst snd].
        apply enumerate_nth in Hi. rewrite Nat.sub_0_r in Hi.
        destruct Hi as [_ Hi]. rewrite completed_app, E.
        destruct (Nat.eqb_spec idx i) as [->|Hne].
        -- rewrite orb_true_r. assert (x = item) by congruence. subst x.
           unfold enrich_item. rewrite Hf, Ht.
           destruct (completed _ done i); reflexivity.
        -- now rewrite orb_false_r.
    + apply map_ext_in. intros [i x] _. cbn [fst snd].
      now rewrite completed_app, E, orb_false_r.
Qed.

Lemma final_items (h : heap) (items : loc) :
  final_heap (_enrich_dates h items) items
  = fold_left (complete (items_needing_dates (h items)))
      (as_completed (List.length (items_needing_dates (h items))))
      (h items)
  \/ (items_needing_dates (h items) = []
      /\ final_heap (_enrich_dates h items) items = h items).
Proof.
  unfold _enrich_dates.
  destruct (items_needing_dates (h items)) eqn:E; cbn [final_heap].
  - right. auto.
  - left. now rewrite store_same.
Qed.

Lemma map_snd_enumerate {A} (l : list A) :
  forall k, map snd (enumerate k l) = l.
Proof.
  induction l as [|x l IH]; intros k; [reflexivity|].
  cbn [enumerate map snd]. now rewrite IH.
Qed.

Lemma dated_not_needing (items0 : list RedditItem) (i : nat) (x : RedditItem) :
  items_needing_dates items0 = [] ->
  In (i, x) (enumerate 0 items0) -> Py.truthy (r_date x) = true.
Proof.
  intros E Hin. destruct (Py.truthy (r_date x)) eqn:Hd; [reflexivity|].
  exfalso. assert (H : In (i, x) (items_needing_dates items0)).
  { unfold items_needing_dates. apply filter_In. split; [exact Hin|].
    cbn [snd]. now rewrite Hd. }
  rewrite E in H. exact H.
Qed.

(** X17: when every submitted future completes, the list that
    [_enrich_dates] leaves does not depend on the order of completion: each
    item without a date gets the date fetched for its own URL when that
    date is truthy, and every other item is as it was. *)
Theorem enrich_dates_itemwise (h : heap) (items : loc) :
  every_future_completes (List.length (items_needing_dates (h items))) ->
  final_heap (_enrich_dates h items) items
  = map (fun p => enrich_item (fst p) (snd p)) (enumerate 0 (h items)).
Proof.
  intros Hall. destruct (final_items h items) as [->|[E ->]].
  - rewrite fold_complete_spec. apply map_ext_in. intros [i x] Hin.
    cbn [fst snd].
    destruct (completed _ _ i) eqn:Ec; [reflexivity|].
    unfold enrich_item. destruct (Py.truthy (r_date x)) eqn:Hd; [reflexivity|].
    exfalso.
    assert (Ht : In (i, x) (items_needing_dates (h items))).
    { unfold items_needing_dates. apply filter_In. split; [exact Hin|].
      cbn [snd]. now rewrite Hd. }
    apply In_nth_error in Ht. destruct Ht as [pos Hp].
    assert (Hlt : pos < List.length (items_needing_dates (h items))).
    { apply nth_error_Some. rewrite Hp. discriminate. }
    apply Hall in Hlt.
    assert (Hc : completed (items_needing_dates (h items))
                   (as_completed (List.length (items_needing_dates (h items)))) i
                 = true).
    { unfold completed. apply existsb_exists. exists pos. split; [exact Hlt|].
      rewrite Hp. apply Nat.eqb_refl. }
    congruence.
  - rewrite <- (map_snd_enumerate (h items) 0) at 1.
    apply map_ext_in. intros [i x] Hin. cbn [fst snd].
    unfold enrich_item. now rewrite (@dated_not_needing (h items) i x E Hin).
Qed.

(** X18: whatever the order of completion, an item that has a date, or
    whose fetch gives nothing, is left as it was at its index: the failure
    of one fetch touches no other item. *)
Theorem enrich_dates_isolates_failures (h : heap) (items : loc)
    (idx : nat) (item : RedditItem) :
  nth_error (h items) idx = Some item ->
  Py.truthy (r_date item) = true
  \/ Py.truthy (_fetch_date_from_reddit idx (r_url item)) = false ->
  nth_error (final_heap (_enrich_dates h items) items) idx = Some item.
Proof.
  intros Hn Hk. destruct (final_items h items) as [->|[_ ->]]; [|exact Hn].
  rewrite fold_complete_spec, nth_error_map, nth_error_enumerate, Hn.
  cbn [option_map fst snd Nat.add].
  destruct (completed _ _ idx); [|reflexivity].
  unfold enrich_item. destruct (Py.truthy (r_date item)); [reflexivity|].
  destruct Hk as [Hk|Hk]; [discriminate|]. now rewrite Hk.
Qed.

End Completion.

Section Independence.
Context {R : PyRuntime}.
Variables N1 N2 : RedditNet.
Import tavily_reddit.

Lemma fetch_same (idx : nat) (url : value) :
  (forall ts, @timestamp_to_date N1 ts = @timestamp_to_date N2 ts) ->
  (forall netloc path,
      urlparse_value url = Ok (netloc, path) ->
      PyStr.contains "/r/" path = true ->
      PyStr.contains "/comments/" path = true ->
      @get_reddit_json N1 idx path = @get_reddit_json N2 idx path) ->
  @_fetch_date_from_reddit R N1 idx url = @_fetch_date_from_reddit R N2 idx url.
Proof.
  intros Hd Hg. unfold _fetch_date_from_reddit, _extract_reddit_path, try_except.
  destruct (urlparse_value url) as [[netloc path]|e]; cbn [bind snd];
    [|reflexivity].
  destruct (PyStr.contains "/r/" path) eqn:E1; cbn [andb]; [|reflexivity].
  destruct (PyStr.contains "/comments/" path) eqn:E2; [|reflexivity].
  destruct (String.eqb path ""); [reflexivity|].
  unfold fetch_body. rewrite (Hg netloc path eq_refl E1 E2).
  destruct (@get_reddit_json N2 idx path) as [data|]; cbn [bind]; [|reflexivity].
  destruct data as [| | | | |[|first rest]|]; try reflexivity.
  destruct (Py.get first "data" (VDict [])) as [listing|]; cbn [bind];
    [|reflexivity].
  destruct (Py.get listing "children" (VList [])) as [children|]; cbn [bind];
    [|reflexivity].
  destruct (Py.truthy children); [|reflexivity].
  destruct (Py.getitem_0 children) as [child|]; cbn [bind]; [|reflexivity].
  destruct (Py.get child "data" (VDict [])) as [post|]; cbn [bind];
    [|reflexivity].
  destruct (Py.get post "created_utc" VNone) as [created_utc|]; cbn [bind];
    [|reflexivity].
  now rewrite Hd.
Qed.

Lemma fold_left_same {A B} (f g : A -> B -> A) (l : list B) :
  (forall a b, In b l -> f a b = g a b) ->
  forall a, fold_left f l a = fold_left g l a.
Proof.
  induction l as [|b l IH]; intros H a; [reflexivity|].
  cbn [fold_left]. rewrite (H a b) by now left.
  apply IH. intros a' b' Hb. apply H. now right.
Qed.

(** X19: the list that [_enrich_dates] leaves depends on the network only
    through the answers to the requests for the paths of the items without
    a date whose URL has a path with [/r/] and [/comments/] (and through
    the conversion of timestamps and the order of completion): two networks
    that agree on these requests leave the same list, whatever they answer
    to any other request. *)
Theorem enrichment_reads_only_comment_urls (h : heap) (items : loc) :
  (forall ts, @timestamp_to_date N1 ts = @timestamp_to_date N2 ts) ->
  (forall n, @as_completed N1 n = @as_completed N2 n) ->
  agree_on_comment_urls N1 N2 (h items) ->
  final_heap (@_enrich_dates R N1 h items) items
  = final_heap (@_enrich_dates R N2 h items) items.
Proof.
  intros Hd Ho Ha.
  assert (Hc : forall cur pos,
             @complete R N1 (items_needing_dates (h items)) cur pos
             = @complete R N2 (items_needing_dates (h items)) cur pos).
  { intros cur pos. unfold complete.
    destruct (nth_error (items_needing_dates (h items)) pos)
      as [[idx item]|] eqn:E; [|reflexivity].
    apply nth_error_In, needing_nth in E. destruct E as [Hn Hf].
    rewrite (@fetch_same idx (r_url item) Hd); [reflexivity|].
    intros netloc path Hu H1 H2. exact (Ha idx item netloc path Hn Hf Hu H1 H2). }
  unfold _enrich_dates.
  destruct (items_needing_dates (h items)) as [|t tasks] eqn:E;
    cbn [final_heap]; [reflexivity|].
  rewrite !store_same, Ho.
  apply fold_left_same. intros cur pos _. apply Hc.
Qed.

End Independence.

(* ================================================================== *)
(** * The core subject of a topic *)

Section Words.
Import PyStr.
Open Scope string_scope.

Lemma all_chars_app (p : ascii -> bool) (a b : string) :
  all_chars p (a ++ b) = all_chars p a && all_chars p b.
Proof.
  induction a as [|c a IH]; cbn [append all_chars]; [reflexivity|].
  now rewrite IH, andb_assoc.
Qed.

Lemma app_nonempty (a : string) (c : ascii) :
  String.eqb (a ++ String c "") "" = false.
Proof. destruct a; reflexivity. Qed.

(** The words of [split] are made of the characters of the text. *)
Lemma split_from_all (p : ascii -> bool) (s : string) :
  forall word, all_chars p word = true -> all_chars p s = true ->
  Forall (fun w => all_chars p w = true) (split_from word s).
Proof.
  induction s as [|c s IH]; intros word Hw Hs; cbn [split_from].
  - destruct (String.eqb word ""); constructor; auto.
  - cbn [all_chars] in Hs. apply andb_true_iff in Hs. destruct Hs as [Hc Hs].
    destruct (is_space c).
    + destruct (String.eqb word ""); [|constructor; [exact Hw|]];
        now apply IH.
    + apply IH; [|exact Hs]. rewrite all_chars_app, Hw. cbn [all_chars].
      now rewrite Hc.
Qed.

Lemma split_from_words (s : string) :
  forall word, all_chars not_space word = true ->
  Forall is_word (split_from word s).
Proof.
  induction s as [|c s IH]; intros word Hw; cbn [split_from].
  - destruct (String.eqb_spec word ""); constructor; [split; auto|constructor].
  - destruct (is_space c) eqn:Ec.
    + destruct (String.eqb_spec word "");
        [|constructor; [split; auto|]]; now apply IH.
    + apply IH. rewrite all_chars_app, Hw. cbn [all_chars].
      unfold not_space. now rewrite Ec.
Qed.

Lemma split_words (s : string) : Forall is_word (split s).
Proof. now apply split_from_words. Qed.

Lemma lower_char_lowered (c : ascii) : lowered (lower_char c) = true.
Proof.
  destruct c as [[|] [|] [|] [|] [|] [|] [|] [|]]; vm_compute; reflexivity.
Qed.

Lemma lower_lowered (s : string) : all_chars lowered (lower s) = true.
Proof.
  induction s as [|c s IH]; [reflexivity|].
  cbn [lower all_chars]. now rewrite lower_char_lowered, IH.
Qed.

Lemma lowered_fixed (s : string) : all_chars lowered s = true -> lower s = s.
Proof.
  induction s as [|c s IH]; [reflexivity|]. cbn [all_chars lower].
  intros H. apply andb_true_iff in H. destruct H as [Hc Hs].
  apply Ascii.eqb_eq in Hc. now rewrite Hc, IH.
Qed.

Lemma lower_idempotent (s : string) : lower (lower s) = lower s.
Proof. apply lowered_fixed, lower_lowered. Qed.

Lemma all_chars_join (p : ascii -> bool) (words : list string) :
  p " "%char = true ->
  Forall (fun w => all_chars p w = true) words ->
  all_chars p (join " " words) = true.
Proof.
  intros Hp. unfold join. induction 1 as [|w ws Hw Hws IH]; [reflexivity|].
  cbn [concat]. destruct ws as [|w' ws]; [exact Hw|].
  rewrite all_chars_app, Hw. cbn [append all_chars andb]. now rewrite Hp.
Qed.

Lemma append_empty (s : string) : s ++ "" = s.
Proof. induction s as [|c s IH]; [reflexivity|]. cbn [append]. now rewrite IH. Qed.

Lemma append_assoc (a b c : string) : (a ++ b) ++ c = a ++ (b ++ c).
Proof. induction a as [|x a IH]; [reflexivity|]. cbn [append]. now rewrite IH. Qed.

(** Reading a word puts it in the run being read. *)
Lemma split_from_word (w : string) :
  all_chars not_space w = true ->
  forall word rest, split_from word (w ++ rest) = split_from (word ++ w) rest.
Proof.
  induction w as [|c w IH]; intros Hw word rest.
  - cbn [append]. now rewrite append_empty.
  - cbn [all_chars] in Hw. apply andb_true_iff in Hw. destruct Hw as [Hc Hw].
    cbn [append split_from]. unfold not_space in Hc.
    apply negb_true_iff in Hc. rewrite Hc, (IH Hw), append_assoc.
    reflexivity.
Qed.

(** [' '.join(words).split()] gives the words back. *)
Lemma split_join (words : list string) :
  Forall is_word words -> split (join " " words) = words.
Proof.
  unfold split, join. induction 1 as [|w ws [Hne Hw] Hws IH]; [reflexivity|].
  cbn [concat]. destruct ws as [|w' ws].
  - rewrite <- (append_empty w) at 1.
    rewrite (@split_from_word w Hw). cbn [append split_from].
    destruct (String.eqb_spec w ""); [contradiction|reflexivity].
  - rewrite (@split_from_word w Hw). cbn [append split_from].
    change (is_space " ") with true. cbv iota.
    destruct (String.eqb_spec w ""); [contradiction|]. now rewrite IH.
Qed.

Lemma join_nonempty (words : list string) :
  Forall is_word words -> join " " words = "" -> words = [].
Proof.
  intros H. destruct H as [|w ws [Hne _] _]; [reflexivity|].
  unfold join. cbn [concat]. destruct ws.
  - intros ->. contradiction.
  - destruct w; [contradiction|discriminate].
Qed.

Lemma Forall_firstn {A} (P : A -> Prop) (n : nat) (l : list A) :
  Forall P l -> Forall P (firstn n l).
Proof.
  intros H. revert n. induction H; intros [|n]; cbn [firstn]; constructor; auto.
Qed.

Lemma Forall_filter {A} (P : A -> Prop) (f : A -> bool) (l : list A) :
  Forall P l -> Forall (fun x => P x /\ f x = true) (filter f l).
Proof.
  induction 1 as [|x l Hx Hl IH]; cbn [filter]; [constructor|].
  destruct (f x) eqn:E; [constructor; auto|exact IH].
Qed.

Lemma filter_all {A} (f : A -> bool) (l : list A) :
  Forall (fun x => f x = true) l -> filter f l = l.
Proof.
  induction 1 as [|x l Hx Hl IH]; cbn [filter]; [reflexivity|].
  now rewrite Hx, IH.
Qed.

(** The words that [_extract_core_subject] keeps. *)
Lemma kept_words_shape (topic : string) :
  let words :=
    firstn 3 (filter tavily_reddit.not_noise (split (lower topic))) in
  List.length words <= 3
  /\ Forall (fun w => is_word w /\ lower w = w
                      /\ tavily_reddit.not_noise w = true) words.
Proof.
  cbv zeta. split; [apply firstn_le_length|].
  apply Forall_firstn.
  assert (H : Forall (fun w => is_word w /\ lower w = w) (split (lower topic))).
  { apply Forall_forall. intros w Hin. split.
    - pose proof (split_words (lower topic)) as Hw.
      rewrite Forall_forall in Hw. auto.
    - apply lowered_fixed.
      pose proof (@split_from_all lowered (lower topic) "" eq_refl
                    (lower_lowered topic)) as Hl.
      rewrite Forall_forall in Hl. now apply Hl. }
  eapply Forall_impl; [|apply Forall_filter, H].
  cbn beta. tauto.
Qed.

(** X22: [_extract_core_subject] keeps the first three words of the topic
    in lower case that are not noise: when there is none it returns the
    topic unchanged, and otherwise its result is in lower case and splits
    back into exactly these words. *)
Theorem core_subject_words (topic : string) :
  let words :=
    firstn 3 (filter tavily_reddit.not_noise (split (lower topic))) in
  (words = [] -> tavily_reddit._extract_core_subject topic = topic)
  /\ (words <> [] ->
      split (tavily_reddit._extract_core_subject topic) = words
      /\ lower (tavily_reddit._extract_core_subject topic)
         = tavily_reddit._extract_core_subject topic)
  /\ List.length words <= 3
  /\ Forall (fun w => tavily_reddit.not_noise w = true) words.
Proof.
  cbv zeta. destruct (kept_words_shape topic) as [Hlen Hall].
  cbv zeta in Hlen, Hall. unfold tavily_reddit._extract_core_subject.
  set (words := firstn 3 _) in *. clearbody words.
  assert (Hw : Forall is_word words)
    by (eapply Forall_impl; [|exact Hall]; cbn beta; tauto).
  split; [|split; [|split]].
  - intros ->. reflexivity.
  - intros Hne. destruct (String.eqb_spec (join " " words) "") as [E|_].
    + apply join_nonempty in E; [contradiction|exact Hw].
    + split; [now apply split_join|]. apply lowered_fixed.
      apply all_chars_join; [reflexivity|].
      eapply Forall_impl; [|exact Hall]. cbn beta. intros w (_ & Hl & _).
      rewrite <- Hl. apply lower_lowered.
  - exact Hlen.
  - eapply Forall_impl; [|exact Hall]. cbn beta. tauto.
Qed.

(** X23: [_extract_core_subject] is idempotent: extracting the core subject
    of a core subject changes nothing. *)
Theorem core_subject_idempotent (topic : string) :
  tavily_reddit._extract_core_subject
    (tavily_reddit._extract_core_subject topic)
  = tavily_reddit._extract_core_subject topic.
Proof.
  destruct (kept_words_shape topic) as [Hlen Hall].
  cbv zeta in Hlen, Hall.
  set (words := firstn 3 _) in *.
  assert (Ef : tavily_reddit._extract_core_subject topic
               = if String.eqb (join " " words) "" then topic
                 else join " " words) by reflexivity.
  clearbody words.
  assert (Hw : Forall is_word words)
    by (eapply Forall_impl; [|exact Hall]; cbn beta; tauto).
  destruct (String.eqb_spec (join " " words) "") as [E|Hne].
  - rewrite Ef. exact Ef.
  - rewrite Ef. unfold tavily_reddit._extract_core_subject.
    assert (El : lower (join " " words) = join " " words).
    { apply lowered_fixed. apply all_chars_join; [reflexivity|].
      eapply Forall_impl; [|exact Hall]. cbn beta. intros w (_ & Hl & _).
      rewrite <- Hl. apply lower_lowered. }
    assert (Hk : Forall (fun w => tavily_reddit.not_noise w = true) words)
      by (eapply Forall_impl; [|exact Hall]; cbn beta; tauto).
    rewrite El, (@split_join words Hw), (filter_all _ Hk),
      (firstn_all2 _ Hlen).
    destruct (String.eqb_spec (join " " words) ""); [contradiction|].
    reflexivity.
Qed.

(** X24: a word of the topic is dropped only for one of the seventeen
    one-word entries of the noise list: the entries ["how to"] and
    ["tips for"] hold a space, and no word of [split] does. *)
Theorem noise_phrases_never_filter (topic w : string) :
  In w (split (lower topic)) ->
  tavily_reddit.not_noise w = false ->
  In w [ "best"; "top"; "practices"; "features"; "killer"; "guide";
         "tutorial"; "recommendations"; "advice"; "prompting"; "using";
         "for"; "with"; "the"; "of"; "in"; "on" ].
Proof.
  intros Hin Hn. pose proof (split_words (lower topic)) as Hw.
  rewrite Forall_forall in Hw. destruct (Hw _ Hin) as [_ Hs]. clear Hw Hin.
  unfold tavily_reddit.not_noise in Hn. apply negb_false_iff in Hn.
  apply existsb_exists in Hn. destruct Hn as (n & Hnoise & E).
  apply String.eqb_eq in E. subst n.
  unfold tavily_reddit.noise in Hnoise. cbn [In] in Hnoise |- *.
  repeat (destruct Hnoise as [<-|Hnoise]; [try tauto; try discriminate Hs|]).
  contradiction.
Qed.

End Words.

(* ================================================================== *)
(** * Requests, scores and fields *)

Section Requests.
Context {R : PyRuntime} {H : Http}.
Open Scope string_scope.

Lemma depth_get_other (table : list (string * nat)) (depth : string)
    (default : nat) :
  Forall (fun kv => fst kv <> depth) table ->
  perplexity_search.depth_get table depth default = default.
Proof.
  induction 1 as [|[k v] table Hk Ht IH]; [reflexivity|].
  cbn [perplexity_search.depth_get]. cbn [fst] in Hk.
  destruct (String.eqb_spec k depth); [contradiction|exact IH].
Qed.

(** X20: both web searches treat a depth other than ["quick"] and ["deep"]
    as ["default"]: the request sent, and so the result, is the same. *)
Theorem web_search_other_depth_is_default
    (topic from_date to_date api_key depth : string) :
  depth <> "quick" -> depth <> "deep" ->
  perplexity_search.search_request topic from_date to_date api_key depth
  = perplexity_search.search_request topic from_date to_date api_key "default"
  /\ tavily_search.search_request topic from_date to_date api_key depth
     = tavily_search.search_request topic from_date to_date api_key "default"
  /\ perplexity_search.search_web topic from_date to_date api_key depth
     = perplexity_search.search_web topic from_date to_date api_key "default"
  /\ tavily_search.search_web topic from_date to_date api_key depth
     = tavily_search.search_web topic from_date to_date api_key "default".
Proof.
  intros Hq Hd.
  assert (E : forall a b c dflt,
             perplexity_search.depth_get
               [ ("quick", a); ("default", b); ("deep", c) ] depth dflt
             = if String.eqb "default" depth then b else dflt).
  { intros a b c dflt. cbn [perplexity_search.depth_get].
    destruct (String.eqb_spec "quick" depth); [congruence|].
    destruct (String.eqb_spec "default" depth); [reflexivity|].
    destruct (String.eqb_spec "deep" depth); [congruence|reflexivity]. }
  assert (Ep : perplexity_search.search_request topic from_date to_date
                 api_key depth
               = perplexity_search.search_request topic from_date to_date
                   api_key "default").
  { unfold perplexity_search.search_request, perplexity_search.prompt,
      perplexity_search.max_results_hint, perplexity_search.max_tokens,
      perplexity_search.http_timeout.
    rewrite !E. destruct (String.eqb "default" depth); reflexivity. }
  assert (Et : tavily_search.search_request topic from_date to_date
                 api_key depth
               = tavily_search.search_request topic from_date to_date
                   api_key "default").
  { unfold tavily_search.search_request, tavily_search.max_results,
      tavily_search.search_depth.
    rewrite E. destruct (String.eqb_spec depth "deep"); [contradiction|].
    destruct (String.eqb "default" depth); reflexivity. }
  unfold perplexity_search.search_web, tavily_search.search_web.
  rewrite Ep, Et. auto.
Qed.

(** X21: [search_reddit] with a depth that is none of ["quick"],
    ["default"] and ["deep"] sends the payload of ["default"] but waits with
    the timeout of ["deep"], which is not that of ["default"]. *)
Theorem reddit_search_unknown_depth
    (api_key topic from_date to_date depth : string) :
  depth <> "quick" -> depth <> "default" -> depth <> "deep" ->
  let sent := tavily_reddit.search_request api_key topic from_date to_date in
  req_json (sent depth) = req_json (sent "default")
  /\ req_timeout (sent depth) = req_timeout (sent "deep")
  /\ req_timeout (sent depth) <> req_timeout (sent "default").
Proof.
  intros Hq Hd Hp. cbv zeta.
  unfold tavily_reddit.search_request. cbn [req_json req_timeout].
  unfold tavily_reddit.max_results, tavily_reddit.search_depth,
    tavily_reddit.timeout, tavily_reddit.DEPTH_CONFIG.
  cbn [perplexity_search.depth_get].
  destruct (String.eqb_spec "quick" depth); [congruence|].
  destruct (String.eqb_spec "default" depth); [congruence|].
  destruct (String.eqb_spec "deep" depth); [congruence|].
  destruct (String.eqb_spec depth "quick"); [contradiction|].
  destruct (String.eqb_spec depth "default"); [contradiction|].
  destruct (String.eqb_spec depth "deep"); [contradiction|].
  repeat split. discriminate.
Qed.

End Requests.

Section Scores.
Context {R : PyRuntime}.
Import PyFloat.

(** X13: the score of Tavily when it is a float: a value between 0.0 and
    1.0 is kept, a value below 0.0 (minus infinity too) gives 0.0, a value
    above 1.0 (infinity too) gives 1.0, and a NaN gives 0.0, since
    [max(0.0, nan)] is its first argument. *)
Theorem clamp_score_of_float (f : PyFloat.t) :
  exists g,
    clamp_score (VFloat f) = Ok g
    /\ (le (lit 0.0) f = true -> le f (lit 1.0) = true ->
        le f g = true /\ le g f = true)
    /\ (lt f (lit 0.0) = true -> g = lit 0.0)
    /\ (lt (lit 1.0) f = true -> g = lit 1.0)
    /\ (f = NaN -> g = lit 0.0).
Proof.
  unfold clamp_score, py_float, try_catching. cbn [bind].
  eexists. split; [reflexivity|].
  rewrite lit_zero, lit_one.
  destruct f as [x| | |];
    [|vm_compute; repeat split; try discriminate; auto ..].
  unfold max_t, min_t, lt, le, ltb.
  destruct (Qle_bool x 0) eqn:E0; cbn [negb]; cbv beta iota;
    [change (negb (Qle_bool 1 0)) with true
    |destruct (Qle_bool 1 x) eqn:E1; cbn [negb]]; cbv beta iota;
    repeat split; intros;
    repeat match goal with
      | H : Qle_bool _ _ = true |- _ => apply Qle_bool_iff in H
      | H : Qle_bool _ _ = false |- _ =>
          apply not_true_iff_false in H; rewrite Qle_bool_iff in H
      | H : negb _ = true |- _ => apply negb_true_iff in H
      end;
    try discriminate; try reflexivity; try (exfalso; lra);
    apply Qle_bool_iff; lra.
Qed.

End Scores.

Section FieldFacts.
Context {R : PyRuntime} {N : RedditNet}.
Import PyStr.
Open Scope string_scope.

Lemma prefix_take (p : string) :
  forall s n, prefix p s = true ->
  prefix (p ++ take n (drop (String.length p) s)) s = true.
Proof.
  induction p as [|c p IH]; intros s n H.
  - cbn [append String.length drop]. clear H. revert s.
    induction n as [|n IHn]; intros [|a s]; try reflexivity.
    rewrite take_cons. cbn [prefix].
    destruct (Ascii.ascii_dec a a); [apply IHn|contradiction].
  - destruct s as [|a s]; [discriminate|]. cbn [prefix] in H.
    cbn [append String.length drop prefix].
    destruct (Ascii.ascii_dec c a); [now apply IH|discriminate].
Qed.

Lemma search_subreddit_shape (s g : string) :
  tavily_reddit.search_subreddit s = Some g ->
  g <> "" /\ all_chars tavily_reddit.not_slash g = true
  /\ contains ("/r/" ++ g) s = true.
Proof.
  induction s as [|c s IH].
  - cbn. discriminate.
  - unfold tavily_reddit.search_subreddit;
      fold tavily_reddit.search_subreddit.
    destruct (startswith "/r/" (String c s)) eqn:Es.
    + set (rest := drop 3 (String c s)).
      destruct (Nat.leb 1 (span tavily_reddit.not_slash rest)) eqn:En.
      * intros E. assert (Eg : take (span tavily_reddit.not_slash rest) rest = g)
          by congruence.
        clear E. apply Nat.leb_le in En. split; [|split].
        -- subst g. destruct rest as [|a rest']; [cbn in En; lia|].
           cbn [span] in En |- *.
           destruct (tavily_reddit.not_slash a); [|lia].
           rewrite take_cons. discriminate.
        -- subst g. now apply all_chars_take_span.
        -- subst g. unfold contains; fold contains. apply orb_true_iff. left.
           apply (@prefix_take "/r/" (String c s)
                    (span tavily_reddit.not_slash rest) Es).
      * intros E. destruct (IH E) as (Hg & Ha & Hc).
        split; [exact Hg|]. split; [exact Ha|].
        unfold contains; fold contains. rewrite Hc. apply orb_true_r.
    + intros E. destruct (IH E) as (Hg & Ha & Hc).
      split; [exact Hg|]. split; [exact Ha|].
      unfold contains; fold contains. rewrite Hc. apply orb_true_r.
Qed.

Lemma result_item_subreddit (i : nat) (result : value) (item : RedditItem) :
  tavily_reddit.result_item i result = Ok (Some item) ->
  subreddit_of_path item.
Proof.
  unfold tavily_reddit.result_item. intros Hi.
  destruct result as [| | | | | |d]; try discriminate Hi.
  destruct (negb (Py.truthy (Py.dict_get d "url" (VStr ""))));
    [discriminate Hi|].
  destruct (Py.contains "reddit.com" _) as [is_reddit|];
    cbn [bind] in Hi; [|discriminate Hi].
  destruct is_reddit; cbn [negb] in Hi; [|discriminate Hi].
  destruct (String.eqb (tavily_reddit.title_of d) ""); [discriminate Hi|].
  destruct (tavily_reddit.parse_date _) as [date|]; cbn [bind] in Hi;
    [|discriminate Hi].
  destruct (clamp_score _) as [relevance|]; cbn [bind] in Hi;
    [|discriminate Hi].
  injection Hi as <-. unfold subreddit_of_path. cbn [r_subreddit r_url].
  unfold tavily_reddit.subreddit_of, try_except.
  destruct (urlparse_value (Py.dict_get d "url" (VStr ""))) as [[netloc path]|e];
    cbn [bind snd]; [|split; [reflexivity|intros Hne; now elim Hne]].
  destruct (tavily_reddit.search_subreddit path) as [g|] eqn:Eg;
    [|split; [reflexivity|intros Hne; now elim Hne]].
  destruct (search_subreddit_shape _ Eg) as (_ & Ha & Hc).
  split; [exact Ha|]. intros _. exists netloc, path. auto.
Qed.

(** X16: the [subreddit] of every Reddit item holds no slash, and when it
    is not empty the path of the URL of the item holds [/r/] followed by
    it. *)
Theorem reddit_subreddit_is_path_segment (response : value)
    (items : list RedditItem) :
  tavily_reddit.parse_reddit_response response = Ok items ->
  Forall subreddit_of_path items.
Proof.
  apply parse_reddit_response_Forall.
  - intros d a Ha. exact Ha.
  - intros i result a. apply result_item_subreddit.
Qed.

Lemma all_chars_drop (p : ascii -> bool) (n : nat) :
  forall s, all_chars p s = true -> all_chars p (drop n s) = true.
Proof.
  induction n as [|n IH]; intros [|c s] Hs; try exact Hs.
  cbn [drop]. cbn [all_chars] in Hs. apply andb_true_iff in Hs.
  now apply IH.
Qed.

Lemma domain_lower (netloc : string) :
  let domain := lower netloc in
  lower (if startswith "www." domain then drop 4 domain else domain)
  = (if startswith "www." domain then drop 4 domain else domain).
Proof.
  cbv zeta. apply lowered_fixed.
  destruct (startswith "www." (lower netloc));
    [apply all_chars_drop|]; apply lower_lowered.
Qed.

(** X15: the [source_domain] of every web item is in lower case. *)
Theorem source_domain_is_lower_case (response : value) :
  (forall items, perplexity_search._normalize_results response = Ok items ->
                 Forall (fun item => lower (w_source_domain item)
                                     = w_source_domain item) items)
  /\ (forall items, tavily_search._normalize_results response = Ok items ->
                    Forall (fun item => lower (w_source_domain item)
                                        = w_source_domain item) items).
Proof.
  split; intros items Hi.
  - eapply perplexity_Forall; [|exact Hi].
    intros content counts n i url a Ha.
    destruct (citation_item_shape _ _ _ _ _ Ha) as (u & title & _ & _ & _ & Hd & _).
    unfold perplexity_search.domain_of in Hd.
    destruct (urlparse_value url) as [[netloc path]|e].
    + destruct (perplexity_search.excluded (lower netloc)); [discriminate|].
      injection Hd as <-. apply domain_lower.
    + injection Hd as <-. reflexivity.
  - eapply tavily_Forall; [|exact Hi].
    intros i result a Ha.
    destruct (tavily_item_shape _ _ Ha) as (d & title & snippet & _ & _ & _ & Hd & _).
    unfold tavily_search.domain_of in Hd.
    destruct (urlparse_value (w_url a)) as [[netloc path]|e].
    + destruct (tavily_search.excluded (lower netloc)); [discriminate|].
      injection Hd as <-. apply domain_lower.
    + injection Hd as <-. reflexivity.
Qed.

(** X14: the confidence of a date follows the date: every item of the
    Perplexity normalizer has ["low"], and an item of the Tavily web
    normalizer has ["med"] when its date is truthy and ["low"]
    otherwise. *)
Theorem web_dates_and_confidence (response : value) :
  (forall items, perplexity_search._normalize_results response = Ok items ->
                 Forall (fun item => w_date_confidence item = "low"
                                     /\ confidence_follows_date item) items)
  /\ (forall items, tavily_search._normalize_results response = Ok items ->
                    Forall confidence_follows_date items).
Proof.
  split; intros items Hi.
  - eapply perplexity_Forall; [|exact Hi].
    intros content counts n i url a Ha.
    unfold perplexity_search.citation_item in Ha.
    destruct url as [| | | |u| |]; try discriminate Ha.
    destruct (String.eqb u ""); [discriminate Ha|].
    destruct (perplexity_search.domain_of (VStr u)); [|discriminate Ha].
    destruct (perplexity_search._extract_title_for_citation _ _);
      cbn [bind] in Ha; [|discriminate Ha].
    destruct (perplexity_search._extract_snippet_for_citation _ _);
      cbn [bind] in Ha; [|discriminate Ha].
    injection Ha as <-. split; reflexivity.
  - eapply tavily_Forall; [|exact Hi].
    intros i result a Ha. unfold tavily_search.result_item in Ha.
    destruct result as [| | | | | |d]; try discriminate Ha.
    destruct (negb (Py.truthy _)); [discriminate Ha|].
    destruct (tavily_search.domain_of _); [|discriminate Ha].
    destruct (_ && _); [discriminate Ha|].
    destruct (clamp_score _); cbn [bind] in Ha; [|discriminate Ha].
    destruct (trim_date _); cbn [bind] in Ha; [|discriminate Ha].
    injection Ha as <-. reflexivity.
Qed.

End FieldFacts.

(* ================================================================== *)
(** * Order of rounded values *)

Unset Implicit Arguments.

Module RoundingOrder.
Import PyFloat PyFloatFacts.
Open Scope Q_scope.

Lemma pow2_power (k : Z) : pow2 k == 2 ^ k.
Proof.
  destruct k as [|p|p]; unfold pow2.
  - reflexivity.
  - rewrite Zpower_Qpower by lia. reflexivity.
  - change (2 ^ Z.neg p) with (/ (2 ^ Z.pos p)).
    rewrite <- (Zpower_Qpower 2 (Z.pos p)) by lia.
    rewrite <- Pos2Z.inj_pow. reflexivity.
Qed.

Lemma pow2_add (a b : Z) : pow2 (a + b) == pow2 a * pow2 b.
Proof.
  rewrite !pow2_power. apply Qpower_plus. discriminate.
Qed.

Lemma pow2_opp (k : Z) : pow2 k * pow2 (- k) == 1.
Proof. rewrite <- pow2_add, Z.add_opp_diag_r. reflexivity. Qed.

Lemma pow2_nat (k : Z) : (0 <= k)%Z -> pow2 k = inject_Z (2 ^ k).
Proof. destruct k; [reflexivity|reflexivity|lia]. Qed.

Lemma pow2_le (a b : Z) : (a <= b)%Z -> pow2 a <= pow2 b.
Proof.
  intros H. replace b with (a + (b - a))%Z by lia. rewrite pow2_add.
  pose proof (pow2_pos a).
  assert (1 <= pow2 (b - a)).
  { rewrite pow2_nat by lia. change 1 with (inject_Z 1). rewrite <- Zle_Qle.
    assert (0 < 2 ^ (b - a))%Z by (apply Z.pow_pos_nonneg; lia). lia. }
  nra.
Qed.

Lemma pow2_lt (a b : Z) : (a < b)%Z -> pow2 a < pow2 b.
Proof.
  intros H. replace b with (a + (b - a))%Z by lia. rewrite pow2_add.
  pose proof (pow2_pos a).
  assert (2 <= pow2 (b - a)).
  { rewrite pow2_nat by lia. change 2 with (inject_Z 2). rewrite <- Zle_Qle.
    replace (b - a)%Z with (Z.succ (b - a - 1)) by lia.
    rewrite Z.pow_succ_r by lia.
    assert (0 < 2 ^ (b - a - 1))%Z by (apply Z.pow_pos_nonneg; lia). lia. }
  nra.
Qed.

Lemma pow2_lt_inv (a b : Z) : pow2 a < pow2 b -> (a < b)%Z.
Proof.
  intros H. destruct (Z_lt_le_dec a b) as [|Hge]; [assumption|].
  apply pow2_le in Hge. lra.
Qed.

Lemma pow2_succ (k : Z) : pow2 (k + 1) == 2 * pow2 k.
Proof. rewrite pow2_add. change (pow2 1) with 2. ring. Qed.

(** The exponent that [ilog2] gives brackets the value. *)
Lemma ilog2_spec (a b : positive) :
  pow2 (ilog2 (Zpos a # b)) <= Zpos a # b
  /\ Zpos a # b < pow2 (ilog2 (Zpos a # b) + 1).
Proof.
  unfold ilog2. cbn [Qnum Qden].
  set (x := Zpos a # b).
  set (la := Z.log2 (Zpos a)). set (lb := Z.log2 (Zpos b)).
  destruct (Z.log2_spec (Zpos a)) as [La Ua]; [lia|].
  destruct (Z.log2_spec (Zpos b)) as [Lb Ub]; [lia|].
  fold la in La, Ua. fold lb in Lb, Ub.
  assert (Hla : (0 <= la)%Z) by apply Z.log2_nonneg.
  assert (Hlb : (0 <= lb)%Z) by apply Z.log2_nonneg.
  rewrite Z.pow_succ_r in Ua, Ub by assumption.
  set (A := inject_Z (Zpos a)). set (B := inject_Z (Zpos b)).
  assert (HxB : x * B == A).
  { subst x A B. unfold Qeq, Qmult, inject_Z. cbn [Qnum Qden]. lia. }
  assert (HB : 0 < B) by reflexivity.
  assert (HPA : pow2 la <= A /\ A < 2 * pow2 la).
  { rewrite (pow2_nat _ Hla). subst A. split.
    - now rewrite <- Zle_Qle.
    - change 2 with (inject_Z 2). rewrite <- inject_Z_mult, <- Zlt_Qlt. lia. }
  assert (HPB : pow2 lb <= B /\ B < 2 * pow2 lb).
  { rewrite (pow2_nat _ Hlb). subst B. split.
    - now rewrite <- Zle_Qle.
    - change 2 with (inject_Z 2). rewrite <- inject_Z_mult, <- Zlt_Qlt. lia. }
  set (e0 := (la - lb)%Z).
  assert (HE : pow2 e0 * pow2 lb == pow2 la).
  { rewrite <- pow2_add. subst e0. now replace (la - lb + lb)%Z with la by lia. }
  pose proof (pow2_pos e0) as HE0. pose proof (pow2_pos lb) as HPB0.
  pose proof (pow2_succ e0) as Hs.
  pose proof (pow2_succ (e0 - 1)) as Hp.
  replace (e0 - 1 + 1)%Z with e0 in Hp by lia.
  set (E := pow2 e0) in *. set (PA := pow2 la) in *. set (PB := pow2 lb) in *.
  assert (Hup : x < 2 * E).
  { destruct (Qlt_le_dec x (2 * E)) as [|Hge]; [assumption|exfalso].
    assert (2 * E * B <= x * B) by (apply Qmult_le_compat_r; lra).
    assert (E * PB <= E * B) by (apply Qmult_le_l; lra).
    lra. }
  assert (Hlo : E < 2 * x).
  { destruct (Qlt_le_dec E (2 * x)) as [|Hge]; [assumption|exfalso].
    assert (2 * x * B <= E * B) by (apply Qmult_le_compat_r; lra).
    assert (E * B < E * (2 * PB)) by (apply Qmult_lt_l; lra).
    lra. }
  destruct (Qcompare x E) eqn:C.
  - apply Qeq_alt in C. rewrite Hs. fold E. lra.
  - apply Qlt_alt in C. replace (e0 - 1 + 1)%Z with e0 by lia.
    fold E. lra.
  - apply Qgt_alt in C. rewrite Hs. fold E. lra.
Qed.

Ltac compared C :=
  match type of C with
  | _ = Eq => apply Qeq_alt in C
  | _ = Lt => apply Qlt_alt in C
  | _ = Gt => apply Qgt_alt in C
  end.

Lemma rne_floor (y : Q) : (Qfloor y <= rne y <= Qfloor y + 1)%Z.
Proof.
  unfold rne. destruct (Qcompare _ _); [destruct (Z.even _)| |]; lia.
Qed.

(** Rounding to the nearest integer keeps the order. *)
Lemma rne_mono (x y : Q) : x <= y -> (rne x <= rne y)%Z.
Proof.
  intros Hxy. pose proof (Qfloor_resp_le _ _ Hxy) as Hf.
  destruct (Z.eq_dec (Qfloor x) (Qfloor y)) as [E|Hne].
  - unfold rne. rewrite E.
    destruct (Qcompare (2 * (x - inject_Z (Qfloor y))) 1) eqn:Cx;
      destruct (Qcompare (2 * (y - inject_Z (Qfloor y))) 1) eqn:Cy;
      compared Cx; compared Cy;
      try (destruct (Z.even (Qfloor y))); try lia; exfalso; lra.
  - pose proof (rne_floor x). pose proof (rne_floor y). lia.
Qed.

Lemma rne_int (n : Z) : rne (inject_Z n) = n.
Proof.
  unfold rne. rewrite Qfloor_Z.
  destruct (Qcompare _ _) eqn:C; [apply Qeq_alt in C| |apply Qgt_alt in C];
    try reflexivity; exfalso; lra.
Qed.

(** The rounding of a positive value, with its scale named. *)
Lemma fl_pos (a b : positive) :
  let x := Zpos a # b in
  let k := Z.min (52 - ilog2 x) 1074 in
  fl x == inject_Z (rne (x * pow2 k)) * pow2 (- k).
Proof.
  cbv zeta. unfold fl.
  change (Qeq_bool (Zpos a # b) 0) with false. cbv iota.
  change (Qabs (Zpos a # b)) with (Zpos a # b).
  apply Qred_correct.
Qed.

Lemma scaled_le (r : Z) (k m : Z) :
  (0 <= m)%Z -> (r <= 2 ^ m)%Z ->
  inject_Z r * pow2 (- k) <= pow2 (m - k).
Proof.
  intros Hm Hr. replace (m - k)%Z with (m + - k)%Z by lia.
  rewrite pow2_add, (pow2_nat _ Hm).
  apply Qmult_le_compat_r; [now rewrite <- Zle_Qle|].
  pose proof (pow2_pos (- k)). lra.
Qed.

Lemma fl_mono_pos (a b c d : positive) :
  Zpos a # b <= Zpos c # d -> fl (Zpos a # b) <= fl (Zpos c # d).
Proof.
  intros Hxy. rewrite (fl_pos a b), (fl_pos c d). cbv zeta.
  destruct (ilog2_spec a b) as [Lx Ux]. destruct (ilog2_spec c d) as [Ly Uy].
  set (x := Zpos a # b) in *. set (y := Zpos c # d) in *.
  set (ex := ilog2 x) in *. set (ey := ilog2 y) in *.
  assert (Hex : (ex <= ey)%Z).
  { assert (Hlt : pow2 ex < pow2 (ey + 1)) by lra.
    apply pow2_lt_inv in Hlt. lia. }
  set (kx := Z.min (52 - ex) 1074). set (ky := Z.min (52 - ey) 1074).
  pose proof (pow2_pos kx) as Hkx. pose proof (pow2_pos ky) as Hky.
  pose proof (pow2_pos (- kx)) as Hnkx. pose proof (pow2_pos (- ky)) as Hnky.
  destruct (Z.eq_dec kx ky) as [E|Hne].
  - rewrite E. apply Qmult_le_compat_r; [|lra].
    rewrite <- Zle_Qle. apply rne_mono.
    apply Qmult_le_compat_r; lra.
  - assert (Hk : (ky < kx)%Z) by (subst kx ky; lia).
    assert (Eky : ky = (52 - ey)%Z) by (subst kx ky; lia).
    (* the larger value rounds to its power of two at least *)
    assert (Hy : pow2 ey <= inject_Z (rne (y * pow2 ky)) * pow2 (- ky)).
    { assert (H52 : inject_Z (2 ^ 52) <= y * pow2 ky).
      { rewrite <- (pow2_nat 52) by lia.
        replace 52%Z with (ey + ky)%Z by lia. rewrite pow2_add.
        apply Qmult_le_compat_r; lra. }
      apply rne_mono in H52. rewrite rne_int in H52.
      rewrite Zle_Qle in H52. rewrite <- (pow2_nat 52) in H52 by lia.
      assert (E : pow2 ey == pow2 52 * pow2 (- ky)).
      { rewrite <- pow2_add. now replace (52 + - ky)%Z with ey by lia. }
      rewrite E. apply Qmult_le_compat_r; lra. }
    (* the smaller one to a power of two below *)
    set (m := Z.max (ex + 1 + kx) 0).
    assert (Hm : (0 <= m)%Z) by (subst m; lia).
    assert (Hx : inject_Z (rne (x * pow2 kx)) * pow2 (- kx) <= pow2 (m - kx)).
    { apply scaled_le; [exact Hm|].
      rewrite <- (rne_int (2 ^ m)). apply rne_mono.
      rewrite <- (pow2_nat _ Hm).
      assert (x * pow2 kx <= pow2 (ex + 1) * pow2 kx)
        by (apply Qmult_le_compat_r; lra).
      rewrite <- pow2_add in H.
      assert (pow2 (ex + 1 + kx) <= pow2 m) by (apply pow2_le; subst m; lia).
      lra. }
    assert (Hmk : pow2 (m - kx) <= pow2 ey).
    { apply pow2_le. subst m kx ky. lia. }
    lra.
Qed.

(** Rounding to binary64 keeps the order of the values that are not
    negative. *)
Lemma fl_mono (x y : Q) : 0 <= x -> x <= y -> fl x <= fl y.
Proof.
  intros H0 Hxy. destruct x as [[|a|a] b].
  - change (fl (0 # b)) with 0. apply fl_nonneg. lra.
  - destruct y as [[|c|c] d].
    + exfalso. unfold Qle in Hxy. cbn in Hxy. lia.
    + now apply fl_mono_pos.
    + exfalso. unfold Qle in Hxy. cbn in Hxy. lia.
  - exfalso. unfold Qle in H0. cbn in H0. lia.
Qed.

Lemma max0_nonneg (d : Q) : 0 <= max 0 d.
Proof.
  unfold max, ltb. destruct (Qle_bool d 0) eqn:E; cbn [negb]; [lra|].
  apply not_true_iff_false in E. rewrite Qle_bool_iff in E. lra.
Qed.

Lemma max0_mono (u v : Q) : u <= v -> max 0 u <= max 0 v.
Proof.
  intros H. unfold max, ltb.
  destruct (Qle_bool u 0) eqn:Eu, (Qle_bool v 0) eqn:Ev; cbn [negb];
    repeat match goal with
      | H : Qle_bool _ _ = true |- _ => apply Qle_bool_iff in H
      | H : Qle_bool _ _ = false |- _ =>
          apply not_true_iff_false in H; rewrite Qle_bool_iff in H
      end; lra.
Qed.

Lemma max0_fl_mono (a b : Q) : a <= b -> max 0 (fl a) <= max 0 (fl b).
Proof.
  intros H. destruct (Qlt_le_dec a 0) as [Hn|Hp].
  - assert (Ha : fl a <= 0) by (apply fl_nonpos; lra).
    pose proof (max0_nonneg (fl b)).
    unfold max at 1. unfold ltb. apply Qle_bool_iff in Ha. rewrite Ha.
    exact H0.
  - apply max0_mono. now apply fl_mono.
Qed.

Lemma min_mono (c t t' : Q) : t <= t' -> min c t <= min c t'.
Proof.
  intros H. unfold min, ltb.
  destruct (Qle_bool c t) eqn:Eu, (Qle_bool c t') eqn:Ev; cbn [negb];
    repeat match goal with
      | H : Qle_bool _ _ = true |- _ => apply Qle_bool_iff in H
      | H : Qle_bool _ _ = false |- _ =>
          apply not_true_iff_false in H; rewrite Qle_bool_iff in H
      end; lra.
Qed.

Lemma inject_nonneg (z : Z) : (0 <= z)%Z -> 0 <= inject_Z z.
Proof. intros H. change 0 with (inject_Z 0). now rewrite <- Zle_Qle. Qed.

Lemma position_score_mono (i j n : nat) :
  (i <= j)%nat ->
  let N := inject_Z (Z.max (Z.of_nat n) 1) in
  max 0 (fsub 1 (fdiv (inject_Z (Z.of_nat j)) N))
  <= max 0 (fsub 1 (fdiv (inject_Z (Z.of_nat i)) N)).
Proof.
  intros Hij. cbv zeta. unfold fsub, fdiv.
  set (N := inject_Z (Z.max (Z.of_nat n) 1)).
  assert (HN : 0 < N).
  { subst N. change 0 with (inject_Z 0). rewrite <- Zlt_Qlt. lia. }
  assert (Hi : 0 <= inject_Z (Z.of_nat i)) by (apply inject_nonneg; lia).
  assert (Hle : inject_Z (Z.of_nat i) <= inject_Z (Z.of_nat j))
    by (rewrite <- Zle_Qle; lia).
  assert (Hq : fl (inject_Z (Z.of_nat i) / N) <= fl (inject_Z (Z.of_nat j) / N)).
  { apply fl_mono.
    - apply Qle_shift_div_l; [exact HN|]. lra.
    - apply Qmult_le_compat_r; [exact Hle|]. apply Qinv_le_0_compat. lra. }
  apply max0_fl_mono. lra.
Qed.

Lemma ref_bonus_mono (r r' : nat) :
  (r <= r')%nat ->
  min (fl 0.1) (fmul (of_int (Z.of_nat r - 1)) (fl 0.05))
  <= min (fl 0.1) (fmul (of_int (Z.of_nat r' - 1)) (fl 0.05)).
Proof.
  intros Hr. apply min_mono. unfold fmul, of_int.
  destruct lit_bounds as (_ & _ & H05 & _).
  assert (Hpos : forall k, (1 <= k)%nat ->
            0 <= fl (inject_Z (Z.of_nat k - 1)) * fl 0.05).
  { intros k Hk. apply Qmult_le_0_compat; [|exact H05].
    apply fl_nonneg, inject_nonneg. lia. }
  destruct r as [|r].
  - destruct r' as [|r']; [apply Qle_refl|].
    assert (H0 : fl (fl (inject_Z (Z.of_nat 0 - 1)) * fl 0.05) <= 0)
      by by_computation.
    assert (H1 : 0 <= fl (fl (inject_Z (Z.of_nat (S r') - 1)) * fl 0.05))
      by (apply fl_nonneg, Hpos; lia).
    lra.
  - apply fl_mono; [apply Hpos; lia|].
    apply Qmult_le_compat_r; [|exact H05].
    apply fl_mono; [apply inject_nonneg; lia|].
    rewrite <- Zle_Qle. lia.
Qed.

End RoundingOrder.

Unset Implicit Arguments.

Section Ranking.
Import PyFloat PyFloatFacts RoundingOrder.
Open Scope Q_scope.

(** The sum and its rounding to two decimals keep the order of the position
    score and of the bonus. *)
Lemma score_mono (c d pj pi bj bi : Q) :
  0 <= c -> 0 <= d -> 0 <= pj -> pj <= pi -> bj <= bi ->
  0 <= fl (c + fl (d * pj)) + bj ->
  round2 (fadd (fadd c (fmul d pj)) bj)
  <= round2 (fadd (fadd c (fmul d pi)) bi).
Proof.
  intros Hc Hd Hpj Hp Hb Ht0. unfold round2, fadd, fmul.
  assert (Ha0 : 0 <= d * pj) by (apply Qmult_le_0_compat; assumption).
  assert (Ha : fl (d * pj) <= fl (d * pi)).
  { apply fl_mono; [exact Ha0|]. rewrite !(Qmult_comm d).
    apply Qmult_le_compat_r; assumption. }
  pose proof (@fl_nonneg _ Ha0) as Haj.
  set (aj := fl (d * pj)) in *. set (ai := fl (d * pi)) in *.
  clearbody aj ai.
  assert (Hs : fl (c + aj) <= fl (c + ai)) by (apply fl_mono; lra).
  set (sj := fl (c + aj)) in *. set (si := fl (c + ai)) in *.
  clearbody sj si.
  assert (Ht : fl (sj + bj) <= fl (si + bi)) by (apply fl_mono; lra).
  pose proof (@fl_nonneg _ Ht0) as Htj.
  set (tj := fl (sj + bj)) in *. set (ti := fl (si + bi)) in *.
  clearbody tj ti.
  assert (HK : (rne (tj * 100) <= rne (ti * 100))%Z)
    by (apply rne_mono; lra).
  assert (HK0 : (0 <= rne (tj * 100))%Z) by (apply rne_nonneg; lra).
  apply fl_mono.
  - apply Qle_shift_div_l; [reflexivity|].
    apply inject_nonneg in HK0. lra.
  - apply Qmult_le_compat_r; [now rewrite <- Zle_Qle|discriminate].
Qed.

Lemma base_score_low (a : Q) : 0 <= a -> 1 # 2 <= fl (fl 0.55 + a).
Proof.
  intros Ha.
  assert (H55 : 0 <= fl 0.55) by by_computation.
  assert (H : fl (fl 0.55) <= fl (fl 0.55 + a)).
  { apply fl_mono; [exact H55|]. set (c := fl 0.55) in *. clearbody c. lra. }
  assert (H0 : 1 # 2 <= fl (fl 0.55)) by by_computation.
  set (u := fl (fl 0.55)) in *. set (v := fl (fl 0.55 + a)) in *.
  clearbody u v. lra.
Qed.

Lemma relevance_unfolded (i n r : nat) :
  perplexity_search.relevance i n r
  = round2
      (fadd
         (fadd (fl 0.55)
            (fmul (fl 0.35)
               (max 0
                  (fsub 1
                     (fdiv (inject_Z (Z.of_nat i))
                        (inject_Z (Z.max (Z.of_nat n) 1)))))))
         (min (fl 0.1) (fmul (of_int (Z.of_nat r - 1)) (fl 0.05)))).
Proof. reflexivity. Qed.

Lemma score_nonneg (p b : Q) :
  0 <= p -> - (5 # 100) - eps <= b ->
  0 <= fl (fl 0.55 + fl (fl 0.35 * p)) + b.
Proof.
  intros Hp Hb.
  assert (H35 : 0 <= fl 0.35) by by_computation.
  assert (Ha0 : 0 <= fl (fl 0.35 * p))
    by (apply fl_nonneg, Qmult_le_0_compat; assumption).
  pose proof (base_score_low _ Ha0) as Hlo.
  pose proof eps_small as Heps.
  set (s := fl (fl 0.55 + fl (fl 0.35 * p))) in *. clearbody s.
  set (e := eps) in *. clearbody e. lra.
Qed.

(** X12: with the rounding of binary64 at every step and of [round] at the
    end, the relevance of a citation never grows with its position and
    never shrinks with the number of its references. *)
Theorem relevance_follows_order (i j n r r' : nat) :
  (i <= j)%nat -> (r <= r')%nat ->
  perplexity_search.relevance j n r <= perplexity_search.relevance i n r'.
Proof.
  intros Hij Hr. rewrite !relevance_unfolded.
  apply score_mono.
  - by_computation.
  - by_computation.
  - apply max0_nonneg.
  - exact (@position_score_mono i j n Hij).
  - exact (@ref_bonus_mono r r' Hr).
  - apply score_nonneg; [apply max0_nonneg|].
    exact (proj1 (ref_bonus_bounds r)).
Qed.

End Ranking.

Set Implicit Arguments.

(* ================================================================== *)
(** * Hosts, titles, dates and the pool *)

Section HostFilter.
Context {R : PyRuntime} {N : RedditNet}.
Open Scope string_scope.



End HostFilter.

Section PoolBound.
Context {R : PyRuntime} {N : RedditNet}.
Import tavily_reddit.




End PoolBound.

Section Provenance.
Context {R : PyRuntime} {N : RedditNet}.
Open Scope string_scope.

(** Each element that a loop appended comes from an element of the list,
    at a position. *)
Lemma for_enumerate_origin {A B} (body : nat -> A -> pyresult (option B))
    (l : list A) (out : list B) :
  for_enumerate body 0 l = Ok out ->
  Forall (fun b => exists k x,
            nth_error l k = Some x /\ body k x = Ok (Some b)) out.
Proof.
  intros H. destruct (for_enumerate_positions _ _ _ H) as (ks & _ & _ & Hf).
  clear H. induction Hf as [|k b ks out (x & Hn & Hk) _ IH]; constructor;
    [|exact IH].
  exists k, x. rewrite Nat.sub_0_r in Hn. auto.
Qed.

(** The three loops, with the list they run over. *)
Lemma perplexity_loop (response : value) (items : list WebItem) :
  perplexity_search._normalize_results response = Ok items ->
  items = []
  \/ exists d citations content counts,
       response = VDict d
       /\ Py.dict_get d "citations" (VList []) = VList citations
       /\ perplexity_search._get_content response = Ok content
       /\ for_enumerate
            (perplexity_search.citation_item content counts
               (List.length citations)) 0 citations = Ok items.
Proof.
  unfold perplexity_search._normalize_results. intros H.
  destruct response as [| | | | | |d]; try discriminate H.
  cbn [Py.get bind] in H.
  destruct (perplexity_search._get_content (VDict d)) as [content|];
    cbn [bind] in H; [|discriminate].
  destruct (Py.dict_get d "citations" (VList []))
    as [| | | | |[|c l]|] eqn:Ec;
    try (injection H as <-; now left).
  destruct (perplexity_search._count_citation_references _ _) as [counts|];
    cbn [bind] in H; [|discriminate].
  right. exists d, (c :: l), content, counts. auto.
Qed.

Lemma tavily_loop (response : value) (items : list WebItem) :
  tavily_search._normalize_results response = Ok items ->
  items = []
  \/ exists d results,
       response = VDict d
       /\ Py.dict_get d "results" (VList []) = VList results
       /\ for_enumerate tavily_search.result_item 0 results = Ok items.
Proof.
  unfold tavily_search._normalize_results. intros H.
  destruct response as [| | | | | |d]; try discriminate H.
  cbn [Py.get bind] in H.
  destruct (Py.dict_get d "results" (VList [])) as [| | | | |results|] eqn:Er;
    try (injection H as <-; now left).
  right. exists d, results. auto.
Qed.

Lemma reddit_loop (response : value) (items : list RedditItem) :
  tavily_reddit.parse_reddit_response response = Ok items ->
  items = []
  \/ exists d results items0,
       response = VDict d
       /\ Py.dict_get d "results" (VList []) = VList results
       /\ for_enumerate tavily_reddit.result_item 0 results = Ok items0
       /\ Forall2 enriched_from items0 items.
Proof.
  unfold tavily_reddit.parse_reddit_response. intros H.
  destruct response as [| | | | | |d]; try discriminate H.
  cbn [Py.get bind] in H.
  destruct (Py.dict_get d "results" (VList [])) as [| | | | |results|] eqn:Er;
    try (injection H as <-; now left).
  destruct (for_enumerate tavily_reddit.result_item 0 results)
    as [items0|] eqn:E; cbn [bind] in H; [|discriminate].
  destruct items0 as [|a items0]; [injection H as <-; now left|].
  right. exists d, results, (a :: items0). repeat split; try assumption.
  injection H as <-.
  pose proof (enrich_dates_frame
                (tavily_reddit.store (fun _ => []) 0 (a :: items0)) 0) as Hf.
  now rewrite store_same in Hf.
Qed.




Lemma citation_item_title (content : value) (counts : list (nat * nat))
    (n i : nat) (url : value) (item : WebItem) :
  perplexity_search.citation_item content counts n i url = Ok (Some item) ->
  match perplexity_search._extract_title_for_citation content (i + 1) with
  | Ok (Some extracted) =>
      3 < String.length extracted
      /\ w_title item = PyStr.take 200 extracted
  | Ok None => w_title item = PyStr.take 200 (w_source_domain item)
  | Raise _ => False
  end.
Proof.
  unfold perplexity_search.citation_item. intros H.
  destruct url as [| | | |u| |]; try discriminate H.
  destruct (String.eqb u ""); [discriminate H|].
  destruct (perplexity_search.domain_of (VStr u)) as [domain|];
    [|discriminate H].
  destruct (perplexity_search._extract_title_for_citation content (i + 1))
    as [[t|]|] eqn:Et; cbn [bind] in H; [| |discriminate H];
    (destruct (perplexity_search._extract_snippet_for_citation _ _);
     cbn [bind] in H; [|discriminate H]); injection H as <-.
  - split; [|reflexivity]. eapply extracted_title_long; eauto.
  - reflexivity.
Qed.

(** The domain that the web loops store for a URL. *)
Lemma stored_domain (url : value) (domain : string) :
  perplexity_search.domain_of url = Some domain ->
  (forall netloc path, urlparse_value url = Ok (netloc, path) ->
     domain = (if PyStr.startswith "www." (PyStr.lower netloc)
               then PyStr.drop 4 (PyStr.lower netloc)
               else PyStr.lower netloc))
  /\ (forall e, urlparse_value url = Raise e -> domain = "").
Proof.
  unfold perplexity_search.domain_of. intros H. split.
  - intros netloc path Hu. rewrite Hu in H.
    destruct (perplexity_search.excluded _); [discriminate|].
    now injection H as <-.
  - intros e Hu. rewrite Hu in H. now injection H as <-.
Qed.

Lemma tavily_item_fields (i : nat) (result : value) (item : WebItem) :
  tavily_search.result_item i result = Ok (Some item) ->
  exists r,
    result = VDict r
    /\ Py.dict_get r "url" (VStr "") = w_url item
    /\ w_title item
       = PyStr.take 200 (PyStr.strip (py_str (Py.dict_get r "title" (VStr ""))))
    /\ w_snippet item
       = PyStr.take 500
           (PyStr.strip (py_str (Py.dict_get r "content" (VStr ""))))
    /\ trim_date (Py.dict_get r "published_date" VNone) = Ok (w_date item).
Proof.
  unfold tavily_search.result_item. intros H.
  destruct result as [| | | | | |r]; try discriminate H.
  destruct (negb (Py.truthy (Py.dict_get r "url" (VStr ""))));
    [discriminate H|].
  destruct (tavily_search.domain_of _) as [domain|]; [|discriminate H].
  match type of H with
  | (if ?c then _ else _) = _ => destruct c; [discriminate H|]
  end.
  destruct (clamp_score _) as [f|]; cbn [bind] in H; [|discriminate H].
  destruct (trim_date _) as [date|] eqn:Ed; cbn [bind] in H; [|discriminate H].
  injection H as <-. exists r. repeat split; reflexivity || exact Ed.
Qed.

Lemma reddit_item_fields (i : nat) (result : value) (item : RedditItem) :
  tavily_reddit.result_item i result = Ok (Some item) ->
  exists r,
    result = VDict r
    /\ Py.dict_get r "url" (VStr "") = r_url item
    /\ r_title item
       = PyStr.take 200
           (let title :=
              PyStr.strip (py_str (Py.dict_get r "title" (VStr ""))) in
            if String.eqb title ""
            then PyStr.take 100
                   (PyStr.strip (py_str (Py.dict_get r "content" (VStr ""))))
            else title)
    /\ tavily_reddit.parse_date (Py.dict_get r "published_date" VNone)
       = Ok (r_date item).
Proof.
  intros H.
  destruct (reddit_item_shape _ _ H)
    as (r & title & -> & Hu & _ & _ & _ & Ht & Htitle & Hd & _).
  exists r. split; [reflexivity|]. split; [now rewrite Hu|].
  split; [|exact Hd]. rewrite Ht, Htitle. reflexivity.
Qed.

(** C7, as amended: every item of every normalizer has a truthy [url].  An
    item of the Perplexity normalizer comes from a citation at a position
    [k]: its title is the first 200 characters of the title extracted for
    the citation [k + 1], which has more than 3 characters, or, when none
    is extracted, of its [source_domain], so it is non-empty whenever the
    [source_domain] is; the [source_domain] is the authority of the URL in
    lower case without a leading [www.], or empty when the URL cannot be
    parsed.  An item of the Tavily web normalizer comes from a result of
    the response: its title and snippet are the stripped [title] and
    [content] of that result, cut to 200 and 500 characters, and one of
    them is non-empty.  An item of the Reddit normalizer comes from a
    result of the response: its title is non-empty, the stripped [title] of
    the result or, when that is empty, the first 100 characters of its
    stripped [content], cut to 200 characters. *)
Theorem emitted_urls_and_titles_of_results (response : value) :
  (forall items, perplexity_search._normalize_results response = Ok items ->
     Forall (fun item =>
               Py.truthy (w_url item) = true
               /\ (w_source_domain item <> "" -> w_title item <> "")
               /\ exists d citations content k,
                    response = VDict d
                    /\ Py.dict_get d "citations" (VList []) = VList citations
                    /\ perplexity_search._get_content response = Ok content
                    /\ nth_error citations k = Some (w_url item)
                    /\ match perplexity_search._extract_title_for_citation
                               content (k + 1) with
                       | Ok (Some extracted) =>
                           3 < String.length extracted
                           /\ w_title item = PyStr.take 200 extracted
                       | Ok None =>
                           w_title item
                           = PyStr.take 200 (w_source_domain item)
                       | Raise _ => False
                       end
                    /\ (forall netloc path,
                          urlparse_value (w_url item) = Ok (netloc, path) ->
                          w_source_domain item
                          = (if PyStr.startswith "www." (PyStr.lower netloc)
                             then PyStr.drop 4 (PyStr.lower netloc)
                             else PyStr.lower netloc))
                    /\ (forall e, urlparse_value (w_url item) = Raise e ->
                                  w_source_domain item = "")) items)
  /\ (forall items, tavily_search._normalize_results response = Ok items ->
        Forall (fun item =>
                  Py.truthy (w_url item) = true
                  /\ (w_title item <> "" \/ w_snippet item <> "")
                  /\ exists d results k r,
                       response = VDict d
                       /\ Py.dict_get d "results" (VList []) = VList results
                       /\ nth_error results k = Some (VDict r)
                       /\ Py.dict_get r "url" (VStr "") = w_url item
                       /\ w_title item
                          = PyStr.take 200
                              (PyStr.strip
                                 (py_str (Py.dict_get r "title" (VStr ""))))
                       /\ w_snippet item
                          = PyStr.take 500
                              (PyStr.strip
                                 (py_str (Py.dict_get r "content" (VStr "")))))
               items)
  /\ (forall items, tavily_reddit.parse_reddit_response response = Ok items ->
        Forall (fun item =>
                  Py.truthy (r_url item) = true
                  /\ r_title item <> ""
                  /\ exists d results k r,
                       response = VDict d
                       /\ Py.dict_get d "results" (VList []) = VList results
                       /\ nth_error results k = Some (VDict r)
                       /\ Py.dict_get r "url" (VStr "") = r_url item
                       /\ r_title item
                          = PyStr.take 200
                              (let title :=
                                 PyStr.strip
                                   (py_str (Py.dict_get r "title" (VStr ""))) in
                               if String.eqb title ""
                               then PyStr.take 100
                                      (PyStr.strip
                                         (py_str
                                            (Py.dict_get r "content" (VStr ""))))
                               else title))
               items).
Proof.
  split; [|split]; intros items H.
  - destruct (perplexity_loop _ H)
      as [->|(d & citations & content & counts & -> & Hc & Hg & Hl)];
      [constructor|].
    apply for_enumerate_origin in Hl.
    eapply Forall_impl; [|exact Hl]. cbn beta.
    intros item (k & x & Hn & Hb).
    destruct (citation_item_shape _ _ _ _ _ Hb)
      as (u & title & -> & Hu & Hurl & Hdom & Ht & Hfall & _).
    pose proof (citation_item_title _ _ _ _ _ Hb) as Htitle.
    rewrite <- Hurl in Hdom. destruct (stored_domain _ Hdom) as [Hok Hraise].
    split; [rewrite Hurl; now apply truthy_nonempty|]. split.
    + intros Hd. rewrite Ht. apply (take_nonempty 199).
      destruct Hfall as [->|Hlong]; [exact Hd | now apply long_nonempty].
    + exists d, citations, content, k.
      split; [reflexivity|]. split; [exact Hc|]. split; [exact Hg|].
      split; [now rewrite Hurl|]. split; [exact Htitle|].
      split; [exact Hok|exact Hraise].
  - destruct (tavily_loop _ H) as [->|(d & results & -> & Hr & Hl)];
      [constructor|].
    apply for_enumerate_origin in Hl.
    eapply Forall_impl; [|exact Hl]. cbn beta.
    intros item (k & x & Hn & Hb).
    destruct (tavily_item_shape _ _ Hb)
      as (d0 & title & snippet & _ & _ & Hu & _ & Ht & Hs & Hne & _).
    destruct (tavily_item_fields _ _ Hb) as (r & -> & Hurl & Ht' & Hs' & _).
    split; [exact Hu|]. split.
    + rewrite Ht, Hs.
      destruct Hne; [left; apply (take_nonempty 199)
                    |right; apply (take_nonempty 499)]; assumption.
    + exists d, results, k, r. auto 10.
  - destruct (reddit_loop _ H)
      as [->|(d & results & items0 & -> & Hr & Hl & Hf)]; [constructor|].
    apply for_enumerate_origin in Hl.
    apply Forall2_transfer
      with (Rel := enriched_from)
           (P := fun a => exists k x,
                   nth_error results k = Some x
                   /\ tavily_reddit.result_item k x = Ok (Some a))
           (l := items0); [|exact Hf|exact Hl].
    intros a b Hab (k & x & Hn & Hb).
    destruct (reddit_item_shape _ _ Hb)
      as (d0 & title & _ & _ & Hu & _ & Hne & Ht & _).
    destruct (reddit_item_fields _ _ Hb) as (r & -> & Hurl & Ht' & _).
    assert (Esame : r_url b = r_url a /\ r_title b = r_title a)
      by (destruct Hab as [->|(_ & idx & _ & ->)]; split; reflexivity).
    destruct Esame as [Eu Et]. rewrite Eu, Et.
    split; [exact Hu|]. split.
    + rewrite Ht. now apply (take_nonempty 199).
    + exists d, results, k, r. auto 10.
Qed.


End Provenance.

(* ================================================================== *)
(** * Cases *)

(** A case of X1: a Reddit post among the citations is left out, and the other
    citation is kept. *)
Lemma perplexity_urls_are_kept_citations_witness :
  exists items,
    @perplexity_search._normalize_results Reference.runtime
      Reference.mixed_citations = Ok items
    /\ map w_url items = [ VStr "https://a.example/p1"%string ]
    /\ map w_url items
       = filter (@citation_kept Reference.runtime)
           [ VStr Reference.post_url; VStr "https://a.example/p1"%string ]
    /\ List.length items <= 2.
Proof.
  eexists. split; [vm_compute; reflexivity|]. split; [reflexivity|].
  refine (@perplexity_urls_are_kept_citations Reference.runtime
            (Samples.fields_of Reference.mixed_citations) _ _ _ _).
  - reflexivity.
  - vm_compute. reflexivity.
Defined.

(** A case of X2: of three results, one of a denylisted authority and one that
    is no dict are left out. *)
Lemma tavily_urls_are_kept_results_witness :
  exists results items,
    Py.dict_get (Samples.fields_of Samples.combined) "results" (VList [])
    = VList results
    /\ @tavily_search._normalize_results Reference.runtime Samples.combined
       = Ok items
    /\ map w_url items = [ VStr "https://www.example.com/a"%string ]
    /\ map w_url items
       = map url_of (filter (@web_result_kept Reference.runtime) results)
    /\ List.length items <= List.length results.
Proof.
  do 2 eexists. split; [reflexivity|]. split; [vm_compute; reflexivity|].
  split; [reflexivity|].
  refine (@tavily_urls_are_kept_results Reference.runtime
            (Samples.fields_of Samples.combined) _ _ _ _).
  - reflexivity.
  - vm_compute. reflexivity.
Defined.


(** A case of X4: the only item kept is the third result, and its identifier
    is [W3]. *)
Lemma item_ids_name_positions_witness :
  exists citations results items,
    Py.dict_get (Samples.fields_of Samples.combined) "citations" (VList [])
    = VList citations
    /\ Py.dict_get (Samples.fields_of Samples.combined) "results" (VList [])
       = VList results
    /\ @tavily_search._normalize_results Reference.runtime Samples.combined
       = Ok items
    /\ map w_id items = [ "W3"%string ]
    /\ NoDup (map w_id items)
    /\ Forall (fun item => exists k result,
                 nth_error results k = Some result
                 /\ @url_of result = w_url item
                 /\ w_id item = ("W" ++ PyStr.dec (k + 1))%string) items.
Proof.
  do 3 eexists. split; [reflexivity|]. split; [reflexivity|].
  split; [vm_compute; reflexivity|]. split; [reflexivity|].
  refine (proj1 (proj2 (@item_ids_name_positions Reference.runtime
                          Reference.online
                          (Samples.fields_of Samples.combined) _ _ _ _)) _ _).
  - reflexivity.
  - reflexivity.
  - vm_compute. reflexivity.
Defined.

(** A case of X5: the text of the sample response is found. *)
Lemma get_content_reads_path_witness :
  perplexity_search._get_content Reference.two_citations = Ok Samples.text.
Proof.
  refine (proj1 (proj2 get_content_reads_path)
            (Samples.fields_of Reference.two_citations) _ _ _ _ _ _ _);
    reflexivity.
Defined.

(** A case of X6: the sample response of Sonar has a text, and the normalizer
    returns. *)
Lemma perplexity_returns_witness :
  perplexity_search._get_content Reference.two_citations = Ok Samples.text
  /\ text_or_falsy Samples.text
  /\ exists items,
       @perplexity_search._normalize_results Reference.runtime
         Reference.two_citations = Ok items.
Proof.
  assert (Ht : text_or_falsy Samples.text) by (right; eexists; reflexivity).
  split; [reflexivity|]. split; [exact Ht|].
  exact (@perplexity_returns Reference.runtime
           (Samples.fields_of Reference.two_citations) Samples.text
           eq_refl Ht).
Defined.

(** A case of X7: the well-formed sample result is readable, and the
    normalizer returns. *)
Lemma tavily_returns_witness :
  exists items,
    @tavily_search._normalize_results Reference.runtime Reference.web_results
    = Ok items.
Proof.
  refine (@tavily_returns Reference.runtime
            (Samples.fields_of Reference.web_results) _).
  intros results E. vm_compute in E. injection E as <-.
  constructor; [|constructor].
  intros d Ed. injection Ed as <-. split.
  - right. left. eexists. reflexivity.
  - intros z Ez. discriminate Ez.
Defined.

(** A case of X8: the sample Reddit result is readable, and the normalizer
    returns. *)
Lemma reddit_returns_witness :
  exists items,
    @tavily_reddit.parse_reddit_response Reference.runtime Reference.online
      Reference.reddit_results = Ok items.
Proof.
  refine (@reddit_returns Reference.runtime Reference.online
            (Samples.fields_of Reference.reddit_results) _).
  intros results E. vm_compute in E. injection E as <-.
  constructor; [|constructor].
  intros d Ed. injection Ed as <-. split; [|split].
  - right. left. eexists. reflexivity.
  - left. reflexivity.
  - intros z Ez. discriminate Ez.
Defined.


(** A case of X10: the title of the first citation of the sample text. *)
Lemma extracted_title_shape_witness :
  exists title,
    perplexity_search._extract_title_for_citation Samples.text 1
    = Ok (Some title)
    /\ title = "First Article is great. More on"%string
    /\ 3 < String.length title <= 80
    /\ all_chars title_char title = true.
Proof.
  eexists. split; [vm_compute; reflexivity|]. split; [reflexivity|].
  refine (@extracted_title_shape Samples.text 1 _ _).
  vm_compute. reflexivity.
Defined.

(** A case of X11: the snippet of the second citation of the sample text. *)
Lemma extracted_snippet_shape_witness :
  exists snippet,
    perplexity_search._extract_snippet_for_citation Samples.text 2
    = Ok (Some snippet)
    /\ snippet = "More on  Second Article."%string
    /\ 10 < String.length snippet
    /\ one_sentence snippet
    /\ all_chars (fun c => negb (PyStr.is_emphasis c)) snippet = true.
Proof.
  eexists. split; [vm_compute; reflexivity|]. split; [reflexivity|].
  refine (@extracted_snippet_shape Samples.text 2 _ _).
  vm_compute. reflexivity.
Defined.

(** A case of X12: the second of two citations, referred to once, against the
    first, referred to twice. *)
Lemma relevance_follows_order_witness :
  0 <= 1 /\ 1 <= 2
  /\ (perplexity_search.relevance 1 2 1 <= perplexity_search.relevance 0 2 2)%Q.
Proof.
  assert (H01 : 0 <= 1) by lia. assert (H12 : 1 <= 2) by lia.
  split; [exact H01|]. split; [exact H12|].
  exact (relevance_follows_order 0 1 2 1 2 H01 H12).
Defined.

(** A case of X14: the sample result has a date, so its confidence is [med].
    *)
Lemma web_dates_and_confidence_witness :
  exists items,
    @tavily_search._normalize_results Reference.runtime Reference.web_results
    = Ok items
    /\ map w_date_confidence items = [ "med"%string ]
    /\ Forall confidence_follows_date items.
Proof.
  eexists. split; [vm_compute; reflexivity|]. split; [reflexivity|].
  refine (proj2 (@web_dates_and_confidence Reference.runtime
                   Reference.web_results) _ _).
  vm_compute. reflexivity.
Defined.

(** A case of X15: a URL in upper case. *)
Lemma source_domain_is_lower_case_witness :
  exists items,
    @tavily_search._normalize_results Reference.runtime
      Samples.upper_case_url = Ok items
    /\ map w_source_domain items = [ "example.com"%string ]
    /\ Forall (fun item => PyStr.lower (w_source_domain item)
                           = w_source_domain item) items.
Proof.
  eexists. split; [vm_compute; reflexivity|]. split; [reflexivity|].
  refine (proj2 (@source_domain_is_lower_case Reference.runtime
                   Samples.upper_case_url) _ _).
  vm_compute. reflexivity.
Defined.

Lemma online_completes (n : nat) : @every_future_completes Reference.online n.
Proof.
  intros pos Hpos. cbn [as_completed Reference.online].
  apply in_rev. rewrite rev_involutive. apply in_seq. lia.
Qed.

(** A case of X17: on the network whose futures complete in reverse order, the
    undated item of the sample list gets its date. *)
Lemma enrich_dates_itemwise_witness :
  @every_future_completes Reference.online 1
  /\ map r_date
       (tavily_reddit.final_heap
          (@tavily_reddit._enrich_dates Reference.runtime Reference.online
             Reference.undated_heap 0) 0)
     = [ VStr "2024-05-01"; VStr "2023-11-14" ]%string
  /\ tavily_reddit.final_heap
       (@tavily_reddit._enrich_dates Reference.runtime Reference.online
          Reference.undated_heap 0) 0
     = map (fun p => @enrich_item Reference.runtime Reference.online
                       (fst p) (snd p))
         (tavily_reddit.enumerate 0 (Reference.undated_heap 0)).
Proof.
  split; [apply online_completes|]. split; [vm_compute; reflexivity|].
  apply (@enrich_dates_itemwise Reference.runtime Reference.online
           Reference.undated_heap 0).
  apply online_completes.
Defined.

(** A case of X18: the dated item of the sample list is left as it was. *)
Lemma enrich_dates_isolates_failures_witness :
  let item := Reference.reddit_item Reference.post_url (VStr "2024-05-01") in
  nth_error (Reference.undated_heap 0) 0 = Some item
  /\ Py.truthy (r_date item) = true
  /\ nth_error
       (tavily_reddit.final_heap
          (@tavily_reddit._enrich_dates Reference.runtime Reference.online
             Reference.undated_heap 0) 0) 0
     = Some item.
Proof.
  cbv zeta. split; [reflexivity|]. split; [reflexivity|].
  apply (@enrich_dates_isolates_failures Reference.runtime Reference.online
           Reference.undated_heap 0 0).
  - reflexivity.
  - left. reflexivity.
Defined.

(** A case of X19: a network that fails on every request but the one for the
    sample post leaves the sample list as the answering network does. *)
Lemma enrichment_reads_only_comment_urls_witness :
  (forall ts, @timestamp_to_date Reference.online ts
              = @timestamp_to_date Samples.selective ts)
  /\ (forall n, @as_completed Reference.online n
                = @as_completed Samples.selective n)
  /\ @agree_on_comment_urls Reference.runtime Reference.online
       Samples.selective (Reference.undated_heap 0)
  /\ @get_reddit_json Reference.online 0 "/r/rust/"
     <> @get_reddit_json Samples.selective 0 "/r/rust/"
  /\ tavily_reddit.final_heap
       (@tavily_reddit._enrich_dates Reference.runtime Reference.online
          Reference.undated_heap 0) 0
     = tavily_reddit.final_heap
         (@tavily_reddit._enrich_dates Reference.runtime Samples.selective
            Reference.undated_heap 0) 0.
Proof.
  assert (Hd : forall ts, @timestamp_to_date Reference.online ts
                          = @timestamp_to_date Samples.selective ts)
    by reflexivity.
  assert (Ho : forall n, @as_completed Reference.online n
                         = @as_completed Samples.selective n)
    by reflexivity.
  assert (Ha : @agree_on_comment_urls Reference.runtime Reference.online
                 Samples.selective (Reference.undated_heap 0)).
  { intros idx item netloc path Hn Hf Hu _ _.
    destruct idx as [|[|idx]]; cbn in Hn.
    - injection Hn as <-. discriminate Hf.
    - injection Hn as <-. vm_compute in Hu. injection Hu as <- <-.
      reflexivity.
    - destruct idx; discriminate Hn. }
  split; [exact Hd|]. split; [exact Ho|]. split; [exact Ha|].
  split; [discriminate|].
  exact (@enrichment_reads_only_comment_urls Reference.runtime
           Reference.online Samples.selective Reference.undated_heap 0
           Hd Ho Ha).
Defined.

(** A case of X16: the sample Reddit post is of the subreddit [rust]. *)
Lemma reddit_subreddit_is_path_segment_witness :
  exists items,
    @tavily_reddit.parse_reddit_response Reference.runtime Reference.online
      Reference.reddit_results = Ok items
    /\ map r_subreddit items = [ "rust"%string ]
    /\ Forall (@subreddit_of_path Reference.runtime) items.
Proof.
  eexists. split; [vm_compute; reflexivity|]. split; [reflexivity|].
  refine (@reddit_subreddit_is_path_segment Reference.runtime Reference.online
            Reference.reddit_results _ _).
  vm_compute. reflexivity.
Defined.

(** A case of X20: the depth [thorough]. *)
Lemma web_search_other_depth_is_default_witness :
  "thorough"%string <> "quick"%string
  /\ "thorough"%string <> "deep"%string
  /\ @perplexity_search.search_web Reference.runtime Samples.canned
       "rust" "2024-01-01" "2024-01-31" "key" "thorough"
     = @perplexity_search.search_web Reference.runtime Samples.canned
         "rust" "2024-01-01" "2024-01-31" "key" "default"
  /\ tavily_search.search_request "rust" "2024-01-01" "2024-01-31" "key"
       "thorough"
     = tavily_search.search_request "rust" "2024-01-01" "2024-01-31" "key"
         "default".
Proof.
  assert (Hq : "thorough"%string <> "quick"%string) by discriminate.
  assert (Hd : "thorough"%string <> "deep"%string) by discriminate.
  split; [exact Hq|]. split; [exact Hd|].
  destruct (@web_search_other_depth_is_default Reference.runtime Samples.canned
              "rust" "2024-01-01" "2024-01-31" "key" "thorough" Hq Hd)
    as (_ & Ht & Hp & _).
  split; [exact Hp|exact Ht].
Defined.

(** A case of X21: the depth [thorough] waits 60 seconds. *)
Lemma reddit_search_unknown_depth_witness :
  "thorough"%string <> "quick"%string
  /\ "thorough"%string <> "default"%string
  /\ "thorough"%string <> "deep"%string
  /\ req_timeout
       (tavily_reddit.search_request "key" "rust" "2024-01-01" "2024-01-31"
          "thorough") = 60
  /\ req_json
       (tavily_reddit.search_request "key" "rust" "2024-01-01" "2024-01-31"
          "thorough")
     = req_json
         (tavily_reddit.search_request "key" "rust" "2024-01-01" "2024-01-31"
            "default").
Proof.
  assert (Hq : "thorough"%string <> "quick"%string) by discriminate.
  assert (Hd : "thorough"%string <> "default"%string) by discriminate.
  assert (Hp : "thorough"%string <> "deep"%string) by discriminate.
  split; [exact Hq|]. split; [exact Hd|]. split; [exact Hp|].
  split; [reflexivity|].
  exact (proj1 (@reddit_search_unknown_depth "key" "rust" "2024-01-01"
                  "2024-01-31" "thorough" Hq Hd Hp)).
Defined.

(** A case of X22: a topic with two words that are not noise, and one with
    none. *)
Lemma core_subject_words_witness :
  tavily_reddit._extract_core_subject "Best practices for Rust  async"
  = "rust async"%string
  /\ PyStr.split
       (tavily_reddit._extract_core_subject "Best practices for Rust  async")
     = [ "rust"; "async" ]%string
  /\ tavily_reddit._extract_core_subject "The best of" = "The best of"%string.
Proof.
  split; [reflexivity|]. split.
  - refine (proj1 (proj1 (proj2 (core_subject_words
                                   "Best practices for Rust  async")) _)).
    discriminate.
  - refine (proj1 (core_subject_words "The best of") _). reflexivity.
Defined.

(** A case of X24: the word [for] is dropped for its own entry; [how to cook]
    loses nothing. *)
Lemma noise_phrases_never_filter_witness :
  In "for"%string (PyStr.split (PyStr.lower "Tips FOR Rust"))
  /\ tavily_reddit.not_noise "for" = false
  /\ tavily_reddit._extract_core_subject "how to cook" = "how to cook"%string
  /\ In "for"%string
       [ "best"; "top"; "practices"; "features"; "killer"; "guide";
         "tutorial"; "recommendations"; "advice"; "prompting"; "using";
         "for"; "with"; "the"; "of"; "in"; "on" ]%string.
Proof.
  assert (Hin : In "for"%string (PyStr.split (PyStr.lower "Tips FOR Rust")))
    by (vm_compute; tauto).
  split; [exact Hin|]. split; [reflexivity|]. split; [reflexivity|].
  exact (@noise_phrases_never_filter "Tips FOR Rust" "for" Hin eq_refl).
Defined.


(** What the amended C5 leaves out: the host of a URL with a port is in the
    denylist, its authority is not, and both web normalizers return the
    item. *)
Lemma denylisted_host_with_port_emitted :
  @urlparse Reference.runtime Samples.port_url
    = Ok ("reddit.com:443", "/r/rust/comments/1/t")%string
  /\ hostname "reddit.com:443" = "reddit.com"%string
  /\ denylisted_name (hostname "reddit.com:443") = true
  /\ ~ authority_is_host "reddit.com:443"
  /\ (exists item,
        @perplexity_search._normalize_results Reference.runtime
          Samples.port_citation = Ok [item]
        /\ w_url item = VStr Samples.port_url
        /\ w_source_domain item = "reddit.com:443"%string)
  /\ (exists item,
        @tavily_search._normalize_results Reference.runtime
          Samples.port_result = Ok [item]
        /\ w_url item = VStr Samples.port_url).
Proof.
  split; [reflexivity|]. split; [reflexivity|]. split; [reflexivity|].
  split; [discriminate|].
  split; eexists; (split; [vm_compute; reflexivity|]); repeat split.
Qed.




(** A case of C7: the sample responses of the three normalizers. *)
Lemma emitted_urls_and_titles_of_results_witness :
  (exists items,
      @perplexity_search._normalize_results Reference.runtime
        Reference.two_citations = Ok items
      /\ map w_title items
         = [ "First Article is great. More on"; "Second Article. Also" ]%string
      /\ Forall (fun item =>
                   Py.truthy (w_url item) = true
                   /\ (w_source_domain item <> "" -> w_title item <> ""))%string
                items)
  /\ (exists items,
        @tavily_search._normalize_results Reference.runtime
          Reference.web_results = Ok items
        /\ Forall (fun item =>
                     Py.truthy (w_url item) = true
                     /\ (w_title item <> "" \/ w_snippet item <> ""))%string
                  items)
  /\ (exists items,
        @tavily_reddit.parse_reddit_response Reference.runtime Reference.online
          Reference.reddit_results = Ok items
        /\ Forall (fun item =>
                     Py.truthy (r_url item) = true
                     /\ r_title item <> ""%string) items).
Proof.
  split; [|split]; eexists; (split; [vm_compute; reflexivity|]).
  - split; [reflexivity|].
    eapply Forall_impl;
      [|refine (proj1 (@emitted_urls_and_titles_of_results Reference.runtime
                         Reference.online Reference.two_citations) _ _);
        vm_compute; reflexivity].
    cbn beta. tauto.
  - eapply Forall_impl;
      [|refine (proj1 (proj2 (@emitted_urls_and_titles_of_results
                                Reference.runtime Reference.online
                                Reference.web_results)) _ _);
        vm_compute; reflexivity].
    cbn beta. tauto.
  - eapply Forall_impl;
      [|refine (proj2 (proj2 (@emitted_urls_and_titles_of_results
                                Reference.runtime Reference.online
                                Reference.reddit_results)) _ _);
        vm_compute; reflexivity].
    cbn beta. tauto.
Defined.


